(** * DaoSshMysql: a shallow embedding of src/dal/dao-ssh/dao-ssh-mysql.ts

    The data-access object of the agent that reaches a MySQL database through
    an SSH tunnel.  The embedding follows the TypeScript source function by
    function and keeps its names.

    - [Js]      the JavaScript values and built-ins the source relies on
                (truthiness, template literals, [slice], [split], [indexOf],
                [splice], [JSON.stringify]);
    - [Knex]    the query builder: the statements the source pushes, and the
                meaning of the WHERE list they form once compiled to SQL;
    - [Cacher]  the process-wide resource cache with [getMySqlDriver] and
                [configureKnex];
    - [Dao]     the operations of the class, in a state-and-exception monad
                over the JavaScript heap and the remote database. *)

From Stdlib Require Import ZArith String Ascii List.
From stdpp Require Import gmap strings list fin_maps pretty.

Set Warnings "-register-all".
Open Scope Z_scope.

(* ===================================================================== *)
(** * JavaScript values and built-ins                                     *)
(* ===================================================================== *)

Module Js.

(** JSON-shaped JavaScript values.  Numbers are the integers (the page
    numbers, counts, lengths and keys this code handles); a nested object
    keeps its keys in insertion order, which [JSON.stringify] observes. *)
Inductive JsValue :=
| VUndefined
| VNull
| VBool (b : bool)
| VNum (n : Z)
| VStr (s : string)
| VArr (xs : list JsValue)
| VObj (kvs : list (string * JsValue)).

(** ToBoolean. *)
Definition truthy (v : JsValue) : bool :=
  match v with
  | VUndefined | VNull => false
  | VBool b => b
  | VNum n => negb (n =? 0)
  | VStr s => negb (String.eqb s "")
  | VArr _ | VObj _ => true
  end.

(** A value of static type [number] that may be missing: [None] is
    [undefined].  [!n] is true for a missing number and for zero. *)
Definition num_truthy (n : option Z) : bool :=
  match n with
  | Some z => negb (z =? 0)
  | None => false
  end.

(** [n <= 0] and [n > 0]; a comparison with [undefined] is false. *)
Definition num_le0 (n : option Z) : bool :=
  match n with Some z => z <=? 0 | None => false end.

Definition num_gt0 (n : option Z) : bool :=
  match n with Some z => 0 <? z | None => false end.

(** [sep]-separated concatenation, [Array.prototype.join]. *)
Fixpoint join (sep : string) (xs : list string) : string :=
  match xs with
  | [] => ""
  | [x] => x
  | x :: rest => x +:+ sep +:+ join sep rest
  end.

(** ToString, as a template literal [`${v}`] applies it. *)
Fixpoint toString (v : JsValue) : string :=
  match v with
  | VUndefined => "undefined"
  | VNull => "null"
  | VBool true => "true"
  | VBool false => "false"
  | VNum n => pretty n
  | VStr s => s
  | VArr xs =>
      join "," (map (fun x => match x with
                              | VUndefined | VNull => ""
                              | _ => toString x
                              end) xs)
  | VObj _ => "[object Object]"
  end.

(** [String.prototype.toLowerCase] on the ASCII letters. *)
Definition lower_ascii (c : ascii) : ascii :=
  let n := nat_of_ascii c in
  if ((65 <=? n) && (n <=? 90))%nat then ascii_of_nat (n + 32) else c.

Fixpoint toLowerCase (s : string) : string :=
  match s with
  | EmptyString => EmptyString
  | String c s' => String (lower_ascii c) (toLowerCase s')
  end.

(** [String.prototype.slice(start, end)]: a negative index counts from the
    end, both are clamped to the string, and an empty range gives [""]. *)
Definition slice_index (len i : Z) : Z :=
  if i <? 0 then Z.max (len + i) 0 else Z.min i len.

Definition slice (s : string) (start stop : Z) : string :=
  let len := Z.of_nat (String.length s) in
  let from := slice_index len start in
  let to := slice_index len stop in
  substring (Z.to_nat from) (Z.to_nat (to - from)) s.

(** [String.prototype.split(sep)] for a non-empty separator: scan left to
    right, cut at every occurrence, resume after it.  [skip] counts the
    characters of a matched separator still to be passed over. *)
Fixpoint split_go (sep : string) (skip : nat) (cur : string) (s : string)
  : list string :=
  match s with
  | EmptyString => [cur]
  | String c s' =>
      match skip with
      | S k => split_go sep k cur s'
      | O =>
          if String.prefix sep s
          then cur :: split_go sep (String.length sep - 1) "" s'
          else split_go sep 0 (cur +:+ String c "") s'
      end
  end.

Definition split (sep : string) (s : string) : list string :=
  split_go sep 0 "" s.

(** No single quote in the string. *)
Fixpoint quote_free (s : string) : bool :=
  match s with
  | EmptyString => true
  | String c s' => negb (Ascii.eqb c "'") && quote_free s'
  end.

(** [Array.prototype.indexOf] on an array of strings: the first position
    holding [x], or [-1]. *)
Fixpoint indexOf (xs : list string) (x : string) : Z :=
  match xs with
  | [] => -1
  | y :: rest =>
      if String.eqb y x then 0
      else let i := indexOf rest x in if i <? 0 then -1 else i + 1
  end.

(** [Array.prototype.includes] on an array of strings. *)
Definition includes (xs : list string) (x : string) : bool :=
  existsb (String.eqb x) xs.

(** [xs.splice(i, 1)] for [0 <= i]: the array without position [i]
    (unchanged when [i] is past the end). *)
Definition splice1 (xs : list string) (i : Z) : list string :=
  delete (Z.to_nat i) xs.

(** ** JSON.stringify *)

Definition dquote : string := String (ascii_of_nat 34) "".
Definition backslash : string := String (ascii_of_nat 92) "".

Definition hex_digit (n : nat) : ascii :=
  if (n <? 10)%nat then ascii_of_nat (48 + n) else ascii_of_nat (87 + n).

Definition json_escape_char (c : ascii) : string :=
  let n := nat_of_ascii c in
  if (n =? 34)%nat then backslash +:+ dquote
  else if (n =? 92)%nat then backslash +:+ backslash
  else if (n =? 8)%nat then backslash +:+ "b"
  else if (n =? 12)%nat then backslash +:+ "f"
  else if (n =? 10)%nat then backslash +:+ "n"
  else if (n =? 13)%nat then backslash +:+ "r"
  else if (n =? 9)%nat then backslash +:+ "t"
  else if (n <? 32)%nat
       then backslash +:+ "u00"
            +:+ String (hex_digit (n / 16)) (String (hex_digit (n mod 16)) "")
  else String c "".

Fixpoint json_escape (s : string) : string :=
  match s with
  | EmptyString => EmptyString
  | String c s' => json_escape_char c +:+ json_escape s'
  end.

Definition json_quote (s : string) : string :=
  dquote +:+ json_escape s +:+ dquote.

(** The serialization of a value, [None] where JavaScript gives [undefined]
    (so that an array prints it as [null] and an object leaves the key out). *)
Fixpoint json_text (v : JsValue) : option string :=
  match v with
  | VUndefined => None
  | VNull => Some "null"
  | VBool true => Some "true"
  | VBool false => Some "false"
  | VNum n => Some (pretty n)
  | VStr s => Some (json_quote s)
  | VArr xs =>
      Some ("[" +:+ join "," (map (fun x => default "null" (json_text x)) xs)
                +:+ "]")
  | VObj kvs =>
      Some ("{" +:+ join ","
                     (flat_map
                        (fun kv => match json_text (snd kv) with
                                   | Some t => [json_quote (fst kv) +:+ ":" +:+ t]
                                   | None => []
                                   end) kvs)
                +:+ "}")
  end.

(** [JSON.stringify(v)]: a string, or [undefined] for [undefined]. *)
Definition JSON_stringify (v : JsValue) : JsValue :=
  match json_text v with
  | Some t => VStr t
  | None => VUndefined
  end.

End Js.

(* ===================================================================== *)
(** * The query builder                                                   *)
(* ===================================================================== *)

Module Knex.
Import Js.

(** The connective a statement is pushed with ([where]/[andWhere] push
    [And], [orWhere]/[orWhereRaw] push [Or]). *)
Inductive BoolOp := And | Or.

(** The condition of one WHERE statement: [column operator value], or a raw
    SQL fragment with its bindings. *)
Inductive Cond :=
| WhereBasic (column : string) (operator : string) (value : JsValue)
| WhereRaw (sql : string) (bindings : list JsValue).

Record WhereStmt := {
  w_bool : BoolOp;
  w_not : bool;
  w_cond : Cond }.

(** [orderBy(column, direction)]; the column is whatever was passed, also
    [undefined]. *)
Record OrderStmt := {
  o_column : option string;
  o_direction : string }.

Record Builder := {
  b_from : option string;
  b_columns : list string;
  b_wheres : list WhereStmt;
  b_orders : list OrderStmt;
  b_limit : option Z;
  b_offset : option Z }.

(** [knex()] and [knex(tableName)]. *)
Definition knex (table : option string) : Builder :=
  {| b_from := table; b_columns := []; b_wheres := []; b_orders := [];
     b_limit := None; b_offset := None |}.

Definition from (table : string) (b : Builder) : Builder :=
  {| b_from := Some table; b_columns := b_columns b; b_wheres := b_wheres b;
     b_orders := b_orders b; b_limit := b_limit b; b_offset := b_offset b |}.

Definition select (columns : list string) (b : Builder) : Builder :=
  {| b_from := b_from b; b_columns := b_columns b ++ columns;
     b_wheres := b_wheres b; b_orders := b_orders b;
     b_limit := b_limit b; b_offset := b_offset b |}.

Definition push_where (w : WhereStmt) (b : Builder) : Builder :=
  {| b_from := b_from b; b_columns := b_columns b;
     b_wheres := b_wheres b ++ [w]; b_orders := b_orders b;
     b_limit := b_limit b; b_offset := b_offset b |}.

Definition andWhere (column operator : string) (value : JsValue) :=
  push_where {| w_bool := And; w_not := false;
                w_cond := WhereBasic column operator value |}.

Definition andWhereNot (column operator : string) (value : JsValue) :=
  push_where {| w_bool := And; w_not := true;
                w_cond := WhereBasic column operator value |}.

Definition orWhere (column operator : string) (value : JsValue) :=
  push_where {| w_bool := Or; w_not := false;
                w_cond := WhereBasic column operator value |}.

Definition orWhereRaw (sql : string) (bindings : list JsValue) :=
  push_where {| w_bool := Or; w_not := false; w_cond := WhereRaw sql bindings |}.

Definition orderBy (column : option string) (direction : string)
    (b : Builder) : Builder :=
  {| b_from := b_from b; b_columns := b_columns b; b_wheres := b_wheres b;
     b_orders := b_orders b ++ [{| o_column := column; o_direction := direction |}];
     b_limit := b_limit b; b_offset := b_offset b |}.

(** [limit(n)] and [offset(n)]; a value that is not a number ([None]) sets
    nothing. *)
Definition limit (n : option Z) (b : Builder) : Builder :=
  {| b_from := b_from b; b_columns := b_columns b; b_wheres := b_wheres b;
     b_orders := b_orders b;
     b_limit := match n with Some _ => n | None => b_limit b end;
     b_offset := b_offset b |}.

Definition offset (n : option Z) (b : Builder) : Builder :=
  {| b_from := b_from b; b_columns := b_columns b; b_wheres := b_wheres b;
     b_orders := b_orders b; b_limit := b_limit b;
     b_offset := match n with Some _ => n | None => b_offset b end |}.

(** [modify(callback)] hands the builder to the callback. *)
Definition modify (callback : Builder -> Builder) (b : Builder) : Builder :=
  callback b.

(** A loop [for (const x of xs) { builder.m(x) }]. *)
Definition for_of {A} (xs : list A) (body : A -> Builder -> Builder)
    (b : Builder) : Builder :=
  fold_left (fun acc x => body x acc) xs b.

(** [whereNull(column)], written as the fragment it compiles to. *)
Definition whereNull (column : string) :=
  push_where {| w_bool := And; w_not := false;
                w_cond := WhereRaw "?? is null" [VStr column] |}.

(** [where(object)]: for every own property of the object,
    [where(key, value)]; with two arguments that is [key = value], and
    [whereNull(key)] when the value is [null]. *)
Definition objectWhere (obj : list (string * JsValue)) (b : Builder)
  : Builder :=
  for_of obj (fun property =>
    match property.2 with
    | VNull => whereNull property.1
    | value => andWhere property.1 "=" value
    end) b.

(** ** The compiled WHERE clause

    The compiler writes the statements in the order they were pushed, each
    but the first preceded by its own [and]/[or] (and by [not] when negated),
    without parentheses. *)
Definition cond_sql (c : Cond) : string :=
  match c with
  | WhereBasic column operator _ => "`" +:+ column +:+ "` " +:+ operator +:+ " ?"
  | WhereRaw sql _ => sql
  end.

Definition stmt_sql (w : WhereStmt) : string :=
  (if w_not w then "not " else "") +:+ cond_sql (w_cond w).

Definition bool_sql (o : BoolOp) : string :=
  match o with And => "and" | Or => "or" end.

Fixpoint where_sql_rest (ws : list WhereStmt) : string :=
  match ws with
  | [] => ""
  | w :: rest => " " +:+ bool_sql (w_bool w) +:+ " " +:+ stmt_sql w
                   +:+ where_sql_rest rest
  end.

Definition where_sql (ws : list WhereStmt) : string :=
  match ws with
  | [] => ""
  | w :: rest => "where " +:+ stmt_sql w +:+ where_sql_rest rest
  end.

(** ** SQL's reading of that clause

    Truth values are three-valued ([None] is UNKNOWN, what a comparison
    with NULL gives); AND binds tighter than OR; a row is selected when the
    clause is TRUE. *)
Definition tri := option bool.

Definition not3 (a : tri) : tri := negb <$> a.

Definition and3 (a b : tri) : tri :=
  match a, b with
  | Some false, _ | _, Some false => Some false
  | Some true, Some true => Some true
  | _, _ => None
  end.

Definition or3 (a b : tri) : tri :=
  match a, b with
  | Some true, _ | _, Some true => Some true
  | Some false, Some false => Some false
  | _, _ => None
  end.

(** The conjunction and the disjunction of a list of truth values. *)
Definition all3 (vs : list tri) : tri := foldr and3 (Some true) vs.
Definition any3 (vs : list tri) : tri := foldr or3 (Some false) vs.

Definition is_true (v : tri) : bool :=
  match v with Some true => true | _ => false end.

Section Where.
(** The value the server gives each atomic condition on the row at hand. *)
Variable atom : Cond -> tri.

Definition stmt_value (w : WhereStmt) : tri :=
  if w_not w then not3 (atom (w_cond w)) else atom (w_cond w).

(** [acc] is the value of the AND-group being read. *)
Fixpoint where_go (acc : tri) (ws : list WhereStmt) : tri :=
  match ws with
  | [] => acc
  | w :: rest =>
      match w_bool w with
      | And => where_go (and3 acc (stmt_value w)) rest
      | Or => or3 acc (where_go (stmt_value w) rest)
      end
  end.

Definition where_value (ws : list WhereStmt) : tri :=
  match ws with
  | [] => Some true
  | w :: rest => where_go (stmt_value w) rest
  end.

Definition selected (ws : list WhereStmt) : bool :=
  is_true (where_value ws).

End Where.

End Knex.

(* ===================================================================== *)
(** * Connections, handles and the resource cache                         *)
(* ===================================================================== *)

Import Js.

(** What the code throws. *)
Inductive Exn :=
| TypeError (message : string)
| DriverError (message : string)
| HttpException (message : string) (status : Z)
| ErrorOf (cause : Exn).

(** [IConnection] (interfaces, not in src): the eight properties the source
    reads from it, and [rest] for every further property of the object (the
    tunnel's own settings, which [getSshMySqlClient] takes from it). *)
Record IConnection := {
  host : string;
  username : string;
  password : string;
  database : string;
  port : Z;
  type : string;
  ssl : bool;
  cert : string;
  rest : list (string * string) }.

#[global] Instance IConnection_eq_dec : EqDecision IConnection.
Proof. solve_decision. Defined.

#[global] Instance IConnection_countable : Countable IConnection.
Proof.
  refine (inj_countable'
    (fun c => (host c, username c, password c, database c, port c, type c,
               ssl c, cert c, rest c))
    (fun t => let '(h, u, p, d, po, ty, s, ce, r) := t in
              {| host := h; username := u; password := p; database := d;
                 port := po; type := ty; ssl := s; cert := ce; rest := r |}) _).
  by intros [].
Defined.

(** The object literal every operation builds from [this.connection]:
    the eight properties, nothing else. *)
Definition connectionConfig (connection : IConnection) : IConnection :=
  {| host := host connection; username := username connection;
     password := password connection; database := database connection;
     port := port connection; type := type connection;
     ssl := ssl connection; cert := cert connection; rest := [] |}.

(** The driver [getSshMySqlClient] yields: a client bound to the tunnel
    opened for [connection] on the local port. *)
Record SshMySqlClient := {
  client_connection : IConnection;
  client_port : Z }.

(** The options [configureKnex] passes to [knex({...})]. *)
Inductive SslOption :=
| SslCa (ca : string)
| SslRejectUnauthorized (reject : bool).

Record KnexOptions := {
  k_client : string;
  k_host : string;
  k_user : string;
  k_password : string;
  k_database : string;
  k_port : Z;
  k_ssl : SslOption;
  k_pool_min : Z;
  k_pool_max : Z }.

(** A cached value is untyped in the source ([any]): either kind of handle
    fits either cache. *)
Inductive Handle :=
| SshDriver (client : SshMySqlClient)
| KnexInstance (options : KnexOptions).

Module Cacher.

(** Modelled from the spec: the class [Cacher] (helpers/cache, not in src).
    A process-wide cache from connection descriptors, compared structurally,
    to the tunnelled driver and, independently, to the built query-engine
    handle; [get] returns the stored resource or nothing, [put] stores;
    nothing is evicted here. *)
Record State := {
  driverCache : gmap IConnection Handle;
  knexCache : gmap IConnection Handle }.

Definition empty : State := {| driverCache := ∅; knexCache := ∅ |}.

Definition getCachedKnex (connectionConfig : IConnection) (st : State)
  : option Handle := knexCache st !! connectionConfig.

Definition getDriverCache (connection : IConnection) (st : State)
  : option Handle := driverCache st !! connection.

Definition setDriverCache (connection : IConnection) (newDriver : Handle)
    (st : State) : State :=
  {| driverCache := <[connection := newDriver]> (driverCache st);
     knexCache := knexCache st |}.

End Cacher.

(* ===================================================================== *)
(** * The data model of the class                                         *)
(* ===================================================================== *)

(** A row of a table or of a result set, and a plain object such as the
    [row] and [primaryKey] arguments: property name to value. *)
Abbreviation Row := (gmap string JsValue).

(** A reference to a heap-allocated array or object. *)
Definition loc := positive.

(** A row of [information_schema.columns], its keys in lower case.  The
    structure query projects the first seven columns; the primary-key query
    selects on [column_key]. *)
Record CatalogColumn := {
  cat_column_name : string;
  cat_column_default : option string;
  cat_data_type : string;
  cat_column_type : string;
  cat_is_nullable : string;
  cat_extra : string;
  cat_character_maximum_length : option Z;
  cat_column_key : string }.

(** [IStructureInfo]: an element of [getTableStructure]'s result. *)
Record IStructureInfo := {
  column_name : string;
  column_default : option string;
  data_type : string;
  column_type : string;
  allow_null : bool;
  extra : string;
  character_maximum_length : option Z;
  data_type_params : option (list string) }.

(** [ITablePrimaryColumnInfo]. *)
Record ITablePrimaryColumnInfo := {
  pk_column_name : string;
  pk_data_type : string }.

(** [ITableSettings].  [list_fields] is a reference: the array it names is
    shared with the caller.  The other sequences are only ever read. *)
Record ITableSettings := {
  list_fields : option loc;
  excluded_fields : option (list string);
  search_fields : option (list string);
  ordering_field : option string;
  ordering : option string;
  list_per_page : option Z }.

(** [FilterCriteriaEnum] (enums, not in src): the members the source
    switches on. *)
Module FilterCriteriaEnum.
Inductive t :=
| eq | startswith | endswith | gt | lt | lte | gte | contains | icontains.
End FilterCriteriaEnum.

Record FilterObject := {
  f_field : string;
  f_criteria : FilterCriteriaEnum.t;
  f_value : JsValue }.

Record AutocompleteFields := {
  ac_fields : list string;
  ac_value : string }.

Record Pagination := {
  total : Z;
  lastPage : option Z;
  perPage : option Z;
  currentPage : option Z }.

(** [IDaoRowsRO]; [pagination = None] is the empty object [{}]. *)
Record IDaoRowsRO := {
  data : list Row;
  pagination : option Pagination }.

(** [Constants] and [Messages] (helpers and text, not in src): the values
    the source reads from them. *)
Record ConstantsT := {
  DEFAULT_PAGINATION_page : Z;
  DEFAULT_PAGINATION_perPage : Z;
  AUTOCOMPLETE_ROW_LIMIT : Z;
  FAILED_ESTABLISH_SSH_CONNECTION : string }.

(** The knex instance and the connection a statement is sent with:
    [knex(...).connection(mySqlDriver)]. *)
Record Via := {
  via_knex : Handle;
  via_connection : Handle }.

(** The collaborators outside this class: the port allocator, the tunnel,
    and the MySQL server reached through it.  A server operation is given
    the handles the statement was sent with and answers with a result or
    with the driver's error. *)
Class Collaborators := {
  Database : Type;
  (** [getPort()]: the port handed out at the n-th request. *)
  getPort : nat -> Z;
  (** [getSshMySqlClient(connection, freePort)], or the error's message. *)
  getSshMySqlClient : IConnection -> Z -> string + SshMySqlClient;
  (** [information_schema.columns] for a schema and a table. *)
  information_schema_columns :
    Via -> Database -> string -> string -> Exn + list CatalogColumn;
  (** The rows a table holds. *)
  table_rows : Via -> Database -> string -> Exn + list Row;
  (** The value of an atomic condition on a row. *)
  cond_value : Row -> Knex.Cond -> Knex.tri;
  (** The rows in the order an ORDER BY list asks for. *)
  order_rows : list Knex.OrderStmt -> list Row -> list Row;
  (** INSERT, the follow-up [select LAST_INSERT_ID()], and UPDATE. *)
  exec_insert : Via -> Database -> string -> Row -> Exn + Database;
  exec_last_insert_id : Via -> Database -> string -> Exn + list Row;
  exec_update :
    Via -> Database -> string -> Row -> Row -> Exn + (Database * JsValue);
  (** The liveness probe [select 1]. *)
  exec_select_1 : Via -> Database -> Exn + list Row }.

(** [IForeignKeyInfo]: a row of the foreign-key query, its keys in lower
    case. *)
Record IForeignKeyInfo := {
  fk_column_name : string;
  fk_constraint_name : string;
  fk_referenced_table_name : string;
  fk_referenced_column_name : string }.

(** The statements of the operations that read the rest of the catalog,
    and DELETE. *)
Class Statements `{Collaborators} := {
  (** [INFORMATION_SCHEMA.KEY_COLUMN_USAGE] for a schema and a table, the
      rows with a referenced column. *)
  key_column_usage :
    Via -> Database -> string -> string -> Exn + list IForeignKeyInfo;
  (** [information_schema.tables] for a schema, projected on [table_name]. *)
  information_schema_tables : Via -> Database -> string -> Exn + list Row;
  exec_delete : Via -> Database -> string -> Row -> Exn + (Database * JsValue) }.

(** ** Helpers of the repository that are not in src *)

(** Modelled from the spec: [isObjectEmpty] (helpers, not in src), true of
    an object without properties. *)
Definition isObjectEmpty (settings : ITableSettings) : bool :=
  match list_fields settings, excluded_fields settings, search_fields settings,
        ordering_field settings, ordering settings, list_per_page settings with
  | None, None, None, None, None, None => true
  | _, _, _, _, _, _ => false
  end.

(** Modelled from the spec: [checkFieldAutoincrement] (helpers, not in src),
    "detect whether a column-default value denotes auto-increment": the
    default is the sentinel [getTableStructure] writes. *)
Definition checkFieldAutoincrement (column_default : option string) : bool :=
  match column_default with
  | Some d => String.eqb d "auto_increment"
  | None => false
  end.

Definition is_digit (c : ascii) : bool :=
  let n := nat_of_ascii c in ((48 <=? n) && (n <=? 57))%nat.

Definition digit_value (c : ascii) : Z := Z.of_nat (nat_of_ascii c) - 48.

(** The value of the digits [s] starts with, after the digits [acc]. *)
Fixpoint digits_run (acc : Z) (s : string) : Z :=
  match s with
  | String c s' => if is_digit c then digits_run (10 * acc + digit_value c) s'
                   else acc
  | EmptyString => acc
  end.

(** Modelled from the spec: [getNumbersFromString] (helpers, not in src),
    "extract first run of digits from a string": the number the first run
    of digits denotes, nothing when the string has no digit. *)
Fixpoint getNumbersFromString (s : string) : option Z :=
  match s with
  | String c s' => if is_digit c then Some (digits_run 0 s)
                   else getNumbersFromString s'
  | EmptyString => None
  end.

(* ===================================================================== *)
(** * The operations                                                      *)
(* ===================================================================== *)

Module Dao.

Section DaoSshMysql.

Context `{Collaborators}.
Variable Constants : ConstantsT.

(** The state the operations run in: the cache, the number of ports asked
    for so far, the arrays and objects shared with the caller, and the
    remote database. *)
Record World := {
  cacher : Cacher.State;
  port_requests : nat;
  arrays : gmap loc (list string);
  objects : gmap loc Row;
  db : Database }.

Inductive Result (A : Type) :=
| Return (a : A)
| Throw (e : Exn).
Arguments Return {A} a.
Arguments Throw {A} e.

(** A computation: from a state to a value or an exception, and the state
    it leaves (what was written before a throw stays written). *)
Definition M (A : Type) : Type := World -> Result A * World.

Definition ret {A} (a : A) : M A := fun w => (Return a, w).

Definition bind {A B} (m : M A) (f : A -> M B) : M B :=
  fun w => match m w with
           | (Return a, w1) => f a w1
           | (Throw e, w1) => (Throw e, w1)
           end.

Definition throw {A} (e : Exn) : M A := fun w => (Throw e, w).

(** [try { body } catch (e) { handler(e) }]. *)
Definition try_catch {A} (body : M A) (handler : Exn -> M A) : M A :=
  fun w => match body w with
           | (Return a, w1) => (Return a, w1)
           | (Throw e, w1) => handler e w1
           end.

#[local] Instance M_ret : MRet M := @ret.
#[local] Instance M_bind : MBind M := fun A B f m => bind m f.

(** [for (const x of xs) { body(x) }]. *)
Fixpoint for_of {A} (xs : list A) (body : A -> M unit) : M unit :=
  match xs with
  | [] => ret tt
  | x :: rest => bind (body x) (fun _ => for_of rest body)
  end.

(** The answer of the server to a statement that leaves the database as it
    is, and to one that changes it. *)
Definition query {A} (q : Database -> Exn + A) : M A :=
  fun w => match q (db w) with
           | inr a => (Return a, w)
           | inl e => (Throw e, w)
           end.

Definition set_db (d : Database) (w : World) : World :=
  {| cacher := cacher w; port_requests := port_requests w;
     arrays := arrays w; objects := objects w; db := d |}.

Definition set_cacher (c : Cacher.State) (w : World) : World :=
  {| cacher := c; port_requests := port_requests w;
     arrays := arrays w; objects := objects w; db := db w |}.

Definition set_port_requests (n : nat) (w : World) : World :=
  {| cacher := cacher w; port_requests := n;
     arrays := arrays w; objects := objects w; db := db w |}.

Definition set_arrays (a : gmap loc (list string)) (w : World) : World :=
  {| cacher := cacher w; port_requests := port_requests w;
     arrays := a; objects := objects w; db := db w |}.

Definition set_objects (o : gmap loc Row) (w : World) : World :=
  {| cacher := cacher w; port_requests := port_requests w;
     arrays := arrays w; objects := o; db := db w |}.

Definition statement (q : Database -> Exn + Database) : M unit :=
  fun w => match q (db w) with
           | inr d => (Return tt, set_db d w)
           | inl e => (Throw e, w)
           end.

Definition statement_returning {A} (q : Database -> Exn + (Database * A))
  : M A :=
  fun w => match q (db w) with
           | inr (d, a) => (Return a, set_db d w)
           | inl e => (Throw e, w)
           end.

(** ** Arrays and objects on the heap *)

(** The elements of the array at [r]. *)
Definition read_array (r : loc) : M (list string) :=
  fun w => (Return (default [] (arrays w !! r)), w).

Definition write_array (r : loc) (xs : list string) : M unit :=
  fun w => (Return tt, set_arrays (<[r := xs]> (arrays w)) w).

(** A new array: a reference no one else holds. *)
Definition new_array (xs : list string) : M loc :=
  fun w => let r := fresh (dom (arrays w)) in
           (Return r, set_arrays (<[r := xs]> (arrays w)) w).

Definition read_object (r : loc) : M Row :=
  fun w => (Return (default ∅ (objects w !! r)), w).

(** [obj[key]]: the property, [undefined] when the object has none. *)
Definition get_prop (r : loc) (key : string) : M JsValue :=
  fun w => (Return (default VUndefined (default ∅ (objects w !! r) !! key)), w).

(** [obj[key] = v]. *)
Definition set_prop (r : loc) (key : string) (v : JsValue) : M unit :=
  fun w => (Return tt,
            set_objects (<[r := <[key := v]> (default ∅ (objects w !! r))]>
                           (objects w)) w).

(** The keys a [for (const key in obj)] loop visits. *)
Definition keys_of (r : loc) : M (list string) :=
  fun w => (Return (map fst (map_to_list (default ∅ (objects w !! r)))), w).

(** ** The cache, as the operations reach it *)

Definition read_cacher {A} (f : Cacher.State -> A) : M A :=
  fun w => (Return (f (cacher w)), w).

Definition update_cacher (f : Cacher.State -> Cacher.State) : M unit :=
  fun w => (Return tt, set_cacher (f (cacher w)) w).

(** [await getPort()]. *)
Definition next_port : M Z :=
  fun w => (Return (getPort (port_requests w)),
            set_port_requests (S (port_requests w)) w).

(** ** getMySqlDriver (lines 584-605) *)

Definition getMySqlDriver (connection : IConnection) : M Handle :=
  cachedDriver ← read_cacher (Cacher.getDriverCache connection);
  match cachedDriver with
  | Some cachedDriver => ret cachedDriver
  | None =>
      freePort ← next_port;
      match getSshMySqlClient connection freePort with
      | inr client =>
          let mySqlDriver := SshDriver client in
          update_cacher (Cacher.setDriverCache connection mySqlDriver) ;;
          ret mySqlDriver
      | inl _ =>
          throw (HttpException (FAILED_ESTABLISH_SSH_CONNECTION Constants) 500)
      end
  end.

(** ** configureKnex (lines 98-120) *)

Definition configureKnex (connectionConfig : IConnection) : M Handle :=
  cachedKnex ← read_cacher (Cacher.getCachedKnex connectionConfig);
  match cachedKnex with
  | Some cachedKnex => ret cachedKnex
  | None =>
      let newKnex := KnexInstance
        {| k_client := "mysql2";
           k_host := host connectionConfig;
           k_user := username connectionConfig;
           k_password := password connectionConfig;
           k_database := database connectionConfig;
           k_port := port connectionConfig;
           k_ssl := if ssl connectionConfig
                    then SslCa (cert connectionConfig)
                    else SslRejectUnauthorized false;
           k_pool_min := 0;
           k_pool_max := 1 |} in
      update_cacher (Cacher.setDriverCache connectionConfig newKnex) ;;
      ret newKnex
  end.

(** [this.connection]. *)
Variable connection : IConnection.

(** The first lines of every operation: the driver for [this.connection],
    then the knex instance for the eight-property copy of it. *)
Definition handles : M Via :=
  mySqlDriver ← getMySqlDriver connection;
  knex ← configureKnex (connectionConfig connection);
  ret {| via_knex := knex; via_connection := mySqlDriver |}.

(** ** getTableStructure (lines 422-485) *)

(** Lines 458-483, the loop body: what one result row becomes. *)
Definition normalizeColumn (element : CatalogColumn) : IStructureInfo :=
  let column_type := cat_column_type element in
  {| column_name := cat_column_name element;
     column_default :=
       if String.eqb (cat_extra element) "auto_increment"
       then Some "auto_increment"
       else cat_column_default element;
     data_type := cat_data_type element;
     column_type := column_type;
     allow_null := String.eqb (cat_is_nullable element) "YES";
     extra := cat_extra element;
     character_maximum_length :=
       if num_truthy (cat_character_maximum_length element)
       then cat_character_maximum_length element
       else if num_truthy (getNumbersFromString column_type)
            then getNumbersFromString column_type
            else None;
     data_type_params :=
       let enum_params :=
         if String.eqb (cat_data_type element) "enum"
         then Some (split "','"
                      (slice column_type 6
                         (Z.of_nat (String.length column_type) - 2)))
         else None in
       if String.eqb (cat_data_type element) "set"
       then Some (split "','"
                    (slice column_type 5
                       (Z.of_nat (String.length column_type) - 2)))
       else enum_params |}.

(** The rows come back with their keys lower-cased by
    [objectKeysToLowercase] (helpers, not in src); [CatalogColumn] is such a
    row. *)
Definition getTableStructure (tableName : string) : M (list IStructureInfo) :=
  via ← handles;
  structureColumns ←
    query (fun d => information_schema_columns via d (database connection)
                      tableName);
  ret (map normalizeColumn structureColumns).

(** ** getTablePrimaryColumns (lines 385-420) *)

Definition getTablePrimaryColumns (tableName : string)
  : M (list ITablePrimaryColumnInfo) :=
  via ← handles;
  columns ←
    query (fun d => information_schema_columns via d (database connection)
                      tableName);
  let primaryColumns :=
    filter (fun c => cat_column_key c = "PRI") columns in
  ret (map (fun c => {| pk_column_name := cat_column_name c;
                        pk_data_type := cat_data_type c |}) primaryColumns).

(** ** findAvaliableFields (lines 552-582) *)

Definition columnNames (tableStructure : list IStructureInfo) : list string :=
  map column_name tableStructure.

Definition findAvaliableFields (settings : ITableSettings)
    (tableName : string) : M loc :=
  if isObjectEmpty settings then
    tableStructure ← getTableStructure tableName;
    new_array (columnNames tableStructure)
  else
    let excludedFields := excluded_fields settings in
    availableFields ←
      match list_fields settings with
      | Some fields =>
          elements ← read_array fields;
          if (0 <? Z.of_nat (length elements))
          then ret fields
          else tableStructure ← getTableStructure tableName;
               new_array (columnNames tableStructure)
      | None =>
          tableStructure ← getTableStructure tableName;
          new_array (columnNames tableStructure)
      end;
    for_of (default [] excludedFields) (fun field =>
      elements ← read_array availableFields;
      let delIndex := indexOf elements field in
      if (0 <=? delIndex)
      then elements ← read_array availableFields;
           write_array availableFields
             (splice1 elements (indexOf elements field))
      else ret tt) ;;
    ret availableFields.

(** ** The statements sent to the server *)

Definition take_limit (n : option Z) (rows : list Row) : list Row :=
  match n with
  | Some n => take (Z.to_nat n) rows
  | None => rows
  end.

Definition drop_offset (n : option Z) (rows : list Row) : list Row :=
  match n with
  | Some n => drop (Z.to_nat n) rows
  | None => rows
  end.

(** The columns a select list keeps; an empty list is [select *]. *)
Definition project (columns : list string) (row : Row) : Row :=
  match columns with
  | [] => row
  | _ => filter (fun kv => includes columns (fst kv) = true) row
  end.

(** The rows of the builder's table its WHERE clause selects. *)
Definition matching (b : Knex.Builder) (rows : list Row) : list Row :=
  List.filter (fun r => Knex.selected (cond_value r) (Knex.b_wheres b)) rows.

(** What a select statement makes of the rows of its table: WHERE, ORDER
    BY, OFFSET and LIMIT, then the select list. *)
Definition select_result (b : Knex.Builder) (rows : list Row) : list Row :=
  map (project (Knex.b_columns b))
    (take_limit (Knex.b_limit b)
       (drop_offset (Knex.b_offset b)
          (order_rows (Knex.b_orders b) (matching b rows)))).

(** [await builder]. *)
Definition run_select (via : Via) (b : Knex.Builder) : M (list Row) :=
  query (fun d =>
    match table_rows via d (default "" (Knex.b_from b)) with
    | inr rows => inr (select_result b rows)
    | inl e => inl e
    end).

(** [await builder.count(...)], then the count column of the one row. *)
Definition run_count (via : Via) (b : Knex.Builder) : M Z :=
  query (fun d =>
    match table_rows via d (default "" (Knex.b_from b)) with
    | inr rows => inr (Z.of_nat (length (matching b rows)))
    | inl e => inl e
    end).

(** ** The builder callbacks of getRowsFromTable and getRowsCount *)

(** Lines 258-293 and, with the same text, lines 629-664. *)
Definition filterCallback (filteringFields : list FilterObject)
    (builder : Knex.Builder) : Knex.Builder :=
  Knex.for_of filteringFields (fun filterObject =>
    let field := f_field filterObject in
    let value := f_value filterObject in
    match f_criteria filterObject with
    | FilterCriteriaEnum.eq =>
        Knex.andWhere field "=" (VStr (toString value))
    | FilterCriteriaEnum.startswith =>
        Knex.andWhere field "like" (VStr (toString value +:+ "%"))
    | FilterCriteriaEnum.endswith =>
        Knex.andWhere field "like" (VStr ("%" +:+ toString value))
    | FilterCriteriaEnum.gt => Knex.andWhere field ">" value
    | FilterCriteriaEnum.lt => Knex.andWhere field "<" value
    | FilterCriteriaEnum.lte => Knex.andWhere field "<=" value
    | FilterCriteriaEnum.gte => Knex.andWhere field ">=" value
    | FilterCriteriaEnum.contains =>
        Knex.andWhere field "like" (VStr ("%" +:+ toString value +:+ "%"))
    | FilterCriteriaEnum.icontains =>
        Knex.andWhereNot field "like" (VStr ("%" +:+ toString value +:+ "%"))
    end) builder.

(** A string argument that may be missing is there when it is not empty. *)
Definition str_truthy (s : option string) : bool :=
  match s with
  | Some s => negb (String.eqb s "")
  | None => false
  end.

(** Lines 248-257 and, with the same text, lines 665-674. *)
Definition searchCallback (settings : ITableSettings)
    (searchedFieldValue : option string) (builder : Knex.Builder)
  : Knex.Builder :=
  match search_fields settings with
  | Some search_fields =>
      if str_truthy searchedFieldValue
         && (0 <? Z.of_nat (length search_fields))
      then Knex.for_of search_fields (fun field =>
             Knex.orWhereRaw " CAST (?? AS CHAR (255))=?"
               [VStr field; VStr (default "" searchedFieldValue)]) builder
      else builder
  | None => builder
  end.

(** Lines 294-298: the test is the comma expression
    [(settings.ordering_field, settings.ordering)], whose value is its
    second operand. *)
Definition orderCallback (settings : ITableSettings)
    (builder : Knex.Builder) : Knex.Builder :=
  let test := (ordering_field settings, ordering settings).2 in
  if str_truthy test
  then Knex.orderBy (ordering_field settings) (default "" (ordering settings))
         builder
  else builder.

(** Lines 223-234. *)
Definition autocompleteCallback (autocompleteFields : AutocompleteFields)
    (builder : Knex.Builder) : Knex.Builder :=
  let fields := ac_fields autocompleteFields in
  let value := ac_value autocompleteFields in
  if negb (String.eqb value "*")
  then Knex.for_of fields (fun field =>
         Knex.orWhere field "like" (VStr (value +:+ "%"))) builder
  else builder.

(** ** getRowsCount (lines 607-677) *)

Definition countBuilder (tableName : string)
    (filteringFields : list FilterObject) (settings : ITableSettings)
    (searchedFieldValue : option string) : Knex.Builder :=
  Knex.modify (searchCallback settings searchedFieldValue)
    (Knex.modify (filterCallback filteringFields)
       (Knex.knex (Some tableName))).

Definition getRowsCount (tableName : string)
    (filteringFields : list FilterObject) (settings : ITableSettings)
    (searchedFieldValue : option string) : M Z :=
  via ← handles;
  run_count via
    (countBuilder tableName filteringFields settings searchedFieldValue).

(** ** getRowsFromTable (lines 176-313) *)

(** Lines 200-208: the page and the page size the rest of the function
    works with. *)
Definition paginationDefaults (settings : ITableSettings)
    (page perPage : option Z) : option Z * option Z :=
  if negb (num_truthy page) || num_le0 page then
    let page := Some (DEFAULT_PAGINATION_page Constants) in
    let list_per_page := list_per_page settings in
    if (num_truthy list_per_page && num_gt0 list_per_page)
       && (negb (num_truthy perPage) || num_le0 perPage)
    then (page, list_per_page)
    else (page, Some (DEFAULT_PAGINATION_perPage Constants))
  else (page, perPage).

(** [Math.ceil(a / b)]; [None] where the quotient is not a finite number
    ([b] missing or zero). *)
Definition ceil_div (a : Z) (b : option Z) : option Z :=
  match b with
  | Some b => if b =? 0 then None else Some (- ((- a) / b))
  | None => None
  end.

Definition num_mul (a b : option Z) : option Z :=
  match a, b with
  | Some a, Some b => Some (a * b)
  | _, _ => None
  end.

Definition num_pred (a : option Z) : option Z := (fun a => a - 1) <$> a.

(** Lines 217-220. *)
Definition autocompleteRequested (autocompleteFields : option AutocompleteFields)
  : option AutocompleteFields :=
  match autocompleteFields with
  | Some ac =>
      if negb (String.eqb (ac_value ac) "")
         && (0 <? Z.of_nat (length (ac_fields ac)))
      then Some ac else None
  | None => None
  end.

Definition autocompleteBuilder (tableName : string)
    (autocompleteFields : AutocompleteFields) : Knex.Builder :=
  Knex.limit (Some (AUTOCOMPLETE_ROW_LIMIT Constants))
    (Knex.modify (autocompleteCallback autocompleteFields)
       (Knex.from tableName
          (Knex.select (ac_fields autocompleteFields) (Knex.knex None)))).

Definition rowsBuilder (tableName : string) (availableFields : list string)
    (settings : ITableSettings) (searchedFieldValue : option string)
    (filteringFields : list FilterObject) (perPage offset : option Z)
  : Knex.Builder :=
  Knex.offset offset
    (Knex.limit perPage
       (Knex.modify (orderCallback settings)
          (Knex.modify (filterCallback filteringFields)
             (Knex.modify (searchCallback settings searchedFieldValue)
                (Knex.from tableName
                   (Knex.select availableFields (Knex.knex None))))))).

Definition getRowsFromTable (tableName : string) (settings : ITableSettings)
    (page perPage : option Z) (searchedFieldValue : option string)
    (filteringFields : list FilterObject)
    (autocompleteFields : option AutocompleteFields) : M IDaoRowsRO :=
  mySqlDriver ← getMySqlDriver connection;
  let '(page, perPage) := paginationDefaults settings page perPage in
  rowsCount ← getRowsCount tableName filteringFields settings searchedFieldValue;
  let lastPage := ceil_div rowsCount perPage in
  let offset := num_mul (num_pred page) perPage in
  availableFields ← findAvaliableFields settings tableName;
  knex ← configureKnex (connectionConfig connection);
  let via := {| via_knex := knex; via_connection := mySqlDriver |} in
  match autocompleteRequested autocompleteFields with
  | Some autocompleteFields =>
      rows ← run_select via (autocompleteBuilder tableName autocompleteFields);
      ret {| data := rows; pagination := None |}
  | None =>
      fields ← read_array availableFields;
      rows ← run_select via
               (rowsBuilder tableName fields settings searchedFieldValue
                  filteringFields perPage offset);
      ret {| data := rows;
             pagination := Some {| total := rowsCount; lastPage := lastPage;
                                   perPage := perPage; currentPage := page |} |}
  end.

(** ** The serialization pass of addRowInTable and updateRowInTable *)

(** Lines 36-42 and 493-499. *)
Definition jsonColumnNames (tableStructure : list IStructureInfo)
  : list string :=
  map column_name
    (List.filter (fun structEl =>
                    String.eqb (toLowerCase (data_type structEl)) "json")
       tableStructure).

(** Lines 43-47 and 500-504: the loop over the keys of the caller's [row],
    writing into that same object. *)
Definition stringifyJsonColumns (tableStructure : list IStructureInfo)
    (row : loc) : M unit :=
  keys ← keys_of row;
  for_of keys (fun key =>
    if includes (jsonColumnNames tableStructure) key
    then v ← get_prop row key;
         set_prop row key (JSON_stringify v)
    else ret tt).

(** ** addRowInTable (lines 34-96) *)

(** [undefined.column_name], [undefined.column_default], [undefined[...]]. *)
Definition property_of_undefined {A} (name : string) : M A :=
  throw (TypeError ("Cannot read properties of undefined (reading '"
                      +:+ name +:+ "')")).

Definition knex_insert (via : Via) (tableName : string) (row : loc) : M unit :=
  content ← read_object row;
  statement (fun d => exec_insert via d tableName content).

Definition addRowInTable (tableName : string) (row : loc) : M (option Row) :=
  tableStructure ← getTableStructure tableName;
  stringifyJsonColumns tableStructure row ;;
  primaryColumns ← getTablePrimaryColumns tableName;
  let primaryKey := head primaryColumns in
  primaryKey_column_name ←
    match primaryKey with
    | Some primaryKey => ret (pk_column_name primaryKey)
    | None => property_of_undefined "column_name"
    end;
  let primaryKeyIndexInStructure :=
    indexOf (columnNames tableStructure) primaryKey_column_name in
  let primaryKeyStructure :=
    if primaryKeyIndexInStructure <? 0 then None
    else tableStructure !! Z.to_nat primaryKeyIndexInStructure in
  via ← handles;
  if (0 <? Z.of_nat (length primaryColumns)) then
    primaryKeyStructure_column_default ←
      match primaryKeyStructure with
      | Some primaryKeyStructure => ret (column_default primaryKeyStructure)
      | None => property_of_undefined "column_default"
      end;
    if negb (checkFieldAutoincrement primaryKeyStructure_column_default) then
      try_catch
        (knex_insert via tableName row ;;
         v ← get_prop row primaryKey_column_name;
         ret (Some {[ primaryKey_column_name := v ]}))
        (fun e => throw (ErrorOf e))
    else
      try_catch
        (knex_insert via tableName row ;;
         lastInsertId ← query (fun d => exec_last_insert_id via d tableName);
         first ← match head lastInsertId with
                 | Some first => ret first
                 | None => property_of_undefined "LAST_INSERT_ID()"
                 end;
         ret (Some {[ primaryKey_column_name :=
                        default VUndefined (first !! "LAST_INSERT_ID()") ]}))
        (fun e => throw (ErrorOf e))
  else
    knex_insert via tableName row ;;
    ret None.

(** ** updateRowInTable (lines 487-525) *)

Definition updateRowInTable (tableName : string) (row : loc)
    (primaryKey : Row) : M JsValue :=
  tableStructure ← getTableStructure tableName;
  stringifyJsonColumns tableStructure row ;;
  via ← handles;
  content ← read_object row;
  statement_returning
    (fun d => exec_update via d tableName primaryKey content).

(** ** testConnect (lines 535-550) *)

Definition testConnect : M bool :=
  acquired ← try_catch (mySqlDriver ← getMySqlDriver connection;
                        ret (Some mySqlDriver))
                (fun _ => ret None);
  match acquired with
  | None => ret false
  | Some mySqlDriver =>
      knex ← configureKnex connection;
      let via := {| via_knex := knex; via_connection := mySqlDriver |} in
      try_catch
        (result ← query (fun d => exec_select_1 via d);
         ret (truthy (VArr (map (fun _ => VNull) result))))
        (fun _ => ret false)
  end.

(** ** The operations on the rest of the catalog, by key, and DELETE *)

Context {statements : Statements}.

(** ** deleteRowInTable (lines 122-145) *)

Definition deleteRowInTable (tableName : string) (primaryKey : Row)
  : M JsValue :=
  via ← handles;
  statement_returning (fun d => exec_delete via d tableName primaryKey).

(** ** getRowByPrimaryKey (lines 147-174) *)

(** [knex(tableName).select(columns).where(primaryKey)]; without a select
    list, [knex(tableName).where(primaryKey)]. *)
Definition keyBuilder (tableName : string) (columns : list string)
    (primaryKey : Row) : Knex.Builder :=
  Knex.objectWhere (map_to_list primaryKey)
    (Knex.select columns (Knex.knex (Some tableName))).

(** [settings] may be missing altogether ([None]). *)
Definition getRowByPrimaryKey (tableName : string) (primaryKey : Row)
    (settings : option ITableSettings) : M (list Row) :=
  via ← handles;
  match settings with
  | Some settings =>
      if isObjectEmpty settings
      then run_select via (keyBuilder tableName [] primaryKey)
      else
        availableFields ← findAvaliableFields settings tableName;
        fields ← read_array availableFields;
        run_select via (keyBuilder tableName fields primaryKey)
  | None => run_select via (keyBuilder tableName [] primaryKey)
  end.

(** ** getTableForeignKeys (lines 315-354) *)

Definition getTableForeignKeys (tableName : string)
  : M (list IForeignKeyInfo) :=
  via ← handles;
  foreignKeys ←
    query (fun d => key_column_usage via d (database connection) tableName);
  ret foreignKeys.

(** ** getTablesFromDB (lines 356-383) *)

(** Lines 379-382, the callback: the upper-case key if the row has it, the
    lower-case one if it has that, [undefined] otherwise. *)
Definition tableNameOf (row : Row) : JsValue :=
  match row !! "TABLE_NAME" with
  | Some name => name
  | None => default VUndefined (row !! "table_name")
  end.

Definition getTablesFromDB : M (list JsValue) :=
  via ← handles;
  results ←
    query (fun d => information_schema_tables via d (database connection));
  ret (map tableNameOf results).

(** ** Vocabulary for the statements below *)

(** The two states hold the same arrays, objects and database: at most the
    cache and the port counter differ. *)
Definition same_data (w w' : World) : Prop :=
  arrays w' = arrays w /\ objects w' = objects w /\ db w' = db w.

(** A computation that touches the cache and the port counter only. *)
Definition cache_only {A} (m : M A) : Prop :=
  forall w, same_data w (m w).2.

(** A computation that sends no statement that changes the database. *)
Definition keeps_db {A} (m : M A) : Prop :=
  forall w, db (m w).2 = db w.

(** A computation that writes to no object of the heap. *)
Definition keeps_objects {A} (m : M A) : Prop :=
  forall w, objects (m w).2 = objects w.

(** One turn of the exclusion loop of [findAvaliableFields], on the array
    itself: the first occurrence of [field] goes. *)
Definition remove_excluded (elements : list string) (field : string)
  : list string :=
  if 0 <=? indexOf elements field
  then splice1 elements (indexOf elements field)
  else elements.

(** One turn of the serialization loop, on the object itself. *)
Definition stringify_key (columns : list string) (o : Row) (key : string)
  : Row :=
  if includes columns key
  then <[key := JSON_stringify (default VUndefined (o !! key))]> o
  else o.

(** The row the caller is left with: every property named by a JSON column
    replaced by its serialization, the others as they were. *)
Definition stringified (tableStructure : list IStructureInfo) (row : Row)
  : Row :=
  map_imap (fun key v =>
              Some (if includes (jsonColumnNames tableStructure) key
                    then JSON_stringify v else v)) row.

End DaoSshMysql.

Arguments Return {A} a.
Arguments Throw {A} e.

End Dao.

(* ===================================================================== *)
(** * What the specification says, in its own words                       *)
(* ===================================================================== *)

Module Spec.

(** "Each entry's criterion maps to a single comparison: eq to [=],
    startswith to [LIKE value%], endswith to [LIKE %value], contains to
    [LIKE %value%], gt/lt/gte/lte to the comparison, icontains to
    [NOT LIKE %value%]", every entry joined with AND. *)
Definition comparison (f : FilterObject) : Knex.WhereStmt :=
  let field := f_field f in
  let text := toString (f_value f) in
  let compare negated operator operand :=
    {| Knex.w_bool := Knex.And; Knex.w_not := negated;
       Knex.w_cond := Knex.WhereBasic field operator operand |} in
  match f_criteria f with
  | FilterCriteriaEnum.eq => compare false "=" (VStr text)
  | FilterCriteriaEnum.startswith => compare false "like" (VStr (text +:+ "%"))
  | FilterCriteriaEnum.endswith => compare false "like" (VStr ("%" +:+ text))
  | FilterCriteriaEnum.contains =>
      compare false "like" (VStr ("%" +:+ text +:+ "%"))
  | FilterCriteriaEnum.gt => compare false ">" (f_value f)
  | FilterCriteriaEnum.lt => compare false "<" (f_value f)
  | FilterCriteriaEnum.gte => compare false ">=" (f_value f)
  | FilterCriteriaEnum.lte => compare false "<=" (f_value f)
  | FilterCriteriaEnum.icontains =>
      compare true "like" (VStr ("%" +:+ text +:+ "%"))
  end.

(** "String cast of field equals the exact search term". *)
Definition castEquals (term : string) (field : string) : Knex.Cond :=
  Knex.WhereRaw " CAST (?? AS CHAR (255))=?" [VStr field; VStr term].

(** That comparison as an [or]-statement of the builder. *)
Definition searchStmt (term field : string) : Knex.WhereStmt :=
  {| Knex.w_bool := Knex.Or; Knex.w_not := false;
     Knex.w_cond := castEquals term field |}.

(** "When [settings.search_fields] is non-empty and a search term is
    supplied": the fields searched, none otherwise. *)
Definition searchedFields (settings : ITableSettings) (term : option string)
  : list string :=
  match search_fields settings, term with
  | Some fields, Some term => if String.eqb term "" then [] else fields
  | _, _ => []
  end.

(** "The search-OR-group is itself one AND-ed clause": the value of
    [(s1 OR ... OR sm) AND f1 AND ... AND fn] on a row. *)
Definition searchAndFilters (atom : Knex.Cond -> Knex.tri)
    (search_fields : list string) (term : string)
    (filters : list FilterObject) : Knex.tri :=
  Knex.and3
    (Knex.any3 (map (fun field => atom (castEquals term field)) search_fields))
    (Knex.all3 (map (fun f => Knex.stmt_value atom (comparison f)) filters)).

(** "A column declared [enum('a','b','c')] yields [data_type_params =
    [a, b, c]]" (and a set alike); "[extra = auto_increment] yields
    [column_default = auto_increment]"; "[allow_null] derived from the
    YES/NO marker"; "[max_length], if absent from the catalog's own numeric
    field, is derived by scanning for the first run of digits; absent both
    ways, null". *)
Definition normalized (element : CatalogColumn) (info : IStructureInfo)
  : Prop :=
  column_name info = cat_column_name element
  /\ data_type info = cat_data_type element
  /\ column_type info = cat_column_type element
  /\ extra info = cat_extra element
  /\ (forall values,
        values <> [] -> forallb quote_free values = true ->
        cat_data_type element = "enum" ->
        cat_column_type element = "enum('" +:+ join "','" values +:+ "')" ->
        data_type_params info = Some values)
  /\ (forall values,
        values <> [] -> forallb quote_free values = true ->
        cat_data_type element = "set" ->
        cat_column_type element = "set('" +:+ join "','" values +:+ "')" ->
        data_type_params info = Some values)
  /\ (cat_extra element = "auto_increment" ->
      column_default info = Some "auto_increment")
  /\ (cat_extra element <> "auto_increment" ->
      column_default info = cat_column_default element)
  /\ allow_null info = bool_decide (cat_is_nullable element = "YES")
  /\ (forall n,
        cat_character_maximum_length element = Some n -> n <> 0 ->
        character_maximum_length info = Some n)
  /\ (num_truthy (cat_character_maximum_length element) = false ->
      character_maximum_length info
      = match getNumbersFromString (cat_column_type element) with
        | Some n => if n =? 0 then None else Some n
        | None => None
        end).

(** "perPage resolves to [settings.list_per_page] if positive and no
    explicit override given, else a fixed default". *)
Definition perPage (Constants : ConstantsT) (settings : ITableSettings)
    (perPage : option Z) : option Z :=
  if num_gt0 (list_per_page settings) && negb (num_gt0 perPage)
  then list_per_page settings
  else Some (DEFAULT_PAGINATION_perPage Constants).

(** "If page is missing or <= 0, reset to the default page". *)
Definition page (Constants : ConstantsT) (page : option Z) : option Z :=
  match page with
  | Some p => if p <=? 0 then Some (DEFAULT_PAGINATION_page Constants)
              else Some p
  | None => Some (DEFAULT_PAGINATION_page Constants)
  end.

End Spec.

(* ===================================================================== *)
(** * A sample deployment                                                 *)
(* ===================================================================== *)

(** A small in-memory server and a tunnel that always opens, to run the
    operations on concrete inputs. *)
Module Sample.

Record Db := {
  catalog : list (string * CatalogColumn);
  tables : list (string * list Row);
  last_insert_id : Z }.

(** SQL's LIKE with the wildcard [%]. *)
Fixpoint like (pattern : string) : string -> bool :=
  match pattern with
  | EmptyString => fun s => String.eqb s ""
  | String c pattern' =>
      if Ascii.eqb c "%"
      then fix star (s : string) : bool :=
             like pattern' s
             || match s with
                | String _ s' => star s'
                | EmptyString => false
                end
      else fun s => match s with
                    | String d s' => Ascii.eqb c d && like pattern' s'
                    | EmptyString => false
                    end
  end.

Definition compare_numbers (operator : string) (a b : Z) : Knex.tri :=
  if String.eqb operator ">" then Some (b <? a)
  else if String.eqb operator "<" then Some (a <? b)
  else if String.eqb operator ">=" then Some (b <=? a)
  else if String.eqb operator "<=" then Some (a <=? b)
  else None.

(** A comparison with a missing or NULL column is UNKNOWN. *)
Definition column_of (row : Row) (column : string) : option JsValue :=
  match row !! column with
  | Some VNull | Some VUndefined | None => None
  | Some x => Some x
  end.

Definition eval_cond (row : Row) (c : Knex.Cond) : Knex.tri :=
  match c with
  | Knex.WhereBasic column operator value =>
      match column_of row column with
      | Some x =>
          if String.eqb operator "="
          then Some (String.eqb (toString x) (toString value))
          else if String.eqb operator "like"
          then Some (like (toString value) (toString x))
          else match x, value with
               | VNum a, VNum b => compare_numbers operator a b
               | _, _ => None
               end
      | None => None
      end
  | Knex.WhereRaw _ [VStr field; value] =>
      match column_of row field with
      | Some x => Some (String.eqb (toString x) (toString value))
      | None => None
      end
  | Knex.WhereRaw _ _ => None
  end.

Definition rows_of (d : Db) (table : string) : list Row :=
  default [] (snd <$> List.find (fun t => String.eqb (fst t) table) (tables d)).

Definition columns_of (d : Db) (table : string) : list CatalogColumn :=
  map snd (List.filter (fun c => String.eqb (fst c) table) (catalog d)).

Definition insert_row (d : Db) (table : string) (row : Row) : Db :=
  {| catalog := catalog d;
     tables := map (fun t => if String.eqb (fst t) table
                             then (fst t, snd t ++ [row]) else t) (tables d);
     last_insert_id := last_insert_id d + 1 |}.

Definition server : Collaborators := {|
  Database := Db;
  getPort := fun n => 33060 + Z.of_nat n;
  getSshMySqlClient := fun connection freePort =>
    inr {| client_connection := connection; client_port := freePort |};
  information_schema_columns := fun _ d _ table => inr (columns_of d table);
  table_rows := fun _ d table => inr (rows_of d table);
  cond_value := eval_cond;
  order_rows := fun _ rows => rows;
  exec_insert := fun _ d table row => inr (insert_row d table row);
  exec_last_insert_id := fun _ d _ =>
    inr [ {[ "LAST_INSERT_ID()" := VNum (last_insert_id d) ]} ];
  exec_update := fun _ d _ _ _ => inr (d, VNum 1);
  exec_select_1 := fun _ _ => inr [ {[ "1" := VNum 1 ]} ] |}.

Definition Constants : ConstantsT := {|
  DEFAULT_PAGINATION_page := 1;
  DEFAULT_PAGINATION_perPage := 20;
  AUTOCOMPLETE_ROW_LIMIT := 20;
  FAILED_ESTABLISH_SSH_CONNECTION := "Failed to establish ssh connection" |}.

Definition connection : IConnection := {|
  host := "db.internal"; username := "agent"; password := "secret";
  database := "shop"; port := 3306; type := "mysql"; ssl := false;
  cert := ""; rest := [("sshHost", "bastion.example")] |}.

Definition column (name data_type column_type key extra : string)
  : CatalogColumn := {|
  cat_column_name := name; cat_column_default := None;
  cat_data_type := data_type; cat_column_type := column_type;
  cat_is_nullable := "NO"; cat_extra := extra;
  cat_character_maximum_length := None; cat_column_key := key |}.

(** [users(id auto-increment key, name, meta json)], [codes(code key,
    label)], [notes(a, b, c)] without a key, and [tickets(id, status enum,
    tags set, title)]. *)
Definition database : Db := {|
  catalog :=
    [ ("users", column "id" "int" "int(11)" "PRI" "auto_increment");
      ("users", column "name" "varchar" "varchar(45)" "" "");
      ("users", column "meta" "json" "json" "" "");
      ("codes", column "code" "varchar" "varchar(8)" "PRI" "");
      ("codes", column "label" "varchar" "varchar(45)" "" "");
      ("notes", column "a" "varchar" "varchar(45)" "" "");
      ("notes", column "b" "varchar" "varchar(45)" "" "");
      ("notes", column "c" "varchar" "varchar(45)" "" "");
      ("tickets", column "id" "int" "int(11)" "PRI" "auto_increment");
      ("tickets", column "status" "enum" "enum('a','b','c')" "" "");
      ("tickets", column "tags" "set" "set('x','y')" "" "");
      ("tickets",
       {| cat_column_name := "title"; cat_column_default := Some "untitled";
          cat_data_type := "varchar"; cat_column_type := "varchar(45)";
          cat_is_nullable := "YES"; cat_extra := "";
          cat_character_maximum_length := Some 45; cat_column_key := "" |}) ];
  tables :=
    [ ("users", []);
      ("codes", []);
      ("notes", [ {[ "a" := VStr "x"; "b" := VStr "y"; "c" := VStr "2" ]} ]);
      ("tickets", []) ];
  last_insert_id := 7 |}.

Definition world (arrays : gmap loc (list string)) (objects : gmap loc Row)
  : @Dao.World server :=
  @Dao.Build_World server Cacher.empty 0 arrays objects database.

Definition noSettings : ITableSettings := {|
  list_fields := None; excluded_fields := None; search_fields := None;
  ordering_field := None; ordering := None; list_per_page := None |}.

(** The value a run returned, if it returned. *)
Definition returned {A} (run : Dao.Result A * @Dao.World server) : option A :=
  match run.1 with
  | Dao.Return a => Some a
  | Dao.Throw _ => None
  end.

(** The exception a run ended with, if it threw. *)
Definition thrown {A} (run : Dao.Result A * @Dao.World server) : option Exn :=
  match run.1 with
  | Dao.Return _ => None
  | Dao.Throw e => Some e
  end.

(** A row for [users], its [meta] an object. *)
Definition newUser : Row :=
  {[ "name" := VStr "p"; "meta" := VObj [("k", VNum 1)] ]}.

Definition usersStructure : list IStructureInfo :=
  map Dao.normalizeColumn (columns_of database "users").

(** The one row of [notes]. *)
Definition note : Row := {[ "a" := VStr "x"; "b" := VStr "y"; "c" := VStr "2" ]}.

Definition searching (fields : list string) : ITableSettings := {|
  list_fields := None; excluded_fields := None; search_fields := Some fields;
  ordering_field := None; ordering := None; list_per_page := None |}.

Definition equals (field value : string) : FilterObject := {|
  f_field := field; f_criteria := FilterCriteriaEnum.eq; f_value := VStr value |}.

(** Settings with a direction and no column to order by. *)
Definition directionOnly : ITableSettings := {|
  list_fields := None; excluded_fields := None; search_fields := None;
  ordering_field := None; ordering := Some "ASC"; list_per_page := None |}.

(** Settings whose [list_fields] is the array at reference 1. *)
Definition listedWithoutB : ITableSettings := {|
  list_fields := Some 1%positive; excluded_fields := Some ["b"];
  search_fields := None; ordering_field := None; ordering := None;
  list_per_page := None |}.

Definition knexOfConnection : Handle := KnexInstance {|
  k_client := "mysql2"; k_host := "db.internal"; k_user := "agent";
  k_password := "secret"; k_database := "shop"; k_port := 3306;
  k_ssl := SslRejectUnauthorized false; k_pool_min := 0; k_pool_max := 1 |}.

(** What [getTableStructure] makes of [tickets]. *)
Definition ticketsStructure : list IStructureInfo :=
  [ {| column_name := "id"; column_default := Some "auto_increment";
       data_type := "int"; column_type := "int(11)"; allow_null := false;
       extra := "auto_increment"; character_maximum_length := Some 11;
       data_type_params := None |};
    {| column_name := "status"; column_default := None;
       data_type := "enum"; column_type := "enum('a','b','c')";
       allow_null := false; extra := "";
       character_maximum_length := None;
       data_type_params := Some ["a"; "b"; "c"] |};
    {| column_name := "tags"; column_default := None;
       data_type := "set"; column_type := "set('x','y')";
       allow_null := false; extra := "";
       character_maximum_length := None;
       data_type_params := Some ["x"; "y"] |};
    {| column_name := "title"; column_default := Some "untitled";
       data_type := "varchar"; column_type := "varchar(45)";
       allow_null := true; extra := "";
       character_maximum_length := Some 45;
       data_type_params := None |} ].

(** A first page of ten with no row on it. *)
Definition nothingFound : IDaoRowsRO := {|
  data := [];
  pagination := Some {| total := 0; lastPage := Some 0; perPage := Some 10;
                        currentPage := Some 1 |} |}.

(** What the first page of the empty [users] comes back as, fifty a page. *)
Definition firstPageOfUsers : IDaoRowsRO := {|
  data := [];
  pagination := Some {| total := 0; lastPage := Some 0; perPage := Some 50;
                        currentPage := Some 1 |} |}.

(** Settings that ask for fifty rows a page. *)
Definition fiftyPerPage : ITableSettings := {|
  list_fields := None; excluded_fields := None; search_fields := None;
  ordering_field := None; ordering := None; list_per_page := Some 50 |}.

(** Settings that only exclude [b]. *)
Definition withoutB : ITableSettings := {|
  list_fields := None; excluded_fields := Some ["b"]; search_fields := None;
  ordering_field := None; ordering := None; list_per_page := None |}.

Definition notesStructure : list IStructureInfo :=
  map Dao.normalizeColumn (columns_of database "notes").

(** ** A tunnel that never opens *)

(** The same server behind a tunnel that cannot be established. *)
Definition unreachable : Collaborators := {|
  Database := Db;
  getPort := fun n => 33060 + Z.of_nat n;
  getSshMySqlClient := fun _ _ => inl "connect ETIMEDOUT";
  information_schema_columns := fun _ d _ table => inr (columns_of d table);
  table_rows := fun _ d table => inr (rows_of d table);
  cond_value := eval_cond;
  order_rows := fun _ rows => rows;
  exec_insert := fun _ d table row => inr (insert_row d table row);
  exec_last_insert_id := fun _ d _ =>
    inr [ {[ "LAST_INSERT_ID()" := VNum (last_insert_id d) ]} ];
  exec_update := fun _ d _ _ _ => inr (d, VNum 1);
  exec_select_1 := fun _ _ => inr [ {[ "1" := VNum 1 ]} ] |}.

Definition unreachableWorld (objects : gmap loc Row) : @Dao.World unreachable :=
  @Dao.Build_World unreachable Cacher.empty 0 ∅ objects database.

(** ** A server that loses the generated id *)

(** The same server, except that the follow-up [select LAST_INSERT_ID()]
    fails. *)
Definition forgetful : Collaborators := {|
  Database := Db;
  getPort := fun n => 33060 + Z.of_nat n;
  getSshMySqlClient := fun connection freePort =>
    inr {| client_connection := connection; client_port := freePort |};
  information_schema_columns := fun _ d _ table => inr (columns_of d table);
  table_rows := fun _ d table => inr (rows_of d table);
  cond_value := eval_cond;
  order_rows := fun _ rows => rows;
  exec_insert := fun _ d table row => inr (insert_row d table row);
  exec_last_insert_id := fun _ _ _ =>
    inl (DriverError "Lost connection to MySQL server during query");
  exec_update := fun _ d _ _ _ => inr (d, VNum 1);
  exec_select_1 := fun _ _ => inr [ {[ "1" := VNum 1 ]} ] |}.

Definition forgetfulWorld (objects : gmap loc Row) : @Dao.World forgetful :=
  @Dao.Build_World forgetful Cacher.empty 0 ∅ objects database.

(** ** The rest of the catalog, and DELETE *)

(** The rows a key names: every property of the key equal to the row's. *)
Definition has_key (key row : Row) : bool :=
  forallb (fun property =>
             Knex.is_true
               (eval_cond row (Knex.WhereBasic property.1 "=" property.2)))
    (map_to_list key).

Definition delete_rows (d : Db) (table : string) (key : Row) : Db :=
  {| catalog := catalog d;
     tables := map (fun t => if String.eqb (fst t) table
                             then (fst t,
                                   List.filter (fun row => negb (has_key key row))
                                     (snd t))
                             else t) (tables d);
     last_insert_id := last_insert_id d |}.

Definition deleted_count (d : Db) (table : string) (key : Row) : Z :=
  Z.of_nat (length (List.filter (has_key key) (rows_of d table))).

Definition table_names (d : Db) : list Row :=
  map (fun t => {[ "TABLE_NAME" := VStr (fst t) ]}) (tables d).

Definition statements : @Statements server :=
  @Build_Statements server
    (fun _ _ _ _ => inr [])
    (fun _ (d : Db) _ => inr (table_names d))
    (fun _ (d : Db) table key =>
       inr (delete_rows d table key, VNum (deleted_count d table key))).

Definition unreachableStatements : @Statements unreachable :=
  @Build_Statements unreachable
    (fun _ _ _ _ => inr [])
    (fun _ (d : Db) _ => inr (table_names d))
    (fun _ (d : Db) table key =>
       inr (delete_rows d table key, VNum (deleted_count d table key))).

(** ** A table with more than a page of rows *)

Definition book (id : Z) (title author : string) : Row :=
  {[ "id" := VNum id; "title" := VStr title; "author" := VStr author ]}.

Definition books : list Row :=
  [ book 1 "Emma" "Austen"; book 2 "Persuasion" "Austen";
    book 3 "Middlemarch" "Eliot"; book 4 "Ulysses" "Joyce";
    book 5 "Dubliners" "Joyce" ].

Definition library : Db := {|
  catalog :=
    [ ("books", column "id" "int" "int(11)" "PRI" "auto_increment");
      ("books", column "title" "varchar" "varchar(45)" "" "");
      ("books", column "author" "varchar" "varchar(45)" "" "") ];
  tables := [ ("books", books) ];
  last_insert_id := 5 |}.

Definition libraryWorld (arrays : gmap loc (list string))
    (objects : gmap loc Row) : @Dao.World server :=
  @Dao.Build_World server Cacher.empty 0 arrays objects library.

End Sample.

(* ===================================================================== *)
(** * Properties of the builder's WHERE clause                            *)
(* ===================================================================== *)

Section WhereFacts.

Import Knex.
Variable atom : Cond -> tri.

Lemma and3_assoc a b c : and3 a (and3 b c) = and3 (and3 a b) c.
Proof. by destruct a as [[]|], b as [[]|], c as [[]|]. Qed.

Lemma or3_assoc a b c : or3 a (or3 b c) = or3 (or3 a b) c.
Proof. by destruct a as [[]|], b as [[]|], c as [[]|]. Qed.

Lemma and3_true_r a : and3 a (Some true) = a.
Proof. by destruct a as [[]|]. Qed.

Lemma or3_false_r a : or3 a (Some false) = a.
Proof. by destruct a as [[]|]. Qed.

Lemma is_true_and3 a b : is_true (and3 a b) = is_true a && is_true b.
Proof. by destruct a as [[]|], b as [[]|]. Qed.

Lemma is_true_all3 vs : is_true (all3 vs) = forallb is_true vs.
Proof.
  induction vs as [|v vs IH]; [done|].
  simpl. by rewrite is_true_and3, IH.
Qed.

(** A run of [and]-statements extends the group being read. *)
Lemma where_go_ands acc ws :
  Forall (fun w => w_bool w = And) ws ->
  where_go atom acc ws = and3 acc (all3 (map (stmt_value atom) ws)).
Proof.
  intros Hws. revert acc.
  induction Hws as [|w ws Hw _ IH]; intros acc; simpl.
  - by rewrite and3_true_r.
  - rewrite Hw, IH. by rewrite and3_assoc.
Qed.

(** A run of [or]-statements: each one closes the group before it. *)
Lemma where_go_ors acc ws :
  Forall (fun w => w_bool w = Or) ws ->
  where_go atom acc ws = or3 acc (any3 (map (stmt_value atom) ws)).
Proof.
  intros Hws. revert acc.
  induction Hws as [|w ws Hw _ IH]; intros acc; simpl.
  - by rewrite or3_false_r.
  - by rewrite Hw, IH.
Qed.

(** [or]-statements followed by [and]-statements: the [and]s attach to the
    last [or]-statement only. *)
Lemma where_go_ors_ands acc ors ands :
  Forall (fun w => w_bool w = Or) ors ->
  Forall (fun w => w_bool w = And) ands ->
  where_go atom acc (ors ++ ands)
  = match reverse ors with
    | [] => and3 acc (all3 (map (stmt_value atom) ands))
    | final :: before =>
        or3 (or3 acc (any3 (map (stmt_value atom) (reverse before))))
            (and3 (stmt_value atom final) (all3 (map (stmt_value atom) ands)))
    end.
Proof.
  intros Hors Hands. revert acc.
  induction Hors as [|w ors Hw Hors IH]; intros acc; simpl.
  - by apply where_go_ands.
  - rewrite Hw, IH. rewrite reverse_cons.
    destruct (reverse ors) as [|final before] eqn:Hrev; simpl.
    + by rewrite or3_false_r.
    + rewrite reverse_app. simpl. by rewrite or3_assoc.
Qed.

(** [and]-statements followed by [or]-statements: the [and]-group is one
    more alternative. *)
Lemma where_go_ands_ors acc ands ors :
  Forall (fun w => w_bool w = And) ands ->
  Forall (fun w => w_bool w = Or) ors ->
  where_go atom acc (ands ++ ors)
  = or3 (and3 acc (all3 (map (stmt_value atom) ands)))
        (any3 (map (stmt_value atom) ors)).
Proof.
  intros Hands Hors. revert acc.
  induction Hands as [|w ands Hw _ IH]; intros acc; simpl.
  - rewrite and3_true_r. by apply where_go_ors.
  - rewrite Hw, IH. by rewrite and3_assoc.
Qed.

End WhereFacts.

(* ===================================================================== *)
(** * The statements the callbacks push                                   *)
(* ===================================================================== *)

Section BuilderFacts.

Import Knex.

Lemma for_of_push_where {A} (stmt : A -> WhereStmt) (xs : list A) b :
  for_of xs (fun x => push_where (stmt x)) b
  = {| b_from := b_from b; b_columns := b_columns b;
       b_wheres := b_wheres b ++ map stmt xs; b_orders := b_orders b;
       b_limit := b_limit b; b_offset := b_offset b |}.
Proof.
  unfold for_of. revert b.
  induction xs as [|x xs IH]; intros b; simpl.
  - rewrite app_nil_r. by destruct b.
  - rewrite IH. simpl. by rewrite <- app_assoc.
Qed.

(** The filter callback pushes one statement per entry, the one the
    specification's table names, and nothing else. *)
Lemma filterCallback_spec filteringFields b :
  Dao.filterCallback filteringFields b
  = {| b_from := b_from b; b_columns := b_columns b;
       b_wheres := b_wheres b ++ map Spec.comparison filteringFields;
       b_orders := b_orders b; b_limit := b_limit b; b_offset := b_offset b |}.
Proof.
  rewrite <- for_of_push_where.
  unfold Dao.filterCallback, for_of. revert b.
  induction filteringFields as [|f fs IH]; intros b; [done|].
  simpl. rewrite <- IH. f_equal.
  unfold Spec.comparison. by destruct (f_criteria f).
Qed.

(** The search callback pushes one [or]-statement per searched field. *)
Lemma searchCallback_spec settings searchedFieldValue b :
  Dao.searchCallback settings searchedFieldValue b
  = {| b_from := b_from b; b_columns := b_columns b;
       b_wheres := b_wheres b
                   ++ map (Spec.searchStmt (default "" searchedFieldValue))
                        (Spec.searchedFields settings searchedFieldValue);
       b_orders := b_orders b; b_limit := b_limit b; b_offset := b_offset b |}.
Proof.
  unfold Dao.searchCallback, Spec.searchedFields, Dao.str_truthy.
  destruct (search_fields settings) as [fields|],
           searchedFieldValue as [term|]; simpl;
    try (rewrite app_nil_r; by destruct b).
  destruct (String.eqb term ""); simpl.
  - rewrite app_nil_r. by destruct b.
  - destruct fields as [|field fields]; simpl.
    + rewrite app_nil_r. by destruct b.
    + replace (0 <? Z.pos (Pos.of_succ_nat (length fields))) with true by done.
      apply (for_of_push_where (Spec.searchStmt term) (field :: fields)).
Qed.

Lemma orderCallback_spec settings b :
  Dao.orderCallback settings b
  = if Dao.str_truthy (ordering settings)
    then orderBy (ordering_field settings) (default "" (ordering settings)) b
    else b.
Proof. done. Qed.

(** The WHERE list of the rows query: search statements, then filters. *)
Lemma rowsBuilder_wheres tableName fields settings term filters perPage offset :
  b_wheres (Dao.rowsBuilder tableName fields settings term filters perPage offset)
  = map (Spec.searchStmt (default "" term)) (Spec.searchedFields settings term)
    ++ map Spec.comparison filters.
Proof.
  unfold Dao.rowsBuilder, modify.
  rewrite orderCallback_spec, filterCallback_spec, searchCallback_spec.
  by destruct (Dao.str_truthy (ordering settings)).
Qed.

(** The WHERE list of the count query: filters, then search statements. *)
Lemma countBuilder_wheres tableName filters settings term :
  b_wheres (Dao.countBuilder tableName filters settings term)
  = map Spec.comparison filters
    ++ map (Spec.searchStmt (default "" term)) (Spec.searchedFields settings term).
Proof.
  unfold Dao.countBuilder, modify.
  by rewrite searchCallback_spec, filterCallback_spec.
Qed.

Lemma rowsBuilder_orders tableName fields settings term filters perPage offset :
  b_orders (Dao.rowsBuilder tableName fields settings term filters perPage offset)
  = if Dao.str_truthy (ordering settings)
    then [ {| o_column := ordering_field settings;
              o_direction := default "" (ordering settings) |} ]
    else [].
Proof.
  unfold Dao.rowsBuilder, modify.
  rewrite orderCallback_spec, filterCallback_spec, searchCallback_spec.
  by destruct (Dao.str_truthy (ordering settings)).
Qed.

Lemma comparison_and f : w_bool (Spec.comparison f) = And.
Proof. unfold Spec.comparison. by destruct (f_criteria f). Qed.

Lemma comparisons_and filters :
  Forall (fun w => w_bool w = And) (map Spec.comparison filters).
Proof. apply Forall_map, Forall_forall. intros f _. apply comparison_and. Qed.

Lemma searchStmts_or term fields :
  Forall (fun w => w_bool w = Or) (map (Spec.searchStmt term) fields).
Proof. apply Forall_map, Forall_forall. by intros. Qed.

(** A WHERE clause made of [and]-statements selects a row exactly when
    every statement is TRUE on it. *)
Lemma selected_ands atom ws :
  Forall (fun w => w_bool w = And) ws ->
  selected atom ws = forallb (fun w => is_true (stmt_value atom w)) ws.
Proof.
  intros Hws. unfold selected, where_value.
  destruct ws as [|w ws]; [done|].
  apply Forall_cons in Hws as [_ Hws].
  rewrite where_go_ands by done.
  rewrite is_true_and3, is_true_all3. simpl. f_equal.
  induction ws as [|w' ws IH]; [done|].
  apply Forall_cons in Hws as [_ Hws]. simpl. by rewrite IH.
Qed.

End BuilderFacts.


(** The rows query reads: search statements joined by OR, the filters
    attached with AND to the last of them. *)
Lemma rowsBuilder_where_value atom tableName fields settings term filters
    perPage offset before final :
  Spec.searchedFields settings term = before ++ [final] ->
  Knex.where_value atom
    (Knex.b_wheres (Dao.rowsBuilder tableName fields settings term filters
                      perPage offset))
  = Knex.or3
      (Knex.any3 (map (fun field => atom (Spec.castEquals (default "" term) field))
                    before))
      (Knex.and3 (atom (Spec.castEquals (default "" term) final))
         (Knex.all3 (map (fun f => Knex.stmt_value atom (Spec.comparison f))
                       filters))).
Proof.
  intros Hsearch. rewrite rowsBuilder_wheres, Hsearch, map_app. simpl.
  set (t := default "" term).
  destruct before as [|first before]; simpl.
  - rewrite where_go_ands by apply comparisons_and.
    rewrite map_map.
    by destruct (Knex.and3 _ _) as [[]|].
  - rewrite (where_go_ors_ands atom _ (map (Spec.searchStmt t) before
                                         ++ [Spec.searchStmt t final]));
      [ | apply Forall_app; split; [apply searchStmts_or | by repeat constructor]
        | apply comparisons_and ].
    rewrite reverse_app. simpl. rewrite reverse_involutive.
    by rewrite !map_map.
Qed.

(** The count query reads: the filters joined by AND, then every search
    statement as one more alternative. *)
Lemma countBuilder_where_value atom tableName settings term f filters :
  Knex.where_value atom
    (Knex.b_wheres (Dao.countBuilder tableName (f :: filters) settings term))
  = Knex.or3
      (Knex.all3 (map (fun f => Knex.stmt_value atom (Spec.comparison f))
                    (f :: filters)))
      (Knex.any3 (map (fun field => atom (Spec.castEquals (default "" term) field))
                    (Spec.searchedFields settings term))).
Proof.
  rewrite countBuilder_wheres. simpl.
  rewrite where_go_ands_ors
    by (try apply comparisons_and; apply searchStmts_or).
  by rewrite !map_map.
Qed.


(* ===================================================================== *)
(** * What an operation leaves untouched                                  *)
(* ===================================================================== *)

Section Frames.

Import Dao.
Context `{Collaborators}.
Variable Constants : ConstantsT.
Variable connection : IConnection.

Lemma same_data_refl w : same_data w w.
Proof. done. Qed.

Lemma same_data_trans w1 w2 w3 :
  same_data w1 w2 -> same_data w2 w3 -> same_data w1 w3.
Proof. intros (?&?&?) (?&?&?). repeat split; congruence. Qed.

Lemma cache_only_ret {A} (a : A) : cache_only (ret a).
Proof. intros w. apply same_data_refl. Qed.

Lemma cache_only_throw {A} e : cache_only (@throw _ A e).
Proof. intros w. apply same_data_refl. Qed.

Lemma cache_only_bind {A B} (m : M A) (f : A -> M B) :
  cache_only m -> (forall a, cache_only (f a)) -> cache_only (bind m f).
Proof.
  intros Hm Hf w. unfold bind. specialize (Hm w).
  destruct (m w) as [[a|e] w1]; simpl in *; [|done].
  eapply same_data_trans; [exact Hm | apply Hf].
Qed.

Lemma cache_only_read_cacher {A} (f : Cacher.State -> A) :
  cache_only (read_cacher f).
Proof. intros w. apply same_data_refl. Qed.

Lemma cache_only_update_cacher f : cache_only (update_cacher f).
Proof. by intros w. Qed.

Lemma cache_only_next_port : cache_only next_port.
Proof. by intros w. Qed.

Lemma cache_only_query {A} (q : Database -> Exn + A) : cache_only (query q).
Proof. intros w. unfold query. destruct (q (db w)); apply same_data_refl. Qed.

Lemma cache_only_getMySqlDriver c : cache_only (getMySqlDriver Constants c).
Proof.
  apply cache_only_bind; [apply cache_only_read_cacher|].
  intros [cached|]; [apply cache_only_ret|].
  apply cache_only_bind; [apply cache_only_next_port|].
  intros freePort. destruct (getSshMySqlClient c freePort).
  - apply cache_only_throw.
  - apply cache_only_bind; [apply cache_only_update_cacher|].
    intros _. apply cache_only_ret.
Qed.

Lemma cache_only_configureKnex c : cache_only (configureKnex c).
Proof.
  apply cache_only_bind; [apply cache_only_read_cacher|].
  intros [cached|]; [apply cache_only_ret|].
  apply cache_only_bind; [apply cache_only_update_cacher|].
  intros _. apply cache_only_ret.
Qed.

Lemma cache_only_handles : cache_only (handles Constants connection).
Proof.
  apply cache_only_bind; [apply cache_only_getMySqlDriver|]. intros d.
  apply cache_only_bind; [apply cache_only_configureKnex|]. intros k.
  apply cache_only_ret.
Qed.

Lemma cache_only_getTableStructure tableName :
  cache_only (getTableStructure Constants connection tableName).
Proof.
  apply cache_only_bind; [apply cache_only_handles|]. intros via.
  apply cache_only_bind; [apply cache_only_query|]. intros cols.
  apply cache_only_ret.
Qed.

Lemma cache_only_getTablePrimaryColumns tableName :
  cache_only (getTablePrimaryColumns Constants connection tableName).
Proof.
  apply cache_only_bind; [apply cache_only_handles|]. intros via.
  apply cache_only_bind; [apply cache_only_query|]. intros cols.
  apply cache_only_ret.
Qed.

End Frames.

(* ===================================================================== *)
(** * The serialization pass of the writers                               *)
(* ===================================================================== *)

Section Serialization.

Import Dao.
Context `{Collaborators}.
Variable Constants : ConstantsT.
Variable connection : IConnection.

Lemma set_objects_same w o :
  objects w = o -> set_objects o w = w.
Proof. intros <-. by destruct w. Qed.

(** The loop over any list of keys writes [stringify_key] for each, into
    the object at [row]. *)
Lemma stringify_loop columns row keys w o :
  objects w !! row = Some o ->
  for_of keys (fun key =>
    if includes columns key
    then bind (get_prop row key) (fun v => set_prop row key (JSON_stringify v))
    else ret tt) w
  = (Return tt,
     set_objects (<[row := fold_left (stringify_key columns) keys o]> (objects w))
       w).
Proof.
  revert w o. induction keys as [|key keys IH]; intros w o Hrow; simpl.
  - unfold ret. f_equal. symmetry. apply set_objects_same.
    symmetry. by apply insert_id.
  - unfold bind at 1. unfold stringify_key at 2.
    destruct (includes columns key) eqn:Hin.
    + unfold bind, get_prop, set_prop. rewrite Hrow. simpl.
      erewrite IH by (simpl; apply lookup_insert_eq).
      simpl. f_equal. unfold set_objects. simpl. f_equal.
      by rewrite insert_insert_eq.
    + unfold ret at 1. by apply IH.
Qed.

(** What the loop leaves under each key, when it visits every key once. *)
Lemma fold_stringify_lookup columns keys (o : Row) key :
  NoDup keys ->
  fold_left (stringify_key columns) keys o !! key
  = if bool_decide (key ∈ keys) && includes columns key
    then Some (JSON_stringify (default VUndefined (o !! key)))
    else o !! key.
Proof.
  intros Hnodup. revert o.
  induction Hnodup as [|k keys Hk Hnodup IH]; intros o; simpl; [done|].
  rewrite IH. unfold stringify_key.
  destruct (decide (key = k)) as [->|Hne].
  - rewrite (bool_decide_eq_false_2 (k ∈ keys)) by done.
    rewrite bool_decide_eq_true_2 by left. simpl.
    destruct (includes columns k); [|done].
    by rewrite lookup_insert_eq.
  - assert (bool_decide (key ∈ k :: keys) = bool_decide (key ∈ keys)) as ->.
    { apply bool_decide_ext. rewrite elem_of_cons. tauto. }
    destruct (includes columns k); [|done].
    by rewrite lookup_insert_ne.
Qed.

Lemma stringified_lookup tableStructure (o : Row) key :
  stringified tableStructure o !! key
  = (fun v => if includes (jsonColumnNames tableStructure) key
              then JSON_stringify v else v) <$> o !! key.
Proof.
  unfold stringified. rewrite map_lookup_imap. by destruct (o !! key).
Qed.

Lemma fold_stringify_all tableStructure (o : Row) :
  fold_left (stringify_key (jsonColumnNames tableStructure))
    (map fst (map_to_list o)) o
  = stringified tableStructure o.
Proof.
  apply map_eq. intros key.
  rewrite fold_stringify_lookup by apply NoDup_fst_map_to_list.
  rewrite stringified_lookup.
  destruct (o !! key) as [v|] eqn:Hkey; simpl.
  - rewrite bool_decide_eq_true_2.
    + by destruct (includes _ key).
    + apply list_elem_of_fmap. exists (key, v). split; [done|].
      by apply elem_of_map_to_list.
  - rewrite bool_decide_eq_false_2; [done|].
    intros Hin. apply list_elem_of_fmap in Hin as ([k v] & -> & Hin).
    apply elem_of_map_to_list in Hin. simpl in Hkey. congruence.
Qed.

(** The serialization pass rewrites the caller's object in place and
    touches nothing else. *)
Lemma stringifyJsonColumns_spec tableStructure row w o :
  objects w !! row = Some o ->
  stringifyJsonColumns tableStructure row w
  = (Return tt,
     set_objects (<[row := stringified tableStructure o]> (objects w)) w).
Proof.
  intros Hrow. unfold stringifyJsonColumns, mbind, M_bind.
  unfold bind at 1, keys_of. rewrite Hrow. simpl.
  rewrite (stringify_loop _ _ _ _ o Hrow).
  by rewrite fold_stringify_all.
Qed.


Lemma updateRowInTable_row tableName row primaryKey w o tableStructure w1 :
  objects w !! row = Some o ->
  getTableStructure Constants connection tableName w
    = (Return tableStructure, w1) ->
  forall res w',
    updateRowInTable Constants connection tableName row primaryKey w = (res, w') ->
    objects w' = <[row := stringified tableStructure o]> (objects w)
    /\ forall v, res = Return v ->
         exists via, exec_update via (db w) tableName primaryKey
                       (stringified tableStructure o) = inr (db w', v).
Proof.
  intros Hrow Hstruct res w' Hrun.
  pose proof (cache_only_getTableStructure Constants connection tableName w)
    as (_ & Ho1 & Hd1).
  rewrite Hstruct in Ho1, Hd1. simpl in Ho1, Hd1.
  unfold updateRowInTable, mbind, M_bind in Hrun.
  unfold bind at 1 in Hrun. rewrite Hstruct in Hrun.
  unfold bind at 1 in Hrun.
  rewrite (stringifyJsonColumns_spec _ _ _ o) in Hrun by (by rewrite Ho1).
  set (w2 := set_objects _ w1) in Hrun.
  unfold bind at 1 in Hrun.
  pose proof (cache_only_handles Constants connection w2) as (_ & Ho3 & Hd3).
  destruct (handles Constants connection w2) as [[via|e] w3]; simpl in *.
  - unfold bind, read_object, statement_returning in Hrun.
    rewrite Ho3, Hd3 in Hrun. subst w2. simpl in Hrun.
    rewrite lookup_insert_eq in Hrun. simpl in Hrun.
    rewrite Hd1 in Hrun.
    destruct (exec_update via (db w) tableName primaryKey _)
      as [err|[d result]] eqn:Hupd; simplify_eq; simpl.
    + split; [by rewrite Ho3, Ho1|]. done.
    + split; [by rewrite Ho3, Ho1|]. intros v [= <-]. by exists via.
  - simplify_eq. split; [by rewrite Ho3; subst w2; simpl; rewrite Ho1|]. done.
Qed.


Lemma addRowInTable_row tableName row w o tableStructure w1 :
  objects w !! row = Some o ->
  getTableStructure Constants connection tableName w
    = (Return tableStructure, w1) ->
  forall res w',
    addRowInTable Constants connection tableName row w = (res, w') ->
    objects w' = <[row := stringified tableStructure o]> (objects w)
    /\ forall v, res = Return v ->
         exists via, exec_insert via (db w) tableName
                       (stringified tableStructure o) = inr (db w').
Proof.
  intros Hrow Hstruct res w' Hrun.
  pose proof (cache_only_getTableStructure Constants connection tableName w)
    as (_ & Ho1 & Hd1).
  rewrite Hstruct in Ho1, Hd1. simpl in Ho1, Hd1.
  unfold addRowInTable, mbind, M_bind in Hrun.
  unfold bind at 1 in Hrun. rewrite Hstruct in Hrun.
  unfold bind at 1 in Hrun.
  rewrite (stringifyJsonColumns_spec _ _ _ o) in Hrun by (by rewrite Ho1).
  set (w2 := set_objects _ w1) in Hrun.
  assert (Ho2 : objects w2 = <[row := stringified tableStructure o]> (objects w))
    by (subst w2; simpl; by rewrite Ho1).
  assert (Hd2 : db w2 = db w) by (by subst w2).
  clearbody w2.
  unfold bind at 1 in Hrun.
  pose proof (cache_only_getTablePrimaryColumns Constants connection tableName w2)
    as (_ & Ho3 & Hd3).
  destruct (getTablePrimaryColumns Constants connection tableName w2)
    as [[primaryColumns|e] w3]; simpl in Ho3, Hd3;
    [|simplify_eq; split; [congruence|done]].
  unfold bind at 1 in Hrun.
  destruct primaryColumns as [|primaryKey primaryColumns]; simpl in Hrun;
    [unfold property_of_undefined, throw in Hrun; simplify_eq;
     split; [congruence|done]|].
  unfold ret at 1 in Hrun.
  unfold bind at 1 in Hrun.
  pose proof (cache_only_handles Constants connection w3) as (_ & Ho4 & Hd4).
  destruct (handles Constants connection w3) as [[via|e] w4];
    simpl in Ho4, Hd4; [|simplify_eq; split; [congruence|done]].
  assert (Ho : objects w4 !! row = Some (stringified tableStructure o))
    by (rewrite Ho4, Ho3, Ho2; apply lookup_insert_eq).
  assert (Hd : db w4 = db w) by congruence.
  assert (Hobj : objects w4 = <[row := stringified tableStructure o]> (objects w))
    by congruence.
  clear Ho1 Hd1 Ho2 Hd2 Ho3 Hd3 Ho4 Hd4 Hstruct.
  unfold bind, try_catch, knex_insert, mbind, M_bind, bind, read_object,
    statement, get_prop, query, ret, throw, property_of_undefined in Hrun.
  unfold throw in Hrun. cbv beta in Hrun.
  destruct (if _ <? 0 then None else _) as [primaryKeyStructure|] in Hrun;
    [|simplify_eq; by split].
  destruct (negb _) in Hrun; rewrite Ho, Hd in Hrun; simpl in Hrun;
    destruct (exec_insert via (db w) tableName _) as [err|d] eqn:Hins;
    simpl in Hrun;
    repeat case_match; simplify_eq; simpl;
    (split; [done|]); try done;
    intros ? _; by exists via.
Qed.


Lemma includes_jsonColumnNames tableStructure key :
  includes (jsonColumnNames tableStructure) key = true
  <-> exists structEl,
        structEl ∈ tableStructure
        /\ column_name structEl = key
        /\ toLowerCase (data_type structEl) = "json".
Proof.
  unfold includes, jsonColumnNames. rewrite existsb_exists. split.
  - intros (name & Hin & Heq). apply String.eqb_eq in Heq as <-.
    apply in_map_iff in Hin as (structEl & <- & Hin).
    apply filter_In in Hin as [Hin Hjson].
    exists structEl. split; [by apply list_elem_of_In|].
    split; [done|]. by apply String.eqb_eq.
  - intros (structEl & Hin & <- & Hjson).
    exists (column_name structEl). split; [|by apply String.eqb_eq].
    apply in_map_iff. exists structEl. split; [done|].
    apply filter_In. split; [by apply list_elem_of_In|].
    by apply String.eqb_eq.
Qed.

End Serialization.

(** C10.  [addRowInTable] and [updateRowInTable] write into the caller's
    [row]: once the table structure has been fetched, the object the
    caller's reference names holds, under every key whose column has data
    type json (in any letter case), the [JSON.stringify] of the value that
    was there, and every other property unchanged; this is the content the
    INSERT or UPDATE statement is sent with, and it is what the caller finds
    under the same reference when the call is over, however it ends. *)
Theorem json_columns_serialized_in_place `{Collaborators}
    (Constants : ConstantsT) (connection : IConnection)
    (tableName : string) (row : loc) (primaryKey : Row)
    (w : Dao.World) (o : Row) (tableStructure : list IStructureInfo) :
  Dao.objects w !! row = Some o ->
  (Dao.getTableStructure Constants connection tableName w).1
    = Dao.Return tableStructure ->
  exists row' : Row,
    (forall key,
       row' !! key
       = (fun v => if includes (Dao.jsonColumnNames tableStructure) key
                   then JSON_stringify v else v) <$> o !! key)
    /\ (forall key,
          includes (Dao.jsonColumnNames tableStructure) key = true
          <-> exists structEl,
                structEl ∈ tableStructure
                /\ column_name structEl = key
                /\ toLowerCase (data_type structEl) = "json")
    /\ (let added :=
          Dao.addRowInTable Constants connection tableName row w in
        Dao.objects added.2 = <[row := row']> (Dao.objects w)
        /\ forall v, added.1 = Dao.Return v ->
             exists via, exec_insert via (Dao.db w) tableName row'
                         = inr (Dao.db added.2))
    /\ (let updated :=
          Dao.updateRowInTable Constants connection tableName row primaryKey w in
        Dao.objects updated.2 = <[row := row']> (Dao.objects w)
        /\ forall v, updated.1 = Dao.Return v ->
             exists via, exec_update via (Dao.db w) tableName primaryKey row'
                         = inr (Dao.db updated.2, v)).
Proof.
  intros Hrow Hstruct. exists (Dao.stringified tableStructure o).
  destruct (Dao.getTableStructure Constants connection tableName w)
    as [res w1] eqn:Hres. simpl in Hstruct. subst res.
  split; [intros key; apply stringified_lookup|].
  split; [intros key; apply includes_jsonColumnNames|].
  split.
  - destruct (Dao.addRowInTable _ _ _ _ w) as [res w'] eqn:Hrun.
    by eapply addRowInTable_row.
  - destruct (Dao.updateRowInTable _ _ _ _ _ w) as [res w'] eqn:Hrun.
    by eapply updateRowInTable_row.
Qed.

Lemma json_columns_serialized_in_place_witness :
  let w := Sample.world ∅ {[ 1%positive := Sample.newUser ]} in
  Dao.objects w !! 1%positive = Some Sample.newUser
  /\ (Dao.getTableStructure Sample.Constants Sample.connection "users" w).1
     = Dao.Return Sample.usersStructure
  /\ exists row' : Row,
       Dao.objects
         (Dao.addRowInTable Sample.Constants Sample.connection "users"
            1%positive w).2 !! 1%positive = Some row'
       /\ row' !! "name" = Some (VStr "p")
       /\ row' !! "meta"
          = Some (VStr ("{" +:+ dquote +:+ "k" +:+ dquote +:+ ":1}")).
Proof.
  intros w.
  assert (Hrow : Dao.objects w !! 1%positive = Some Sample.newUser)
    by reflexivity.
  assert (Hstruct :
    (Dao.getTableStructure Sample.Constants Sample.connection "users" w).1
    = Dao.Return Sample.usersStructure) by (vm_compute; reflexivity).
  split; [exact Hrow|]. split; [exact Hstruct|].
  destruct (json_columns_serialized_in_place (H := Sample.server)
              Sample.Constants Sample.connection "users" 1%positive ∅ w
              Sample.newUser Sample.usersStructure Hrow Hstruct)
    as (row' & Hkeys & _ & [Hadd _] & _).
  exists row'. split.
  - rewrite Hadd. apply lookup_insert_eq.
  - rewrite !Hkeys. split; vm_compute; reflexivity.
Defined.


(* ===================================================================== *)
(** * Pagination                                                          *)
(* ===================================================================== *)

Section Pagination.

Import Dao.
Context `{Collaborators}.
Variable Constants : ConstantsT.
Variable connection : IConnection.

Lemma num_gt0_spec n : num_gt0 n = negb (negb (num_truthy n) || num_le0 n).
Proof.
  destruct n as [z|]; [|done]. simpl.
  destruct (Z.eqb_spec z 0), (Z.leb_spec z 0), (Z.ltb_spec 0 z); simpl; lia.
Qed.

(** Lines 200-208 in one equation: a positive page leaves both arguments
    alone; otherwise the page is the default and the page size is resolved
    the way the specification words it. *)
Lemma paginationDefaults_spec settings page perPage :
  paginationDefaults Constants settings page perPage
  = if num_gt0 page then (page, perPage)
    else (Some (DEFAULT_PAGINATION_page Constants),
          Spec.perPage Constants settings perPage).
Proof.
  unfold paginationDefaults, Spec.perPage.
  rewrite (num_gt0_spec page), (num_gt0_spec perPage).
  destruct (negb (num_truthy page) || num_le0 page); simpl; [|reflexivity].
  rewrite negb_involutive.
  assert (num_truthy (list_per_page settings) && num_gt0 (list_per_page settings)
          = num_gt0 (list_per_page settings)) as ->.
  { destruct (list_per_page settings) as [z|]; [|done]. simpl.
    destruct (Z.eqb_spec z 0), (Z.ltb_spec 0 z); simpl; lia. }
  by destruct (_ && _).
Qed.

Lemma getRowsFromTable_pagination tableName settings page perPage
    searchedFieldValue filteringFields autocompleteFields w r w' :
  getRowsFromTable Constants connection tableName settings page perPage
    searchedFieldValue filteringFields autocompleteFields w = (Return r, w') ->
  autocompleteRequested autocompleteFields = None ->
  exists rowsCount,
    pagination r
    = Some {| total := rowsCount;
              lastPage := ceil_div rowsCount
                            (paginationDefaults Constants settings page perPage).2;
              perPage := (paginationDefaults Constants settings page perPage).2;
              currentPage := (paginationDefaults Constants settings page perPage).1 |}.
Proof.
  intros Hrun Hauto.
  unfold getRowsFromTable, mbind, M_bind in Hrun.
  destruct (paginationDefaults Constants settings page perPage)
    as [page' perPage'].
  rewrite Hauto in Hrun.
  unfold bind at 1 in Hrun.
  destruct (getMySqlDriver Constants connection w) as [[mySqlDriver|?] w1];
    [|done].
  unfold bind at 1 in Hrun.
  destruct (getRowsCount _ _ _ _ _ _ w1) as [[rowsCount|?] w2]; [|done].
  unfold bind at 1 in Hrun.
  destruct (findAvaliableFields _ _ _ _ w2) as [[availableFields|?] w3]; [|done].
  unfold bind at 1 in Hrun.
  destruct (configureKnex _ w3) as [[knex|?] w4]; [|done].
  unfold bind at 1 in Hrun. unfold read_array at 1 in Hrun.
  unfold bind at 1 in Hrun.
  destruct (run_select _ _ w4) as [[rows|?] w5]; [|done].
  unfold ret in Hrun. simplify_eq. by exists rowsCount.
Qed.

End Pagination.

(** C1, as the code has it.  When [page] is missing or not positive it is
    reset to the default page, and [perPage] becomes
    [settings.list_per_page] if that is positive and no positive [perPage]
    was given, the fixed default otherwise.  When [page] is positive, both
    [page] and [perPage] are used as they were passed: the resolution of
    [perPage] sits behind the test on [page].  The pagination object of a
    listing reports exactly these two values, and [lastPage] is the ceiling
    of [total / perPage]. *)
Theorem pagination_resolved_behind_page_test `{Collaborators}
    (Constants : ConstantsT) (connection : IConnection)
    (tableName : string) (settings : ITableSettings)
    (pageArg perPageArg : option Z) (searchedFieldValue : option string)
    (filteringFields : list FilterObject)
    (autocompleteFields : option AutocompleteFields) :
  let resolved := Dao.paginationDefaults Constants settings pageArg perPageArg in
  resolved
  = (if num_gt0 pageArg then (pageArg, perPageArg)
     else (Some (DEFAULT_PAGINATION_page Constants),
           Spec.perPage Constants settings perPageArg))
  /\ resolved.1 = Spec.page Constants pageArg
  /\ forall w r,
       (Dao.getRowsFromTable Constants connection tableName settings pageArg
          perPageArg searchedFieldValue filteringFields autocompleteFields w).1
       = Dao.Return r ->
       Dao.autocompleteRequested autocompleteFields = None ->
       exists p,
         pagination r = Some p
         /\ currentPage p = resolved.1
         /\ perPage p = resolved.2
         /\ lastPage p = Dao.ceil_div (total p) resolved.2.
Proof.
  intros resolved. subst resolved.
  split; [apply paginationDefaults_spec|]. split.
  - rewrite paginationDefaults_spec. unfold Spec.page.
    destruct pageArg as [z|]; [|done]. simpl.
    destruct (Z.ltb_spec 0 z), (Z.leb_spec z 0); simpl; try done; lia.
  - intros w r Hrun Hauto.
    destruct (Dao.getRowsFromTable _ _ _ _ _ _ _ _ _ w) as [res w'] eqn:Hres.
    simpl in Hrun. subst res.
    destruct (getRowsFromTable_pagination _ _ _ _ _ _ _ _ _ _ _ _ Hres Hauto)
      as [rowsCount ->].
    by eexists.
Qed.

(** C1, the claim as stated fails: with a valid page, no [perPage] and
    [list_per_page = 50], the page size the listing works with and reports
    is [undefined], not the 50 the claim's resolution gives. *)
Lemma perPage_unresolved_when_page_is_valid :
  let run := Dao.getRowsFromTable Sample.Constants Sample.connection "notes"
               Sample.fiftyPerPage (Some 2) None None [] None
               (Sample.world ∅ ∅) in
  Spec.perPage Sample.Constants Sample.fiftyPerPage None = Some 50
  /\ (Dao.paginationDefaults Sample.Constants Sample.fiftyPerPage (Some 2) None).2
     = None
  /\ pagination <$> Sample.returned run
     = Some (Some {| total := 1; lastPage := None; perPage := None;
                     currentPage := Some 2 |})
  /\ (Dao.paginationDefaults Sample.Constants Sample.fiftyPerPage (Some 2) None).2
     <> Spec.perPage Sample.Constants Sample.fiftyPerPage None.
Proof.
  intros run.
  split; [vm_compute; reflexivity|].
  split; [vm_compute; reflexivity|].
  split; [vm_compute; reflexivity|].
  vm_compute. discriminate.
Qed.

Lemma pagination_resolved_behind_page_test_witness :
  (Dao.getRowsFromTable Sample.Constants Sample.connection "users"
     Sample.fiftyPerPage (Some 0) None None [] None (Sample.world ∅ ∅)).1
  = Dao.Return Sample.firstPageOfUsers
  /\ Dao.autocompleteRequested None = None
  /\ exists p,
       pagination Sample.firstPageOfUsers = Some p
       /\ currentPage p = Some 1
       /\ perPage p = Some 50
       /\ lastPage p = Some 0.
Proof.
  assert (Hrun :
    (Dao.getRowsFromTable Sample.Constants Sample.connection "users"
       Sample.fiftyPerPage (Some 0) None None [] None (Sample.world ∅ ∅)).1
    = Dao.Return Sample.firstPageOfUsers) by (vm_compute; reflexivity).
  split; [exact Hrun|]. split; [reflexivity|].
  destruct (pagination_resolved_behind_page_test (H := Sample.server)
              Sample.Constants Sample.connection "users" Sample.fiftyPerPage
              (Some 0) None None [] None) as (_ & _ & Hlisting).
  destruct (Hlisting _ _ Hrun eq_refl) as (p & Hp & Hpage & HperPage & Hlast).
  exists p. split; [exact Hp|].
  rewrite Hpage, HperPage, Hlast.
  injection Hp as <-.
  split; [reflexivity|]. split; reflexivity.
Defined.

(* ===================================================================== *)
(** * Listing: what comes back                                            *)
(* ===================================================================== *)

Create HintDb frames.

Section Listing.

Import Dao.
Context `{Collaborators}.
Variable Constants : ConstantsT.
Variable connection : IConnection.

Lemma keeps_db_cache_only {A} (m : M A) : cache_only m -> keeps_db m.
Proof. intros Hm w. by destruct (Hm w) as (_ & _ & ?). Qed.

Lemma keeps_db_ret {A} (a : A) : keeps_db (ret a).
Proof. done. Qed.

Lemma keeps_db_bind {A B} (m : M A) (f : A -> M B) :
  keeps_db m -> (forall a, keeps_db (f a)) -> keeps_db (bind m f).
Proof.
  intros Hm Hf w. unfold bind. specialize (Hm w).
  destruct (m w) as [[a|e] w1]; simpl in *; [|done].
  by rewrite Hf.
Qed.

Lemma keeps_db_for_of {A} (xs : list A) (body : A -> M unit) :
  (forall x, keeps_db (body x)) -> keeps_db (for_of xs body).
Proof.
  intros Hbody. induction xs as [|x xs IH]; simpl.
  - apply keeps_db_ret.
  - apply keeps_db_bind; [apply Hbody|]. intros _. apply IH.
Qed.

Lemma keeps_db_read_array r : keeps_db (read_array r).
Proof. done. Qed.

Lemma keeps_db_write_array r xs : keeps_db (write_array r xs).
Proof. done. Qed.

Lemma keeps_db_new_array xs : keeps_db (new_array xs).
Proof. done. Qed.

Lemma keeps_db_getTableStructure tableName :
  keeps_db (getTableStructure Constants connection tableName).
Proof. apply keeps_db_cache_only, cache_only_getTableStructure. Qed.

#[local] Hint Resolve keeps_db_ret keeps_db_bind keeps_db_for_of
  keeps_db_read_array keeps_db_write_array keeps_db_new_array
  keeps_db_getTableStructure : frames.

Lemma keeps_db_findAvaliableFields settings tableName :
  keeps_db (findAvaliableFields Constants connection settings tableName).
Proof.
  unfold findAvaliableFields, mbind, M_bind.
  destruct (isObjectEmpty settings); [auto with frames|].
  apply keeps_db_bind.
  - destruct (list_fields settings) as [fields|]; [|auto with frames].
    apply keeps_db_bind; [auto with frames|].
    intros elements. destruct (0 <? _); auto with frames.
  - intros availableFields. apply keeps_db_bind; [|auto with frames].
    apply keeps_db_for_of. intros field.
    apply keeps_db_bind; [auto with frames|]. intros elements.
    destruct (0 <=? _); auto with frames.
Qed.

(** What [getRowsCount] returns: the number of rows of the table its WHERE
    clause selects. *)
Lemma getRowsCount_counts tableName filteringFields settings term w rowsCount :
  (getRowsCount Constants connection tableName filteringFields settings term w).1
    = Return rowsCount ->
  db (getRowsCount Constants connection tableName filteringFields settings term w).2
    = db w
  /\ exists via counted,
       table_rows via (db w) tableName = inr counted
       /\ rowsCount
          = Z.of_nat (length (matching
                                (countBuilder tableName filteringFields settings term)
                                counted)).
Proof.
  unfold getRowsCount, mbind, M_bind, bind.
  pose proof (cache_only_handles Constants connection w) as (_ & _ & Hdb).
  destruct (handles Constants connection w) as [[via|e] w1]; [|done].
  simpl in Hdb. unfold run_count, query. rewrite Hdb.
  replace (default "" (Knex.b_from (countBuilder tableName filteringFields
                                       settings term))) with tableName.
  2:{ unfold countBuilder, Knex.modify.
      by rewrite searchCallback_spec, filterCallback_spec. }
  destruct (table_rows via (db w) tableName) as [e|counted] eqn:Hrows; [done|].
  simpl. intros [= <-]. split; [done|]. by exists via, counted.
Qed.

(** What a listing returns: the select statement of [rowsBuilder] applied
    to the rows of the table, and as total the number of rows the count
    query selects. *)
Lemma getRowsFromTable_listing tableName settings page0 perPage0 term
    filteringFields autocompleteFields w r :
  (getRowsFromTable Constants connection tableName settings page0 perPage0 term
     filteringFields autocompleteFields w).1 = Return r ->
  autocompleteRequested autocompleteFields = None ->
  exists viaCount counted viaRows rows fields offset,
    table_rows viaCount (db w) tableName = inr counted
    /\ table_rows viaRows (db w) tableName = inr rows
    /\ (total <$> pagination r)
       = Some (Z.of_nat (length (matching
                                   (countBuilder tableName filteringFields
                                      settings term) counted)))
    /\ data r
       = select_result
           (rowsBuilder tableName fields settings term filteringFields
              (paginationDefaults Constants settings page0 perPage0).2 offset)
           rows.
Proof.
  intros Hrun Hauto.
  unfold getRowsFromTable, mbind, M_bind in Hrun.
  destruct (paginationDefaults Constants settings page0 perPage0)
    as [page' perPage'].
  rewrite Hauto in Hrun.
  unfold bind at 1 in Hrun.
  pose proof (cache_only_getMySqlDriver Constants connection w) as (_ & _ & Hd1).
  destruct (getMySqlDriver Constants connection w) as [[mySqlDriver|?] w1];
    [|done]. simpl in Hd1.
  unfold bind at 1 in Hrun.
  pose proof (getRowsCount_counts tableName filteringFields settings term w1)
    as Hcount.
  destruct (getRowsCount _ _ _ _ _ _ w1) as [[rowsCount|?] w2]; [|done].
  destruct (Hcount rowsCount eq_refl) as (Hd2 & viaCount & counted & Hcounted & ->).
  simpl in Hd2. clear Hcount.
  unfold bind at 1 in Hrun.
  pose proof (keeps_db_findAvaliableFields settings tableName w2) as Hd3.
  destruct (findAvaliableFields _ _ _ _ w2) as [[availableFields|?] w3]; [|done].
  simpl in Hd3.
  unfold bind at 1 in Hrun.
  pose proof (cache_only_configureKnex (connectionConfig connection) w3)
    as (_ & _ & Hd4).
  destruct (configureKnex _ w3) as [[knex|?] w4]; [|done]. simpl in Hd4.
  unfold bind at 1 in Hrun. unfold read_array at 1 in Hrun.
  unfold bind at 1 in Hrun. unfold run_select, query in Hrun.
  set (fields := default [] (arrays w4 !! availableFields)) in Hrun.
  set (offset := num_mul (num_pred page') perPage') in Hrun.
  replace (default "" (Knex.b_from (rowsBuilder tableName fields settings term
                                       filteringFields perPage' offset)))
    with tableName in Hrun.
  2:{ unfold rowsBuilder, Knex.modify.
      rewrite orderCallback_spec, filterCallback_spec, searchCallback_spec.
      by destruct (str_truthy (ordering settings)). }
  assert (Hdb : db w4 = db w) by congruence.
  rewrite Hdb in Hrun. rewrite Hd1 in Hcounted.
  destruct (table_rows _ (db w) tableName) as [e|rows] eqn:Hrows in Hrun;
    [done|].
  unfold ret in Hrun. simpl in Hrun. injection Hrun as <-. simpl.
  by eexists viaCount, counted, _, rows, fields, offset.
Qed.

End Listing.

(** C3.  Every filter entry contributes exactly one statement to the
    builder, the comparison the specification's table names for its
    criterion ([eq] to [=], [startswith] to [LIKE value%], [endswith] to
    [LIKE %value], [contains] to [LIKE %value%], [gt]/[lt]/[gte]/[lte] to
    the comparison, [icontains] to [NOT LIKE %value%]), pushed with AND; the
    WHERE clause the entries form, in the rows query as in the count query,
    selects a row exactly when every one of these comparisons is true on
    it; and a listing with filters returns a page of exactly those rows of
    the table, and their number as total. *)
Theorem filters_joined_by_and `{Collaborators} (Constants : ConstantsT)
    (connection : IConnection) (filteringFields : list FilterObject) :
  let allTrue (atom : Knex.Cond -> Knex.tri) :=
    forallb (fun f => Knex.is_true (Knex.stmt_value atom (Spec.comparison f)))
      filteringFields in
  (forall b,
     Knex.b_wheres (Dao.filterCallback filteringFields b)
     = Knex.b_wheres b ++ map Spec.comparison filteringFields)
  /\ Forall (fun w => Knex.w_bool w = Knex.And)
       (map Spec.comparison filteringFields)
  /\ (forall atom tableName fields settings perPage0 offset,
        Knex.selected atom
          (Knex.b_wheres (Dao.rowsBuilder tableName fields settings None
                            filteringFields perPage0 offset))
        = allTrue atom)
  /\ (forall atom tableName settings,
        Knex.selected atom
          (Knex.b_wheres (Dao.countBuilder tableName filteringFields settings
                            None))
        = allTrue atom)
  /\ (forall tableName settings page0 perPage0 w r,
        (Dao.getRowsFromTable Constants connection tableName settings page0
           perPage0 None filteringFields None w).1 = Dao.Return r ->
        exists viaCount counted viaRows rows b,
          table_rows viaCount (Dao.db w) tableName = inr counted
          /\ table_rows viaRows (Dao.db w) tableName = inr rows
          /\ (total <$> pagination r)
             = Some (Z.of_nat
                       (length (List.filter
                                  (fun row => allTrue (cond_value row))
                                  counted)))
          /\ data r = Dao.select_result b rows
          /\ Dao.matching b rows
             = List.filter (fun row => allTrue (cond_value row)) rows).
Proof.
  intros allTrue.
  assert (Hsel : forall atom,
    Knex.selected atom (map Spec.comparison filteringFields) = allTrue atom).
  { intros atom. rewrite selected_ands by apply comparisons_and.
    subst allTrue. simpl.
    induction filteringFields as [|f fs IH]; [done|].
    simpl. by rewrite IH. }
  assert (Hnone : forall settings, Spec.searchedFields settings None = [])
    by (intros settings; unfold Spec.searchedFields;
        by destruct (search_fields settings)).
  assert (Hrows : forall atom tableName fields settings perPage0 offset,
    Knex.selected atom
      (Knex.b_wheres (Dao.rowsBuilder tableName fields settings None
                        filteringFields perPage0 offset))
    = allTrue atom).
  { intros. rewrite rowsBuilder_wheres, Hnone. apply Hsel. }
  assert (Hcount : forall atom tableName settings,
    Knex.selected atom
      (Knex.b_wheres (Dao.countBuilder tableName filteringFields settings None))
    = allTrue atom).
  { intros. rewrite countBuilder_wheres, Hnone. simpl. rewrite app_nil_r.
    apply Hsel. }
  split; [intros b; by rewrite filterCallback_spec|].
  split; [apply comparisons_and|].
  split; [exact Hrows|]. split; [exact Hcount|].
  intros tableName settings page0 perPage0 w r Hrun.
  destruct (getRowsFromTable_listing _ _ _ _ _ _ _ _ _ _ _ Hrun eq_refl)
    as (viaCount & counted & viaRows & rows & fields & offset
        & Hcounted & Hrowsof & Htotal & Hdata).
  eexists viaCount, counted, viaRows, rows, _.
  split; [done|]. split; [done|]. split; [|split; [exact Hdata|]].
  - rewrite Htotal. unfold Dao.matching. do 3 f_equal.
    apply filter_ext. intros row. apply Hcount.
  - unfold Dao.matching. apply filter_ext. intros row. apply Hrows.
Qed.

Lemma filters_joined_by_and_witness :
  (Dao.getRowsFromTable Sample.Constants Sample.connection "notes"
     Sample.noSettings (Some 1) (Some 10) None
     [Sample.equals "a" "x"; Sample.equals "a" "y"] None (Sample.world ∅ ∅)).1
  = Dao.Return Sample.nothingFound
  /\ total <$> pagination Sample.nothingFound = Some 0.
Proof.
  assert (Hrun :
    (Dao.getRowsFromTable Sample.Constants Sample.connection "notes"
       Sample.noSettings (Some 1) (Some 10) None
       [Sample.equals "a" "x"; Sample.equals "a" "y"] None
       (Sample.world ∅ ∅)).1
    = Dao.Return Sample.nothingFound) by (vm_compute; reflexivity).
  split; [exact Hrun|].
  destruct (filters_joined_by_and (H := Sample.server) Sample.Constants
              Sample.connection
              [Sample.equals "a" "x"; Sample.equals "a" "y"])
    as (_ & _ & _ & _ & Hlisting).
  destruct (Hlisting _ _ _ _ _ _ Hrun)
    as (viaCount & counted & _ & _ & _ & Hcounted & _ & Htotal & _).
  injection Hcounted as <-.
  rewrite Htotal. vm_compute. reflexivity.
Defined.

(* ===================================================================== *)
(** * Schema normalization                                                *)
(* ===================================================================== *)

Section StringFacts.

Lemma append_cons c (s t : string) : String c s +:+ t = String c (s +:+ t).
Proof. reflexivity. Qed.

Lemma append_empty_l (s : string) : "" +:+ s = s.
Proof. reflexivity. Qed.

Lemma append_empty_r (s : string) : s +:+ "" = s.
Proof.
  induction s as [|c s IH]; [done|]. by rewrite append_cons, IH.
Qed.

Lemma append_assoc (a b c : string) : (a +:+ b) +:+ c = a +:+ (b +:+ c).
Proof.
  induction a as [|x a IH]; [done|]. by rewrite !append_cons, IH.
Qed.

Lemma length_append (a b : string) :
  String.length (a +:+ b) = (String.length a + String.length b)%nat.
Proof.
  induction a as [|x a IH]; [done|]. rewrite append_cons. simpl. by rewrite IH.
Qed.

(** The middle of a string, by position. *)
Lemma substring_middle (p m q : string) :
  substring (String.length p) (String.length m) (p +:+ m +:+ q) = m.
Proof.
  induction p as [|c p IH].
  - rewrite append_empty_l. simpl String.length at 1.
    induction m as [|c m IHm]; [by destruct q|].
    rewrite append_cons. simpl. by rewrite IHm.
  - rewrite append_cons. simpl. exact IH.
Qed.

(** Cutting [p] and a two-character ending off [p ++ m ++ q]. *)
Lemma slice_middle (p m q : string) :
  String.length q = 2%nat ->
  slice (p +:+ m +:+ q) (Z.of_nat (String.length p))
    (Z.of_nat (String.length (p +:+ m +:+ q)) - 2) = m.
Proof.
  intros Hq. unfold slice, slice_index.
  rewrite !length_append, Hq.
  set (lp := String.length p). set (lm := String.length m).
  assert ((Z.of_nat lp <? 0) = false) as -> by (apply Z.ltb_ge; lia).
  assert ((Z.of_nat (lp + (lm + 2)) - 2 <? 0) = false) as ->
    by (apply Z.ltb_ge; lia).
  replace (Z.to_nat (Z.of_nat lp `min` Z.of_nat (lp + (lm + 2)))) with lp by lia.
  replace (Z.to_nat _) with lm by lia.
  apply substring_middle.
Qed.

Lemma split_go_cons sep cur c (s : string) :
  split_go sep 0 cur (String c s)
  = if String.prefix sep (String c s)
    then cur :: split_go sep (String.length sep - 1) "" s
    else split_go sep 0 (cur +:+ String c "") s.
Proof. reflexivity. Qed.

Lemma prefix_other_head a c (p s : string) :
  a <> c -> String.prefix (String a p) (String c s) = false.
Proof. intros Hne. simpl. by destruct (ascii_dec a c). Qed.

Lemma prefix_same_head a (p s : string) :
  String.prefix (String a p) (String a s) = String.prefix p s.
Proof. simpl. by destruct (ascii_dec a a). Qed.

Lemma prefix_empty (s : string) : String.prefix "" s = true.
Proof. by destruct s. Qed.

(** Reading a value without a quote: no separator starts inside it. *)
Lemma split_go_value (v cur tail : string) :
  quote_free v = true ->
  split_go "','" 0 cur (v +:+ tail) = split_go "','" 0 (cur +:+ v) tail.
Proof.
  revert cur. induction v as [|c v IH]; intros cur Hv.
  - by rewrite append_empty_l, append_empty_r.
  - simpl in Hv. apply andb_true_iff in Hv as [Hc Hv].
    apply negb_true_iff, Ascii.eqb_neq in Hc.
    rewrite append_cons, split_go_cons.
    rewrite prefix_other_head by done.
    rewrite IH by done. by rewrite append_assoc.
Qed.

(** Reading a separator ends the current piece. *)
Lemma split_go_separator (cur tail : string) :
  split_go "','" 0 cur ("','" +:+ tail) = cur :: split_go "','" 0 "" tail.
Proof.
  change ("','" +:+ tail) with (String "'" (String "," (String "'" tail))).
  rewrite split_go_cons, !prefix_same_head, prefix_empty. reflexivity.
Qed.

(** Splitting what [join] built gives the values back. *)
Lemma split_join (values : list string) :
  values <> [] ->
  forallb quote_free values = true ->
  split "','" (join "','" values) = values.
Proof.
  unfold split. intros Hne Hvalues.
  induction values as [|v values IH]; [done|].
  simpl in Hvalues. apply andb_true_iff in Hvalues as [Hv Hvalues].
  destruct values as [|v' values].
  - simpl. rewrite <- (append_empty_r v) at 1.
    by rewrite split_go_value.
  - change (join "','" (v :: v' :: values))
      with (v +:+ "','" +:+ join "','" (v' :: values)).
    rewrite split_go_value by done.
    rewrite split_go_separator. rewrite append_empty_l.
    f_equal. by apply IH.
Qed.

End StringFacts.

(** The value list of an [enum(...)] or [set(...)] column type. *)
Lemma enum_params values :
  values <> [] -> forallb quote_free values = true ->
  split "','"
    (slice ("enum('" +:+ join "','" values +:+ "')") 6
       (Z.of_nat (String.length ("enum('" +:+ join "','" values +:+ "')")) - 2))
  = values.
Proof.
  intros Hne Hvalues.
  pose proof (slice_middle "enum('" (join "','" values) "')" eq_refl) as Hs.
  change (Z.of_nat (String.length "enum('")) with 6 in Hs.
  rewrite Hs. by apply split_join.
Qed.

Lemma set_params values :
  values <> [] -> forallb quote_free values = true ->
  split "','"
    (slice ("set('" +:+ join "','" values +:+ "')") 5
       (Z.of_nat (String.length ("set('" +:+ join "','" values +:+ "')")) - 2))
  = values.
Proof.
  intros Hne Hvalues.
  pose proof (slice_middle "set('" (join "','" values) "')" eq_refl) as Hs.
  change (Z.of_nat (String.length "set('")) with 5 in Hs.
  rewrite Hs. by apply split_join.
Qed.

Lemma normalizeColumn_normalized element :
  Spec.normalized element (Dao.normalizeColumn element).
Proof.
  unfold Spec.normalized, Dao.normalizeColumn. simpl.
  repeat split.
  - intros values Hne Hvalues Htype Hcolumn. rewrite Htype, Hcolumn.
    by rewrite enum_params.
  - intros values Hne Hvalues Htype Hcolumn. rewrite Htype, Hcolumn.
    by rewrite set_params.
  - by intros ->.
  - intros Hextra. apply String.eqb_neq in Hextra. by rewrite Hextra.
  - destruct (String.eqb_spec (cat_is_nullable element) "YES") as [Heq|Hne].
    + by rewrite bool_decide_eq_true_2.
    + by rewrite bool_decide_eq_false_2.
  - intros n -> Hn. simpl. apply Z.eqb_neq in Hn. by rewrite Hn.
  - intros ->.
    destruct (getNumbersFromString (cat_column_type element)) as [n|]; [|done].
    simpl. by destruct (n =? 0).
Qed.

Lemma getTableStructure_rows `{Collaborators} Constants connection tableName
    (w : Dao.World) structure :
  (Dao.getTableStructure Constants connection tableName w).1
    = Dao.Return structure ->
  exists via rows,
    information_schema_columns via (Dao.db w) (database connection) tableName
      = inr rows
    /\ structure = map Dao.normalizeColumn rows.
Proof.
  unfold Dao.getTableStructure, mbind, Dao.M_bind. unfold Dao.bind at 1.
  pose proof (cache_only_handles Constants connection w) as (_ & _ & Hdb).
  destruct (Dao.handles Constants connection w) as [[via|e] w1]; [|done].
  simpl in Hdb. unfold Dao.bind, Dao.query. rewrite Hdb.
  destruct (information_schema_columns via (Dao.db w) _ _) as [e|rows] eqn:Hrows;
    [done|].
  simpl. intros [= <-]. by exists via, rows.
Qed.

(** C8.  Whatever [getTableStructure] returns is the catalog's answer, row
    by row, normalized: a column of data type enum (or set) whose column
    type reads [enum('v1',...,'vn')] (or [set(...)]) gets the values as
    [data_type_params]; [extra = auto_increment] rewrites [column_default]
    to the sentinel; [allow_null] is the boolean [is_nullable = YES]; and
    [character_maximum_length] keeps the catalog's number, falls back to
    the number of the first run of digits of [column_type] when the catalog
    gives none, and is null when there is neither. *)
Theorem structure_normalization `{Collaborators} (Constants : ConstantsT)
    (connection : IConnection) (tableName : string) (w : Dao.World)
    (structure : list IStructureInfo) :
  (Dao.getTableStructure Constants connection tableName w).1
    = Dao.Return structure ->
  exists via rows,
    information_schema_columns via (Dao.db w) (database connection) tableName
      = inr rows
    /\ Forall2 Spec.normalized rows structure.
Proof.
  intros Hrun.
  destruct (getTableStructure_rows _ _ _ _ _ Hrun) as (via & rows & Hrows & ->).
  exists via, rows. split; [done|].
  apply Forall2_fmap_r, Forall_Forall2_diag, Forall_forall.
  intros element _. apply normalizeColumn_normalized.
Qed.

Lemma structure_normalization_witness :
  (Dao.getTableStructure Sample.Constants Sample.connection "tickets"
     (Sample.world ∅ ∅)).1
  = Dao.Return Sample.ticketsStructure
  /\ exists status,
       Sample.ticketsStructure !! 1%nat = Some status
       /\ data_type_params status = Some ["a"; "b"; "c"]
       /\ allow_null status = false.
Proof.
  assert (Hrun :
    (Dao.getTableStructure Sample.Constants Sample.connection "tickets"
       (Sample.world ∅ ∅)).1
    = Dao.Return Sample.ticketsStructure) by (vm_compute; reflexivity).
  split; [exact Hrun|].
  destruct (structure_normalization (H := Sample.server) _ _ _ _ _ Hrun)
    as (via & rows & Hrows & Hnormalized).
  injection Hrows as <-.
  apply Forall2_cons_1 in Hnormalized as [_ Hnormalized].
  apply Forall2_cons_1 in Hnormalized as [Hstatus _].
  destruct Hstatus as (_ & _ & _ & _ & Henum & _ & _ & _ & Hnull & _).
  eexists. split; [reflexivity|]. split.
  - by apply (Henum ["a"; "b"; "c"]).
  - rewrite Hnull. reflexivity.
Defined.

(* ===================================================================== *)
(** * Listing: the total, the ordering and the search                     *)
(* ===================================================================== *)

(** C2.  The total the listing reports is not the number of rows its own
    WHERE clause selects.  On [notes], filtered by [a = x] and searched for
    [zzz] in [b], the count query reads [a = ? or CAST(b)=?] and counts the
    row, the rows query reads [CAST(b)=? and a = ?] and returns none: the
    pagination says [total = 1] over an empty page. *)
Theorem total_counts_rows_the_listing_leaves_out :
  let countWheres :=
    Knex.b_wheres (Dao.countBuilder "notes" [Sample.equals "a" "x"]
                     (Sample.searching ["b"]) (Some "zzz")) in
  let rowsWheres :=
    Knex.b_wheres (Dao.rowsBuilder "notes" [] (Sample.searching ["b"])
                     (Some "zzz") [Sample.equals "a" "x"] (Some 10) (Some 0)) in
  let listing :=
    Dao.getRowsFromTable Sample.Constants Sample.connection "notes"
      (Sample.searching ["b"]) (Some 1) (Some 10) (Some "zzz")
      [Sample.equals "a" "x"] None (Sample.world ∅ ∅) in
  Knex.where_sql countWheres = "where `a` = ? or  CAST (?? AS CHAR (255))=?"
  /\ Knex.where_sql rowsWheres = "where  CAST (?? AS CHAR (255))=? and `a` = ?"
  /\ Knex.selected (Sample.eval_cond Sample.note) countWheres = true
  /\ Knex.selected (Sample.eval_cond Sample.note) rowsWheres = false
  /\ (fun r => (length (data r), total <$> pagination r))
       <$> Sample.returned listing
     = Some (0%nat, Some 1).
Proof.
  intros countWheres rowsWheres listing.
  split; [vm_compute; reflexivity|].
  split; [vm_compute; reflexivity|].
  split; [vm_compute; reflexivity|].
  split; vm_compute; reflexivity.
Qed.

(** C4.  The ORDER BY is pushed exactly when [settings.ordering] is there,
    whatever [settings.ordering_field] is: with a direction and no
    [ordering_field] the builder receives [orderBy(undefined, ASC)]. *)
Theorem order_by_pushed_without_ordering_field
    (tableName : string) (fields : list string) (settings : ITableSettings)
    (term : option string) (filteringFields : list FilterObject)
    (perPage0 offset : option Z) :
  Knex.b_orders
    (Dao.rowsBuilder tableName fields settings term filteringFields perPage0
       offset)
  = (if Dao.str_truthy (ordering settings)
     then [ {| Knex.o_column := ordering_field settings;
               Knex.o_direction := default "" (ordering settings) |} ]
     else [])
  /\ Knex.b_orders
       (Dao.rowsBuilder "notes" ["a"] Sample.directionOnly None [] (Some 10)
          (Some 0))
     = [ {| Knex.o_column := None; Knex.o_direction := "ASC" |} ].
Proof.
  split; [apply rowsBuilder_orders|].
  rewrite rowsBuilder_orders. reflexivity.
Qed.

(** C5.  The search statements are pushed flat, not as one group: with
    two search fields and a filter the rows query reads
    [CAST(a)=? or CAST(b)=? and c = ?], and the row of [notes], which
    matches the search on [a] and fails the filter on [c], is selected and
    returned, where [(a or b) and c] is false. *)
Theorem search_group_not_parenthesized :
  let wheres :=
    Knex.b_wheres
      (Dao.rowsBuilder "notes" [] (Sample.searching ["a"; "b"]) (Some "x")
         [Sample.equals "c" "1"] (Some 10) (Some 0)) in
  let listing :=
    Dao.getRowsFromTable Sample.Constants Sample.connection "notes"
      (Sample.searching ["a"; "b"]) (Some 1) (Some 10) (Some "x")
      [Sample.equals "c" "1"] None (Sample.world ∅ ∅) in
  Knex.where_sql wheres
  = "where  CAST (?? AS CHAR (255))=? or  CAST (?? AS CHAR (255))=? and `c` = ?"
  /\ Knex.selected (Sample.eval_cond Sample.note) wheres = true
  /\ Spec.searchAndFilters (Sample.eval_cond Sample.note) ["a"; "b"] "x"
       [Sample.equals "c" "1"] = Some false
  /\ (fun r => map (fun row => row !! "c") (data r)) <$> Sample.returned listing
     = Some [Some (VStr "2")].
Proof.
  intros wheres listing.
  split; [vm_compute; reflexivity|].
  split; [vm_compute; reflexivity|].
  split; vm_compute; reflexivity.
Qed.

(* ===================================================================== *)
(** * Inserting                                                           *)
(* ===================================================================== *)

Section Writers.

Import Dao.
Context `{Collaborators}.
Variable Constants : ConstantsT.
Variable connection : IConnection.

(** The branch of [addRowInTable] for a table without a primary key is
    never reached: no run returns without a key. *)
Lemma addRowInTable_never_returns_undefined tableName row w :
  (addRowInTable Constants connection tableName row w).1 <> Return None.
Proof.
  unfold addRowInTable, mbind, M_bind.
  unfold bind at 1.
  destruct (getTableStructure _ _ _ w) as [[tableStructure|?] w1]; [|done].
  unfold bind at 1.
  destruct (stringifyJsonColumns _ _ w1) as [[[]|?] w2]; [|done].
  unfold bind at 1.
  destruct (getTablePrimaryColumns _ _ _ w2) as [[primaryColumns|?] w3]; [|done].
  destruct primaryColumns as [|primaryKey primaryColumns]; [done|].
  change (head (primaryKey :: primaryColumns)) with (Some primaryKey).
  cbv iota.
  unfold bind at 1. unfold ret at 1.
  unfold bind at 1.
  destruct (handles _ _ w3) as [[via|?] w4]; [|done].
  change (0 <? Z.of_nat (length (primaryKey :: primaryColumns))) with true.
  cbv iota.
  unfold bind at 1.
  destruct (if _ <? 0 then None else _) as [primaryKeyStructure|]; [|done].
  unfold ret at 1.
  destruct (negb _); unfold try_catch, bind, ret, throw;
    repeat case_match; simplify_eq; done.
Qed.

(** With no primary-key column in the catalog's answer, the operation
    throws before it sends anything: the database is as it was. *)
Lemma addRowInTable_without_primary_key tableName row w :
  (forall w', (getTablePrimaryColumns Constants connection tableName w').1
              = Return [] \/
              exists e, (getTablePrimaryColumns Constants connection tableName w').1
              = Throw e) ->
  let added := addRowInTable Constants connection tableName row w in
  (exists e, added.1 = Throw e) /\ db added.2 = db w.
Proof.
  intros Hnone added. subst added.
  destruct (addRowInTable _ _ _ _ w) as [res w'] eqn:Hrun. simpl.
  unfold addRowInTable, mbind, M_bind in Hrun.
  unfold bind at 1 in Hrun.
  pose proof (cache_only_getTableStructure Constants connection tableName w)
    as (_ & _ & Hd1).
  destruct (getTableStructure _ _ _ w) as [[tableStructure|?] w1];
    simpl in Hd1; [|simplify_eq; split; [by eexists|done]].
  unfold bind at 1 in Hrun.
  assert (exists w2, stringifyJsonColumns tableStructure row w1 = (Return tt, w2)
                     /\ db w2 = db w1) as (w2 & Hloop & Hd2).
  { unfold stringifyJsonColumns, mbind, M_bind, bind at 1, keys_of.
    generalize (map fst (map_to_list (default ∅ (objects w1 !! row)))).
    intros keys. clear Hrun. revert w1 Hd1.
    induction keys as [|key keys IH]; intros w1 Hd1.
    - by exists w1.
    - simpl. unfold bind at 1.
      destruct (includes _ key).
      + unfold bind at 1, get_prop, set_prop.
        destruct (IH (set_objects
                        (<[row := <[key := JSON_stringify
                                            (default VUndefined
                                               (default ∅ (objects w1 !! row) !! key))]>
                                    (default ∅ (objects w1 !! row))]> (objects w1))
                        w1) Hd1) as (w2 & Hw2 & Hd2).
        by exists w2.
      + unfold ret at 1. by apply IH. }
  rewrite Hloop in Hrun.
  unfold bind at 1 in Hrun.
  pose proof (cache_only_getTablePrimaryColumns Constants connection tableName w2)
    as (_ & _ & Hd3).
  specialize (Hnone w2).
  destruct (getTablePrimaryColumns _ _ _ w2) as [[primaryColumns|?] w3];
    simpl in Hd3, Hnone.
  - destruct Hnone as [[= ->]|[? [=]]]. simpl in Hrun.
    unfold bind, property_of_undefined, throw in Hrun. simplify_eq.
    split; [by eexists|congruence].
  - simplify_eq. split; [by eexists|congruence].
Qed.

End Writers.

(** C6.  No run of [addRowInTable] returns [undefined], and on a table
    without a primary key it does not insert: the catalog answers with no
    key column, [primaryColumns[0]] is [undefined], reading its
    [column_name] throws a TypeError, and the table holds the rows it
    held. *)
Theorem insert_without_primary_key_throws :
  let w := Sample.world ∅ {[ 1%positive := {[ "a" := VStr "p" ]} ]} in
  let added :=
    Dao.addRowInTable Sample.Constants Sample.connection "notes" 1%positive w in
  (forall (server : Collaborators) Constants connection tableName row w',
     (Dao.addRowInTable (H := server) Constants connection tableName row w').1
     <> Dao.Return None)
  /\ (Dao.getTablePrimaryColumns Sample.Constants Sample.connection "notes" w).1
     = Dao.Return []
  /\ Sample.thrown added
     = Some (TypeError
               "Cannot read properties of undefined (reading 'column_name')")
  /\ length (Sample.rows_of (Dao.db added.2) "notes")
     = length (Sample.rows_of (Dao.db w) "notes").
Proof.
  intros w added.
  split; [intros; apply addRowInTable_never_returns_undefined|].
  split; [vm_compute; reflexivity|].
  split; vm_compute; reflexivity.
Qed.

(** The two cases with a primary key, on the sample server: the generated
    id for an auto-increment key, the supplied value otherwise. *)
Example insert_with_primary_key_returns_it :
  let users := Sample.world ∅ {[ 1%positive := Sample.newUser ]} in
  let codes :=
    Sample.world ∅ {[ 1%positive := {[ "code" := VStr "X1";
                                       "label" := VStr "first" ]} ]} in
  (fun key : option Row => map_to_list <$> key)
    <$> Sample.returned
          (Dao.addRowInTable Sample.Constants Sample.connection "users"
             1%positive users)
  = Some (Some [("id", VNum 8)])
  /\ (fun key : option Row => map_to_list <$> key)
       <$> Sample.returned
             (Dao.addRowInTable Sample.Constants Sample.connection "codes"
                1%positive codes)
     = Some (Some [("code", VStr "X1")]).
Proof.
  intros users codes. split; vm_compute; reflexivity.
Qed.

(* ===================================================================== *)
(** * The cache                                                           *)
(* ===================================================================== *)

Section CacheFacts.

Import Dao.
Context `{Collaborators}.
Variable Constants : ConstantsT.

(** [getMySqlDriver] hands out whatever the driver cache holds. *)
Lemma getMySqlDriver_cached connection w cached :
  Cacher.getDriverCache connection (cacher w) = Some cached ->
  getMySqlDriver Constants connection w = (Return cached, w).
Proof.
  intros Hcached.
  unfold getMySqlDriver, mbind, M_bind, bind, read_cacher.
  by rewrite Hcached.
Qed.

(** No operation of the class writes the knex cache. *)
Lemma configureKnex_keeps_knexCache connectionConfig w :
  Cacher.knexCache (cacher (configureKnex connectionConfig w).2)
  = Cacher.knexCache (cacher w).
Proof.
  unfold configureKnex, mbind, M_bind, bind, read_cacher.
  by destruct (Cacher.getCachedKnex connectionConfig (cacher w)).
Qed.

(** On a miss in the knex cache, [configureKnex] leaves its new instance in
    the driver cache, under the descriptor it was given. *)
Lemma configureKnex_fills_driver_cache connectionConfig w :
  Cacher.getCachedKnex connectionConfig (cacher w) = None ->
  exists newKnex,
    (configureKnex connectionConfig w).1 = Return (KnexInstance newKnex)
    /\ Cacher.getDriverCache connectionConfig
         (cacher (configureKnex connectionConfig w).2)
       = Some (KnexInstance newKnex).
Proof.
  intros Hmiss.
  unfold configureKnex, mbind, M_bind, bind, read_cacher.
  rewrite Hmiss. simpl. eexists. split; [done|].
  unfold Cacher.getDriverCache, Cacher.setDriverCache. simpl.
  apply lookup_insert_eq.
Qed.

(** So the next [getMySqlDriver] for that descriptor returns the knex
    instance. *)
Lemma getMySqlDriver_after_configureKnex connection w :
  Cacher.getCachedKnex connection (cacher w) = None ->
  exists newKnex,
    (bind (configureKnex connection)
       (fun _ => getMySqlDriver Constants connection) w).1
    = Return (KnexInstance newKnex).
Proof.
  intros Hmiss.
  destruct (configureKnex_fills_driver_cache connection w Hmiss)
    as (newKnex & Hrun & Hcache).
  exists newKnex. unfold bind.
  destruct (configureKnex connection w) as [res w1]. simpl in *. subst res.
  by rewrite (getMySqlDriver_cached _ _ _ Hcache).
Qed.

End CacheFacts.


(** C7.  The knex instance replaces the cached driver.  From an empty
    cache, [getMySqlDriver] opens the tunnel and returns its client; after
    [configureKnex] for the same descriptor (as [testConnect] calls it) the
    next [getMySqlDriver] returns the knex instance. *)
Theorem knex_handle_returned_as_driver :
  let w := Sample.world ∅ ∅ in
  let direct :=
    Dao.bind (Dao.getMySqlDriver Sample.Constants Sample.connection) (fun _ =>
    Dao.bind (Dao.configureKnex Sample.connection) (fun _ =>
    Dao.getMySqlDriver Sample.Constants Sample.connection)) w in
  let probed :=
    Dao.bind (Dao.testConnect Sample.Constants Sample.connection) (fun _ =>
    Dao.getMySqlDriver Sample.Constants Sample.connection) w in
  Sample.returned (Dao.getMySqlDriver Sample.Constants Sample.connection w)
  = Some (SshDriver {| client_connection := Sample.connection;
                       client_port := 33060 |})
  /\ Sample.returned direct = Some Sample.knexOfConnection
  /\ Sample.returned probed = Some Sample.knexOfConnection.
Proof.
  intros w direct probed.
  split; [vm_compute; reflexivity|].
  split; vm_compute; reflexivity.
Qed.

(* ===================================================================== *)
(** * The projection                                                      *)
(* ===================================================================== *)

Section Projection.

Import Dao.
Context `{Collaborators}.
Variable Constants : ConstantsT.
Variable connection : IConnection.

Lemma set_arrays_same w a :
  arrays w = a -> set_arrays a w = w.
Proof. intros <-. by destruct w. Qed.

(** The exclusion loop works on the array the reference names. *)
Lemma exclusion_loop availableFields excluded w elements :
  arrays w !! availableFields = Some elements ->
  for_of excluded (fun field =>
    bind (read_array availableFields) (fun elements =>
      let delIndex := indexOf elements field in
      if 0 <=? delIndex
      then bind (read_array availableFields) (fun elements =>
             write_array availableFields
               (splice1 elements (indexOf elements field)))
      else ret tt)) w
  = (Return tt,
     set_arrays (<[availableFields := fold_left remove_excluded excluded elements]>
                   (arrays w)) w).
Proof.
  revert w elements.
  induction excluded as [|field excluded IH]; intros w elements Harray; simpl.
  - unfold ret. f_equal. symmetry. apply set_arrays_same.
    symmetry. by apply insert_id.
  - unfold bind at 1. unfold bind at 1. unfold read_array at 1.
    rewrite Harray. simpl. unfold remove_excluded at 2.
    destruct (0 <=? indexOf elements field).
    + unfold bind, read_array, write_array. rewrite Harray. simpl.
      erewrite IH by (simpl; apply lookup_insert_eq).
      simpl. f_equal. unfold set_arrays. simpl. f_equal.
      by rewrite insert_insert_eq.
    + unfold ret at 1. by apply IH.
Qed.

(** With a non-empty [list_fields], what comes back is that very array,
    and the excluded names have been cut out of it. *)
Lemma findAvaliableFields_in_place settings tableName w fields elements :
  list_fields settings = Some fields ->
  arrays w !! fields = Some elements ->
  elements <> [] ->
  findAvaliableFields Constants connection settings tableName w
  = (Return fields,
     set_arrays
       (<[fields := fold_left remove_excluded
                      (default [] (excluded_fields settings)) elements]>
          (arrays w)) w).
Proof.
  intros Hfields Harray Hne.
  unfold findAvaliableFields, mbind, M_bind.
  assert (isObjectEmpty settings = false) as ->.
  { unfold isObjectEmpty. by rewrite Hfields. }
  rewrite Hfields.
  unfold bind at 1. unfold bind at 1. unfold read_array at 1.
  rewrite Harray. simpl.
  destruct elements as [|element elements]; [done|].
  change (0 <? Z.of_nat (length (element :: elements))) with true.
  cbv iota. unfold ret at 1.
  unfold bind at 1.
  by rewrite (exclusion_loop _ _ _ _ Harray).
Qed.


(** Without [list_fields] the names go into a new array: every array the
    caller holds is left as it was. *)
Lemma findAvaliableFields_fresh settings tableName w r :
  list_fields settings = None ->
  is_Some (arrays w !! r) ->
  arrays (findAvaliableFields Constants connection settings tableName w).2 !! r
  = arrays w !! r.
Proof.
  intros Hfields Hr.
  assert (Hnew : forall names w1,
            arrays w1 = arrays w ->
            let r' := fresh (dom (arrays w1)) in
            new_array names w1
            = (Return r', set_arrays (<[r' := names]> (arrays w1)) w1)
            /\ r' <> r).
  { intros names w1 Hw1 r'. split; [done|].
    intros Heq. apply (is_fresh (dom (arrays w1))).
    change (fresh (dom (arrays w1))) with r'. rewrite Heq, Hw1.
    by apply elem_of_dom. }
  unfold findAvaliableFields, mbind, M_bind. rewrite Hfields.
  destruct (isObjectEmpty settings).
  - unfold bind.
    pose proof (cache_only_getTableStructure Constants connection tableName w)
      as (Ha & _ & _).
    destruct (getTableStructure _ _ _ w) as [[tableStructure|?] w1];
      simpl in Ha; [|simpl; by rewrite Ha].
    cbv beta iota.
    destruct (Hnew (columnNames tableStructure) w1 Ha) as [-> Hne].
    simpl. rewrite lookup_insert_ne by done. by rewrite Ha.
  - unfold bind at 1. unfold bind at 1. unfold bind at 1.
    pose proof (cache_only_getTableStructure Constants connection tableName w)
      as (Ha & _ & _).
    destruct (getTableStructure _ _ _ w) as [[tableStructure|?] w1];
      simpl in Ha; [|simpl; by rewrite Ha].
    cbv beta iota.
    destruct (Hnew (columnNames tableStructure) w1 Ha) as [-> Hne].
    erewrite exclusion_loop by (simpl; apply lookup_insert_eq).
    simpl. rewrite !lookup_insert_ne by done. by rewrite Ha.
Qed.

End Projection.

(** C9.  [findAvaliableFields] cuts the excluded names out of the caller's
    own [settings.list_fields]: the reference it returns is the one in the
    settings, and the array behind it has lost [b]. *)
Theorem list_fields_spliced_in_place :
  let w := Sample.world {[ 1%positive := ["a"; "b"; "c"] ]} ∅ in
  let found :=
    Dao.findAvaliableFields Sample.Constants Sample.connection
      Sample.listedWithoutB "notes" w in
  list_fields Sample.listedWithoutB = Some 1%positive
  /\ Dao.arrays w !! 1%positive = Some ["a"; "b"; "c"]
  /\ Sample.returned found = Some 1%positive
  /\ Dao.arrays found.2 !! 1%positive = Some ["a"; "c"].
Proof.
  intros w found.
  split; [reflexivity|]. split; [reflexivity|].
  split; vm_compute; reflexivity.
Qed.

(* ===================================================================== *)
(** * The tunnel and the handles                                          *)
(* ===================================================================== *)

Section Tunnel.

Import Dao.
Context `{Collaborators} {statements : Statements}.
Variable Constants : ConstantsT.
Variable connection : IConnection.

Lemma bind_throw {A B} (m : M A) (f : A -> M B) w e w' :
  m w = (Throw e, w') -> bind m f w = (Throw e, w').
Proof. intros Hm. unfold bind. by rewrite Hm. Qed.

(** The one exception [getMySqlDriver] throws. *)
Lemma getMySqlDriver_throws c w e :
  (getMySqlDriver Constants c w).1 = Throw e ->
  e = HttpException (FAILED_ESTABLISH_SSH_CONNECTION Constants) 500.
Proof.
  unfold getMySqlDriver, mbind, M_bind, bind, read_cacher, next_port,
    update_cacher, ret, throw.
  destruct (Cacher.getDriverCache c (cacher w)); [done|].
  destruct (getSshMySqlClient c _); simpl; [|done].
  by intros [= <-].
Qed.

Lemma handles_throw w e w' :
  getMySqlDriver Constants connection w = (Throw e, w') ->
  handles Constants connection w = (Throw e, w').
Proof. intros Hm. by apply bind_throw. Qed.

Lemma getTableStructure_throw tableName w e w' :
  getMySqlDriver Constants connection w = (Throw e, w') ->
  getTableStructure Constants connection tableName w = (Throw e, w').
Proof. intros Hm. by apply bind_throw, handles_throw. Qed.

(** On a miss in the knex cache, the instance [configureKnex] builds and
    the state it leaves. *)
Lemma configureKnex_built connectionConfig :
  exists options, forall w : World,
    Cacher.getCachedKnex connectionConfig (cacher w) = None ->
    configureKnex connectionConfig w
    = (Return (KnexInstance options),
       set_cacher
         (Cacher.setDriverCache connectionConfig (KnexInstance options)
            (cacher w)) w).
Proof.
  eexists. intros w Hmiss.
  unfold configureKnex, mbind, M_bind, bind, read_cacher, update_cacher, ret.
  rewrite Hmiss. reflexivity.
Qed.

End Tunnel.

(** X1.  Two calls to [getMySqlDriver] for one connection open one tunnel:
    once a call has returned a driver, the next one returns that driver
    and leaves the state as it is, the port counter included. *)
Theorem driver_opened_once `{Collaborators} (Constants : ConstantsT)
    (connection : IConnection) (w : Dao.World) (driver : Handle) :
  (Dao.getMySqlDriver Constants connection w).1 = Dao.Return driver ->
  let w1 := (Dao.getMySqlDriver Constants connection w).2 in
  Dao.getMySqlDriver Constants connection w1 = (Dao.Return driver, w1).
Proof.
  intros Hrun w1. subst w1.
  destruct (Dao.getMySqlDriver Constants connection w) as [res w1] eqn:Hfirst.
  simpl in *. subst res.
  apply getMySqlDriver_cached.
  revert Hfirst.
  unfold Dao.getMySqlDriver, mbind, Dao.M_bind, Dao.bind, Dao.read_cacher,
    Dao.next_port, Dao.update_cacher, Dao.ret, Dao.throw.
  destruct (Cacher.getDriverCache connection (Dao.cacher w)) as [cached|]
    eqn:Hcache.
  - by intros [= <- <-].
  - destruct (getSshMySqlClient connection (getPort (Dao.port_requests w)))
      as [message|client]; [done|].
    intros [= <- <-]. simpl.
    unfold Cacher.getDriverCache, Cacher.setDriverCache. simpl.
    apply lookup_insert_eq.
Qed.

Lemma driver_opened_once_witness :
  let tunnel := SshDriver {| client_connection := Sample.connection;
                             client_port := 33060 |} in
  (Dao.getMySqlDriver Sample.Constants Sample.connection (Sample.world ∅ ∅)).1
  = Dao.Return tunnel
  /\ (Dao.getMySqlDriver Sample.Constants Sample.connection
        (Dao.getMySqlDriver Sample.Constants Sample.connection
           (Sample.world ∅ ∅)).2).1
     = Dao.Return tunnel.
Proof.
  intros tunnel.
  assert (Hrun :
    (Dao.getMySqlDriver Sample.Constants Sample.connection (Sample.world ∅ ∅)).1
    = Dao.Return tunnel) by (vm_compute; reflexivity).
  split; [exact Hrun|].
  by rewrite (driver_opened_once (H := Sample.server) _ _ _ _ Hrun).
Defined.

(** X2.  When the tunnel cannot be opened, [getMySqlDriver] throws the
    HTTP exception with the fixed message and status 500, whatever the
    client's own error said; nothing is cached, and the port that was asked
    for is spent: the next call tries again, with the next port. *)
Theorem tunnel_failure_is_http_500 `{Collaborators} (Constants : ConstantsT)
    (connection : IConnection) (w : Dao.World) (message : string) :
  Cacher.getDriverCache connection (Dao.cacher w) = None ->
  getSshMySqlClient connection (getPort (Dao.port_requests w)) = inl message ->
  let run := Dao.getMySqlDriver Constants connection w in
  run.1 = Dao.Throw (HttpException (FAILED_ESTABLISH_SSH_CONNECTION Constants) 500)
  /\ Dao.cacher run.2 = Dao.cacher w
  /\ Dao.port_requests run.2 = S (Dao.port_requests w)
  /\ Dao.same_data w run.2.
Proof.
  intros Hmiss Hfail run. subst run.
  unfold Dao.getMySqlDriver, mbind, Dao.M_bind, Dao.bind, Dao.read_cacher,
    Dao.next_port.
  rewrite Hmiss. simpl. rewrite Hfail. by simpl.
Qed.

Lemma tunnel_failure_is_http_500_witness :
  let w := Sample.unreachableWorld ∅ in
  let run := Dao.getMySqlDriver Sample.Constants Sample.connection w in
  run.1 = Dao.Throw (HttpException "Failed to establish ssh connection" 500)
  /\ Dao.port_requests run.2 = 1%nat.
Proof.
  intros w run.
  destruct (tunnel_failure_is_http_500 (H := Sample.unreachable)
              Sample.Constants Sample.connection w "connect ETIMEDOUT"
              eq_refl eq_refl) as (Hthrown & _ & Hport & _).
  split; [exact Hthrown | exact Hport].
Defined.

(** X3.  [testConnect] answers with a boolean and never throws.  It is
    [false] when the driver cannot be had and when the probe statement
    fails; once the probe has been answered it is [true], whatever the
    answer holds. *)
Theorem testConnect_reports_reachability `{Collaborators}
    (Constants : ConstantsT) (connection : IConnection) (w : Dao.World) :
  let probed := Dao.testConnect Constants connection w in
  let acquired := Dao.getMySqlDriver Constants connection w in
  Dao.same_data w probed.2
  /\ match acquired.1 with
     | Dao.Throw _ => probed = (Dao.Return false, acquired.2)
     | Dao.Return mySqlDriver =>
         exists knex,
           (Dao.configureKnex connection acquired.2).1 = Dao.Return knex
           /\ probed.1
              = Dao.Return
                  (if exec_select_1 {| via_knex := knex;
                                       via_connection := mySqlDriver |}
                        (Dao.db w) is inr _ then true else false)
     end.
Proof.
  intros probed acquired. subst probed acquired.
  destruct (Dao.testConnect Constants connection w) as [res w'] eqn:Hrun.
  unfold Dao.testConnect, mbind, Dao.M_bind in Hrun.
  unfold Dao.bind at 1 in Hrun. unfold Dao.try_catch at 1 in Hrun.
  unfold Dao.bind at 1 in Hrun.
  pose proof (cache_only_getMySqlDriver Constants connection w) as Hframe1.
  destruct (Dao.getMySqlDriver Constants connection w)
    as [[mySqlDriver|e] w1]; simpl in Hframe1 |- *.
  - unfold Dao.ret at 1 in Hrun. unfold Dao.bind at 1 in Hrun.
    pose proof (cache_only_configureKnex connection w1) as Hframe2.
    assert (Hknex : exists knex,
              (Dao.configureKnex connection w1).1 = Dao.Return knex).
    { unfold Dao.configureKnex, mbind, Dao.M_bind, Dao.bind, Dao.read_cacher.
      destruct (Cacher.getCachedKnex _ _); by eexists. }
    destruct Hknex as [knex Hknex].
    destruct (Dao.configureKnex connection w1) as [knex' w2].
    simpl in Hknex, Hframe2. subst knex'.
    destruct (same_data_trans _ _ _ Hframe1 Hframe2) as (Ha & Ho & Hd).
    unfold Dao.try_catch, Dao.bind, Dao.query, Dao.ret in Hrun.
    rewrite Hd in Hrun.
    destruct (exec_select_1 _ (Dao.db w)) as [err|result] eqn:Hprobe;
      injection Hrun as <- <-; (split; [done|]); exists knex;
      simpl; by rewrite Hprobe.
  - unfold Dao.ret in Hrun. injection Hrun as <- <-. by split.
Qed.

(** X4.  No operation goes further than the tunnel: when the driver for
    [this.connection] cannot be had, every operation ends with that same
    HTTP 500 exception ([testConnect] with [false]), and neither the
    database nor the caller's row and settings have been touched. *)
Theorem no_operation_without_tunnel `{Collaborators} {statements : Statements}
    (Constants : ConstantsT) (connection : IConnection) (w : Dao.World)
    (e : Exn) (tableName : string) (row : loc) (primaryKey : Row)
    (settings : ITableSettings) (keySettings : option ITableSettings)
    (page perPage : option Z) (searchedFieldValue : option string)
    (filteringFields : list FilterObject)
    (autocompleteFields : option AutocompleteFields) :
  (Dao.getMySqlDriver Constants connection w).1 = Dao.Throw e ->
  let w' := (Dao.getMySqlDriver Constants connection w).2 in
  let failed {A} (run : Dao.Result A * Dao.World) := run = (Dao.Throw e, w') in
  e = HttpException (FAILED_ESTABLISH_SSH_CONNECTION Constants) 500
  /\ Dao.same_data w w'
  /\ failed (Dao.addRowInTable Constants connection tableName row w)
  /\ failed (Dao.updateRowInTable Constants connection tableName row primaryKey w)
  /\ failed (Dao.deleteRowInTable Constants connection tableName primaryKey w)
  /\ failed (Dao.getRowByPrimaryKey Constants connection tableName primaryKey
               keySettings w)
  /\ failed (Dao.getRowsFromTable Constants connection tableName settings page
               perPage searchedFieldValue filteringFields autocompleteFields w)
  /\ failed (Dao.getTableForeignKeys Constants connection tableName w)
  /\ failed (Dao.getTablesFromDB Constants connection w)
  /\ failed (Dao.getTablePrimaryColumns Constants connection tableName w)
  /\ failed (Dao.getTableStructure Constants connection tableName w)
  /\ Dao.testConnect Constants connection w = (Dao.Return false, w').
Proof.
  intros Hthrow w' failed. subst w' failed. cbv beta.
  split; [by eapply getMySqlDriver_throws|].
  split; [apply cache_only_getMySqlDriver|].
  destruct (Dao.getMySqlDriver Constants connection w) as [res w'] eqn:Hdriver.
  simpl in Hthrow |- *. subst res.
  pose proof (handles_throw _ _ _ _ _ Hdriver) as Hhandles.
  pose proof (getTableStructure_throw _ _ tableName _ _ _ Hdriver) as Hstructure.
  do 8 (split; [by apply bind_throw|]).
  split; [done|].
  unfold Dao.testConnect, mbind, Dao.M_bind, Dao.bind, Dao.try_catch, Dao.ret.
  by rewrite Hdriver.
Qed.

Lemma no_operation_without_tunnel_witness :
  let w := Sample.unreachableWorld {[ 1%positive := Sample.newUser ]} in
  let added :=
    Dao.addRowInTable Sample.Constants Sample.connection "users" 1%positive w in
  (Dao.getMySqlDriver Sample.Constants Sample.connection w).1
  = Dao.Throw (HttpException "Failed to establish ssh connection" 500)
  /\ added.1 = Dao.Throw (HttpException "Failed to establish ssh connection" 500)
  /\ Dao.objects added.2 !! 1%positive = Some Sample.newUser.
Proof.
  intros w added.
  assert (Hthrow :
    (Dao.getMySqlDriver Sample.Constants Sample.connection w).1
    = Dao.Throw (HttpException "Failed to establish ssh connection" 500))
    by (vm_compute; reflexivity).
  split; [exact Hthrow|].
  destruct (no_operation_without_tunnel (H := Sample.unreachable)
              (statements := Sample.unreachableStatements)
              Sample.Constants Sample.connection w _ "users" 1%positive ∅
              Sample.noSettings None None None None [] None Hthrow)
    as (_ & (_ & Hobjects & _) & Hadded & _).
  subst added. rewrite Hadded. simpl. split; [reflexivity|].
  rewrite Hobjects. reflexivity.
Defined.

(** X5.  [configureKnex] never finds what it built: it looks in the knex
    cache and stores in the driver cache, so that a descriptor the knex
    cache does not hold is answered with a newly built instance at every
    call, the same options each time. *)
Theorem knex_instance_built_at_every_call `{Collaborators}
    (connectionConfig : IConnection) (w : Dao.World) :
  Cacher.getCachedKnex connectionConfig (Dao.cacher w) = None ->
  let first := Dao.configureKnex connectionConfig w in
  let second := Dao.configureKnex connectionConfig first.2 in
  exists options,
    first.1 = Dao.Return (KnexInstance options)
    /\ Cacher.getCachedKnex connectionConfig (Dao.cacher first.2) = None
    /\ Cacher.getDriverCache connectionConfig (Dao.cacher first.2)
       = Some (KnexInstance options)
    /\ second.1 = Dao.Return (KnexInstance options)
    /\ Cacher.getCachedKnex connectionConfig (Dao.cacher second.2) = None.
Proof.
  intros Hmiss first second.
  destruct (configureKnex_built connectionConfig) as [options Hbuilt].
  exists options.
  assert (Hfirst := Hbuilt w Hmiss). fold first in Hfirst.
  assert (Hmiss1 : Cacher.getCachedKnex connectionConfig (Dao.cacher first.2)
                   = None) by (by rewrite Hfirst).
  assert (Hsecond := Hbuilt first.2 Hmiss1). fold second in Hsecond.
  rewrite Hsecond. split; [by rewrite Hfirst|]. split; [done|].
  split; [|by split].
  rewrite Hfirst. simpl.
  unfold Cacher.getDriverCache, Cacher.setDriverCache. simpl.
  apply lookup_insert_eq.
Qed.

Lemma knex_instance_built_at_every_call_witness :
  let w := Sample.world ∅ ∅ in
  let first := Dao.configureKnex Sample.connection w in
  let second := Dao.configureKnex Sample.connection first.2 in
  first.1 = Dao.Return Sample.knexOfConnection
  /\ second.1 = Dao.Return Sample.knexOfConnection
  /\ Cacher.getCachedKnex Sample.connection (Dao.cacher second.2) = None.
Proof.
  intros w first second. subst first second.
  destruct (knex_instance_built_at_every_call (H := Sample.server)
              Sample.connection w eq_refl)
    as (options & Hfirst & _ & _ & Hsecond & Hmiss).
  assert (Hknex : (Dao.configureKnex Sample.connection w).1
                  = Dao.Return Sample.knexOfConnection)
    by (vm_compute; reflexivity).
  split; [exact Hknex|]. split; [|exact Hmiss].
  refine (eq_trans Hsecond _). refine (eq_trans (eq_sym Hfirst) _).
  exact Hknex.
Defined.

(* ===================================================================== *)
(** * The available fields                                                *)
(* ===================================================================== *)

Section Exclusion.

Import Dao.

Lemma indexOf_lower (xs : list string) x : -1 <= indexOf xs x.
Proof.
  induction xs as [|y xs IH]; simpl; [lia|].
  destruct (String.eqb y x); [lia|].
  destruct (Z.ltb_spec (indexOf xs x) 0); lia.
Qed.

(** [indexOf] is negative exactly on the strings the array does not hold. *)
Lemma indexOf_negative (xs : list string) x : indexOf xs x < 0 <-> x ∉ xs.
Proof.
  induction xs as [|y xs IH]; simpl.
  - split; [intros _; apply not_elem_of_nil | lia].
  - rewrite not_elem_of_cons.
    destruct (String.eqb_spec y x) as [->|Hne].
    + split; [lia | intros [? _]; done].
    + pose proof (indexOf_lower xs x).
      destruct (Z.ltb_spec (indexOf xs x) 0); split; try lia.
      * intros _. split; [done | apply IH; lia].
      * intros [_ Hnot]. apply IH in Hnot. lia.
Qed.

Lemma filter_all {A} (P : A -> Prop) `{forall x, Decision (P x)} (xs : list A) :
  Forall P xs -> filter P xs = xs.
Proof.
  induction 1 as [|x xs Hx _ IH]; [done|].
  by rewrite filter_cons_True, IH.
Qed.

(** On an array without repetition, one turn of the exclusion loop takes
    out every occurrence of the field. *)
Lemma remove_excluded_filter (elements : list string) field :
  NoDup elements ->
  remove_excluded elements field = filter (fun x => x <> field) elements.
Proof.
  unfold remove_excluded, splice1.
  induction 1 as [|y xs Hy Hxs IH]; [done|]. simpl.
  destruct (String.eqb_spec y field) as [->|Hne].
  - simpl. rewrite filter_cons_False by (intros Hneq; by apply Hneq).
    symmetry. apply filter_all, Forall_forall. by intros x Hx ->.
  - rewrite filter_cons_True by done.
    pose proof (indexOf_lower xs field).
    destruct (Z.ltb_spec (indexOf xs field) 0) as [Hneg|Hpos].
    + simpl. f_equal. symmetry. apply filter_all, Forall_forall.
      intros x Hx ->. by apply indexOf_negative in Hneg.
    + assert ((0 <=? indexOf xs field + 1) = true) as -> by lia.
      assert ((0 <=? indexOf xs field) = true) as Hle by lia.
      rewrite Hle in IH. rewrite <- IH.
      replace (Z.to_nat (indexOf xs field + 1))
        with (S (Z.to_nat (indexOf xs field))) by lia.
      done.
Qed.

Lemma exclusion_filter (excluded elements : list string) :
  NoDup elements ->
  fold_left remove_excluded excluded elements
  = filter (fun x => x ∉ excluded) elements.
Proof.
  revert elements.
  induction excluded as [|field excluded IH]; intros elements Hnodup; simpl.
  - symmetry. apply filter_all, Forall_forall. intros x _. apply not_elem_of_nil.
  - rewrite remove_excluded_filter by done.
    rewrite IH by by apply NoDup_filter.
    rewrite list_filter_filter. apply list_filter_iff.
    intros x. rewrite not_elem_of_cons. tauto.
Qed.

End Exclusion.

(** X6.  With a non-empty [settings.list_fields], [findAvaliableFields] asks the
    server nothing: it returns that array, and, the array holding no name
    twice, what it holds afterwards is its elements without the excluded
    names, in their order. *)
Theorem listed_fields_without_excluded `{Collaborators}
    (Constants : ConstantsT) (connection : IConnection)
    (settings : ITableSettings) (tableName : string) (w : Dao.World)
    (fields : loc) (elements : list string) :
  list_fields settings = Some fields ->
  Dao.arrays w !! fields = Some elements ->
  elements <> [] ->
  NoDup elements ->
  let found :=
    Dao.findAvaliableFields Constants connection settings tableName w in
  found.1 = Dao.Return fields
  /\ Dao.arrays found.2 !! fields
     = Some (filter (fun field => field ∉ default [] (excluded_fields settings))
               elements)
  /\ Dao.cacher found.2 = Dao.cacher w
  /\ Dao.port_requests found.2 = Dao.port_requests w
  /\ Dao.db found.2 = Dao.db w.
Proof.
  intros Hfields Harray Hne Hnodup found. subst found.
  rewrite (findAvaliableFields_in_place _ _ _ _ _ _ _ Hfields Harray Hne).
  simpl. rewrite lookup_insert_eq. by rewrite exclusion_filter.
Qed.

Lemma listed_fields_without_excluded_witness :
  let w := Sample.world {[ 1%positive := ["a"; "b"; "c"] ]} ∅ in
  let found :=
    Dao.findAvaliableFields Sample.Constants Sample.connection
      Sample.listedWithoutB "notes" w in
  found.1 = Dao.Return 1%positive
  /\ Dao.arrays found.2 !! 1%positive = Some ["a"; "c"]
  /\ Dao.port_requests found.2 = 0%nat.
Proof.
  intros w found.
  assert (Hnodup : NoDup ["a"; "b"; "c"]) 
    by (apply (bool_decide_unpack _); vm_compute; exact I).
  destruct (listed_fields_without_excluded (H := Sample.server)
              Sample.Constants Sample.connection Sample.listedWithoutB "notes"
              w 1%positive ["a"; "b"; "c"] eq_refl eq_refl
              ltac:(discriminate) Hnodup)
    as (Hfound & Harray & _ & Hport & _).
  subst found.
  split; [exact Hfound|]. split; [|exact Hport].
  refine (eq_trans Harray _). vm_compute. reflexivity.
Defined.

(** X7.  Without [settings.list_fields], or with an empty one, the available
    fields are a new array: the column names of the table structure, in
    the catalog's order, without the excluded names.  No array the caller
    holds is written. *)
Theorem fields_default_to_table_columns `{Collaborators}
    (Constants : ConstantsT) (connection : IConnection)
    (settings : ITableSettings) (tableName : string) (w : Dao.World)
    (structure : list IStructureInfo) :
  (list_fields settings = None
   \/ exists fields, list_fields settings = Some fields
                     /\ default [] (Dao.arrays w !! fields) = []) ->
  (Dao.getTableStructure Constants connection tableName w).1
    = Dao.Return structure ->
  NoDup (Dao.columnNames structure) ->
  let found :=
    Dao.findAvaliableFields Constants connection settings tableName w in
  exists availableFields,
    found.1 = Dao.Return availableFields
    /\ Dao.arrays w !! availableFields = None
    /\ Dao.arrays found.2
       = <[availableFields :=
             filter (fun field => field ∉ default [] (excluded_fields settings))
               (Dao.columnNames structure)]> (Dao.arrays w).
Proof.
  intros Hnone Hstructure Hnodup found. subst found.
  pose proof (cache_only_getTableStructure Constants connection tableName w)
    as (Ha & _ & _).
  destruct (Dao.getTableStructure Constants connection tableName w)
    as [res w1] eqn:Hrun.
  simpl in Hstructure, Ha. subst res.
  set (names := Dao.columnNames structure) in *.
  set (r := fresh (dom (Dao.arrays w))).
  assert (Hfresh : Dao.arrays w !! r = None)
    by (apply not_elem_of_dom, is_fresh).
  assert (Hnew : Dao.bind (Dao.getTableStructure Constants connection tableName)
                   (fun tableStructure =>
                      Dao.new_array (Dao.columnNames tableStructure)) w
                 = (Dao.Return r,
                    Dao.set_arrays (<[r := names]> (Dao.arrays w)) w1)).
  { unfold Dao.bind. rewrite Hrun. unfold Dao.new_array. by rewrite Ha. }
  exists r.
  assert (Hfound :
    Dao.findAvaliableFields Constants connection settings tableName w
    = (Dao.Return r,
       Dao.set_arrays
         (<[r := filter (fun field =>
                           field ∉ default [] (excluded_fields settings))
                   names]> (Dao.arrays w)) w1)); [|by rewrite Hfound].
  unfold Dao.findAvaliableFields, mbind, Dao.M_bind.
  destruct (isObjectEmpty settings) eqn:Hempty.
  - rewrite Hnew. do 3 f_equal.
    assert (excluded_fields settings = None) as ->.
    { unfold isObjectEmpty in Hempty. by repeat case_match. }
    symmetry. apply filter_all, Forall_forall.
    intros x _. apply not_elem_of_nil.
  - unfold Dao.bind at 1.
    assert (Hchoice :
      match list_fields settings with
      | Some fields =>
          Dao.bind (Dao.read_array fields) (fun elements =>
            if 0 <? Z.of_nat (length elements)
            then Dao.ret fields
            else Dao.bind
                   (Dao.getTableStructure Constants connection tableName)
                   (fun tableStructure =>
                      Dao.new_array (Dao.columnNames tableStructure)))
      | None =>
          Dao.bind (Dao.getTableStructure Constants connection tableName)
            (fun tableStructure =>
               Dao.new_array (Dao.columnNames tableStructure))
      end w
      = (Dao.Return r, Dao.set_arrays (<[r := names]> (Dao.arrays w)) w1)).
    { destruct Hnone as [-> | (fields & -> & Hnil)]; [exact Hnew|].
      unfold Dao.bind at 1, Dao.read_array at 1. rewrite Hnil. exact Hnew. }
    rewrite Hchoice. unfold Dao.bind at 1.
    erewrite exclusion_loop by (simpl; apply lookup_insert_eq).
    unfold Dao.ret, Dao.set_arrays. simpl.
    rewrite insert_insert_eq. by rewrite exclusion_filter.
Qed.

Lemma fields_default_to_table_columns_witness :
  let found :=
    Dao.findAvaliableFields Sample.Constants Sample.connection
      Sample.withoutB "notes" (Sample.world ∅ ∅) in
  (Dao.getTableStructure Sample.Constants Sample.connection "notes"
     (Sample.world ∅ ∅)).1 = Dao.Return Sample.notesStructure
  /\ exists availableFields,
       found.1 = Dao.Return availableFields
       /\ Dao.arrays found.2 !! availableFields = Some ["a"; "c"].
Proof.
  intros found. subst found.
  assert (Hstructure :
    (Dao.getTableStructure Sample.Constants Sample.connection "notes"
       (Sample.world ∅ ∅)).1 = Dao.Return Sample.notesStructure)
    by (vm_compute; reflexivity).
  assert (Hnodup : NoDup (Dao.columnNames Sample.notesStructure))
    by (apply (bool_decide_unpack _); vm_compute; exact I).
  split; [exact Hstructure|].
  destruct (fields_default_to_table_columns (H := Sample.server)
              Sample.Constants Sample.connection Sample.withoutB "notes"
              (Sample.world ∅ ∅) Sample.notesStructure
              (or_introl eq_refl) Hstructure Hnodup)
    as (availableFields & Hfound & _ & Harrays).
  exists availableFields. split; [exact Hfound|].
  rewrite Harrays, lookup_insert_eq. vm_compute. reflexivity.
Defined.

(* ===================================================================== *)
(** * Listing: autocomplete, pages, totals                                *)
(* ===================================================================== *)

Section Autocomplete.

Import Dao.
Context `{Collaborators}.
Variable Constants : ConstantsT.
Variable connection : IConnection.

(** The statement of one field of an autocomplete request. *)
Lemma autocompleteBuilder_wheres tableName requested :
  Knex.b_wheres (autocompleteBuilder Constants tableName requested)
  = if String.eqb (ac_value requested) "*" then []
    else map (fun field =>
                {| Knex.w_bool := Knex.Or; Knex.w_not := false;
                   Knex.w_cond :=
                     Knex.WhereBasic field "like"
                       (VStr (ac_value requested +:+ "%")) |})
           (ac_fields requested).
Proof.
  unfold autocompleteBuilder, Knex.modify, autocompleteCallback.
  destruct (String.eqb (ac_value requested) "*"); [done|]. simpl.
  unfold Knex.orWhere. by rewrite for_of_push_where.
Qed.

Lemma autocompleteBuilder_selected atom tableName requested :
  ac_fields requested <> [] ->
  Knex.selected atom
    (Knex.b_wheres (autocompleteBuilder Constants tableName requested))
  = String.eqb (ac_value requested) "*"
    || Knex.is_true
         (Knex.any3
            (map (fun field =>
                    atom (Knex.WhereBasic field "like"
                            (VStr (ac_value requested +:+ "%"))))
               (ac_fields requested))).
Proof.
  intros Hfields. rewrite autocompleteBuilder_wheres.
  destruct (String.eqb (ac_value requested) "*"); [done|]. simpl.
  destruct (ac_fields requested) as [|field fields]; [done|].
  unfold Knex.selected. simpl. f_equal.
  rewrite where_go_ors by (apply Forall_map, Forall_forall; by intros).
  by rewrite map_map.
Qed.

Lemma getRowsFromTable_autocomplete tableName settings page0 perPage0 term
    filteringFields requested w r :
  ac_value requested <> "" ->
  ac_fields requested <> [] ->
  (getRowsFromTable Constants connection tableName settings page0 perPage0 term
     filteringFields (Some requested) w).1 = Return r ->
  pagination r = None
  /\ exists via rows,
       table_rows via (db w) tableName = inr rows
       /\ data r
          = select_result (autocompleteBuilder Constants tableName requested)
              rows.
Proof.
  intros Hvalue Hfields Hrun.
  unfold getRowsFromTable, mbind, M_bind in Hrun.
  destruct (paginationDefaults Constants settings page0 perPage0)
    as [page' perPage'].
  assert (autocompleteRequested (Some requested) = Some requested) as Hauto.
  { unfold autocompleteRequested.
    apply String.eqb_neq in Hvalue. rewrite Hvalue.
    by destruct (ac_fields requested). }
  rewrite Hauto in Hrun.
  unfold bind at 1 in Hrun.
  pose proof (cache_only_getMySqlDriver Constants connection w) as (_ & _ & Hd1).
  destruct (getMySqlDriver Constants connection w) as [[mySqlDriver|?] w1];
    [|done]. simpl in Hd1.
  unfold bind at 1 in Hrun.
  pose proof (getRowsCount_counts Constants connection tableName filteringFields
                settings term w1) as Hcount.
  destruct (getRowsCount _ _ _ _ _ _ w1) as [[rowsCount|?] w2]; [|done].
  destruct (Hcount rowsCount eq_refl) as (Hd2 & _).
  simpl in Hd2. clear Hcount.
  unfold bind at 1 in Hrun.
  pose proof (keeps_db_findAvaliableFields Constants connection settings
                tableName w2) as Hd3.
  destruct (findAvaliableFields _ _ _ _ w2) as [[availableFields|?] w3]; [|done].
  simpl in Hd3.
  unfold bind at 1 in Hrun.
  pose proof (cache_only_configureKnex (connectionConfig connection) w3)
    as (_ & _ & Hd4).
  destruct (configureKnex _ w3) as [[knex|?] w4]; [|done]. simpl in Hd4.
  unfold bind at 1 in Hrun. unfold run_select, query in Hrun.
  assert (Hdb : db w4 = db w) by congruence.
  rewrite Hdb in Hrun.
  change (default "" (Knex.b_from (autocompleteBuilder Constants tableName
                                     requested)))
    with (default "" (Knex.b_from
                        (autocompleteCallback requested
                           (Knex.from tableName
                              (Knex.select (ac_fields requested)
                                 (Knex.knex None)))))) in Hrun.
  replace (default "" (Knex.b_from
                        (autocompleteCallback requested
                           (Knex.from tableName
                              (Knex.select (ac_fields requested)
                                 (Knex.knex None))))))
    with tableName in Hrun.
  2:{ unfold autocompleteCallback.
      destruct (negb _); [|done].
      unfold Knex.orWhere. by rewrite for_of_push_where. }
  destruct (table_rows _ (db w) tableName) as [e|rows] eqn:Hrows in Hrun;
    [done|].
  unfold ret in Hrun. simpl in Hrun. injection Hrun as <-. simpl.
  split; [done|]. by eexists _, rows.
Qed.

End Autocomplete.

(** X8.  An autocomplete request is answered on its own: the rows of the table
    on which some requested field starts with the value (every row when
    the value is the wildcard), the first [AUTOCOMPLETE_ROW_LIMIT] of them,
    each cut down to the requested fields, with an empty pagination object.
    The search term, the filters, the ordering and the page play no part in
    what comes back. *)
Theorem autocomplete_answers_by_prefix `{Collaborators}
    (Constants : ConstantsT) (connection : IConnection) (tableName : string)
    (settings : ITableSettings) (page perPage : option Z)
    (searchedFieldValue : option string) (filteringFields : list FilterObject)
    (requested : AutocompleteFields) (w : Dao.World) (r : IDaoRowsRO) :
  ac_value requested <> "" ->
  ac_fields requested <> [] ->
  (Dao.getRowsFromTable Constants connection tableName settings page perPage
     searchedFieldValue filteringFields (Some requested) w).1 = Dao.Return r ->
  let startsWith (row : Row) (field : string) :=
    cond_value row
      (Knex.WhereBasic field "like" (VStr (ac_value requested +:+ "%"))) in
  let suggested (row : Row) :=
    String.eqb (ac_value requested) "*"
    || Knex.is_true (Knex.any3 (map (startsWith row) (ac_fields requested))) in
  pagination r = None
  /\ exists via rows,
       table_rows via (Dao.db w) tableName = inr rows
       /\ data r
          = map (Dao.project (ac_fields requested))
              (take (Z.to_nat (AUTOCOMPLETE_ROW_LIMIT Constants))
                 (order_rows [] (List.filter suggested rows))).
Proof.
  intros Hvalue Hfields Hrun startsWith suggested.
  destruct (getRowsFromTable_autocomplete _ _ _ _ _ _ _ _ _ _ _
              Hvalue Hfields Hrun) as (Hpagination & via & rows & Hrows & Hdata).
  split; [exact Hpagination|]. exists via, rows. split; [exact Hrows|].
  rewrite Hdata. unfold Dao.select_result, Dao.matching.
  assert (Knex.b_columns (Dao.autocompleteBuilder Constants tableName requested)
          = ac_fields requested) as ->.
  { unfold Dao.autocompleteBuilder, Knex.modify, Dao.autocompleteCallback.
    destruct (negb _); [|done].
    unfold Knex.orWhere. by rewrite for_of_push_where. }
  assert (Knex.b_orders (Dao.autocompleteBuilder Constants tableName requested)
          = []) as ->.
  { unfold Dao.autocompleteBuilder, Knex.modify, Dao.autocompleteCallback.
    destruct (negb _); [|done].
    unfold Knex.orWhere. by rewrite for_of_push_where. }
  assert (Knex.b_offset (Dao.autocompleteBuilder Constants tableName requested)
          = None) as ->.
  { unfold Dao.autocompleteBuilder, Knex.modify, Dao.autocompleteCallback.
    destruct (negb _); [|done].
    unfold Knex.orWhere. by rewrite for_of_push_where. }
  simpl. do 3 f_equal.
  apply filter_ext. intros row.
  exact (autocompleteBuilder_selected Constants (cond_value row) tableName
           requested Hfields).
Qed.

Lemma autocomplete_answers_by_prefix_witness :
  let requested := {| ac_fields := ["author"]; ac_value := "Jo" |} in
  let suggestions : IDaoRowsRO :=
    {| data := [ {[ "author" := VStr "Joyce" ]};
                 {[ "author" := VStr "Joyce" ]} ];
       pagination := None |} in
  (Dao.getRowsFromTable Sample.Constants Sample.connection "books"
     Sample.noSettings (Some 1) (Some 2) (Some "Emma")
     [Sample.equals "author" "Austen"] (Some requested)
     (Sample.libraryWorld ∅ ∅)).1 = Dao.Return suggestions
  /\ data suggestions
     = map (Dao.project ["author"])
         (take 20
            (List.filter
               (fun row =>
                  Knex.is_true
                    (Knex.any3
                       [Sample.eval_cond row
                          (Knex.WhereBasic "author" "like" (VStr "Jo%"))]))
               Sample.books)).
Proof.
  intros requested suggestions.
  assert (Hrun :
    (Dao.getRowsFromTable Sample.Constants Sample.connection "books"
       Sample.noSettings (Some 1) (Some 2) (Some "Emma")
       [Sample.equals "author" "Austen"] (Some requested)
       (Sample.libraryWorld ∅ ∅)).1 = Dao.Return suggestions)
    by (vm_compute; reflexivity).
  split; [exact Hrun|].
  destruct (autocomplete_answers_by_prefix (H := Sample.server)
              Sample.Constants Sample.connection "books" Sample.noSettings
              (Some 1) (Some 2) (Some "Emma") [Sample.equals "author" "Austen"]
              requested (Sample.libraryWorld ∅ ∅) suggestions
              ltac:(discriminate) ltac:(discriminate) Hrun)
    as (_ & via & rows & Hrows & Hdata).
  injection Hrows as <-. exact Hdata.
Defined.

Section Paging.

Import Dao.
Context `{Collaborators}.
Variable Constants : ConstantsT.
Variable connection : IConnection.




End Paging.



Section SearchFacts.





End SearchFacts.





(* ===================================================================== *)
(** * Inserting: what comes back, and what a failure leaves               *)
(* ===================================================================== *)

Section Inserting.

Import Dao.
Context `{Collaborators}.
Variable Constants : ConstantsT.
Variable connection : IConnection.

Lemma getTablePrimaryColumns_rows tableName w primaryColumns :
  (getTablePrimaryColumns Constants connection tableName w).1
    = Return primaryColumns ->
  exists via columns,
    information_schema_columns via (db w) (database connection) tableName
      = inr columns
    /\ primaryColumns
       = map (fun c => {| pk_column_name := cat_column_name c;
                          pk_data_type := cat_data_type c |})
           (filter (fun c => cat_column_key c = "PRI") columns).
Proof.
  unfold getTablePrimaryColumns, mbind, M_bind. unfold bind at 1.
  pose proof (cache_only_handles Constants connection w) as (_ & _ & Hdb).
  destruct (handles Constants connection w) as [[via|e] w1]; [|done].
  simpl in Hdb. unfold bind, query. rewrite Hdb.
  destruct (information_schema_columns via (db w) _ _) as [e|columns] eqn:Hrows;
    [done|].
  simpl. intros [= <-]. by exists via, columns.
Qed.

(** Every way [addRowInTable] can end, on a row that is an object of the
    heap.  Before the INSERT nothing has been sent; the INSERT is sent with
    the serialized row; after it, the key is read from the row or from the
    follow-up select. *)
Lemma addRowInTable_outcome tableName row w o res w' :
  objects w !! row = Some o ->
  addRowInTable Constants connection tableName row w = (res, w') ->
  (exists e, res = Throw e /\ db w' = db w)
  \/ exists structure via columns keyColumn info,
       (getTableStructure Constants connection tableName w).1 = Return structure
       /\ information_schema_columns via (db w) (database connection) tableName
          = inr columns
       /\ head (filter (fun c => cat_column_key c = "PRI") columns)
          = Some keyColumn
       /\ structure !! Z.to_nat (indexOf (columnNames structure)
                                   (cat_column_name keyColumn)) = Some info
       /\ exists sent inserted,
            exec_insert sent (db w) tableName (stringified structure o)
              = inr inserted
            /\ db w' = inserted
            /\ if checkFieldAutoincrement (column_default info)
               then match exec_last_insert_id sent inserted tableName with
                    | inr (first :: _) =>
                        res = Return
                                (Some {[ cat_column_name keyColumn :=
                                           default VUndefined
                                             (first !! "LAST_INSERT_ID()") ]})
                    | inr [] =>
                        res = Throw
                                (ErrorOf
                                   (TypeError
                                      "Cannot read properties of undefined (reading 'LAST_INSERT_ID()')"))
                    | inl cause => res = Throw (ErrorOf cause)
                    end
               else res = Return
                            (Some {[ cat_column_name keyColumn :=
                                       default VUndefined
                                         (stringified structure o
                                            !! cat_column_name keyColumn) ]}).
Proof.
  intros Hrow Hrun.
  unfold addRowInTable, mbind, M_bind in Hrun.
  unfold bind at 1 in Hrun.
  pose proof (cache_only_getTableStructure Constants connection tableName w)
    as (_ & Ho1 & Hd1).
  destruct (getTableStructure Constants connection tableName w)
    as [[structure|e] w1] eqn:Hstructure; simpl in Ho1, Hd1;
    [|simplify_eq; left; by eexists].
  unfold bind at 1 in Hrun.
  rewrite (stringifyJsonColumns_spec _ _ _ o) in Hrun by (by rewrite Ho1).
  set (w2 := set_objects _ w1) in Hrun.
  assert (Ho2 : objects w2 = <[row := stringified structure o]> (objects w))
    by (subst w2; simpl; by rewrite Ho1).
  assert (Hd2 : db w2 = db w) by (by subst w2).
  clearbody w2.
  unfold bind at 1 in Hrun.
  pose proof (cache_only_getTablePrimaryColumns Constants connection tableName w2)
    as (_ & Ho3 & Hd3).
  pose proof (getTablePrimaryColumns_rows tableName w2) as Hprimary.
  destruct (getTablePrimaryColumns Constants connection tableName w2)
    as [[primaryColumns|e] w3]; simpl in Ho3, Hd3;
    [|simplify_eq; left; eexists; split; [done|congruence]].
  destruct (Hprimary _ eq_refl) as (viaColumns & columns & Hcolumns & ->).
  clear Hprimary. rewrite Hd2 in Hcolumns.
  unfold bind at 1 in Hrun.
  destruct (filter (fun c => cat_column_key c = "PRI") columns)
    as [|keyColumn others] eqn:Hkey; simpl in Hrun;
    [unfold property_of_undefined, throw in Hrun; simplify_eq;
     left; eexists; split; [done|congruence]|].
  unfold ret at 1 in Hrun.
  unfold bind at 1 in Hrun.
  pose proof (cache_only_handles Constants connection w3) as (_ & Ho4 & Hd4).
  destruct (handles Constants connection w3) as [[via|e] w4];
    simpl in Ho4, Hd4;
    [|simplify_eq; left; eexists; split; [done|congruence]].
  assert (Ho : objects w4 !! row = Some (stringified structure o))
    by (rewrite Ho4, Ho3, Ho2; apply lookup_insert_eq).
  assert (Hd : db w4 = db w) by congruence.
  clear Ho1 Hd1 Ho2 Hd2 Ho3 Hd3 Ho4 Hd4.
  unfold bind at 1 in Hrun.
  set (index := indexOf (columnNames structure) (cat_column_name keyColumn))
    in *.
  destruct (index <? 0) eqn:Hindex;
    [unfold property_of_undefined, throw in Hrun; simplify_eq;
     left; by eexists|].
  destruct (structure !! Z.to_nat index) as [info|] eqn:Hinfo;
    [|unfold property_of_undefined, throw in Hrun; simplify_eq;
      left; by eexists].
  unfold ret at 1 in Hrun.
  destruct (checkFieldAutoincrement (column_default info)) eqn:Hauto;
    cbn [negb] in Hrun;
    unfold try_catch, knex_insert, mbind, M_bind, bind, read_object, statement,
      get_prop, query, ret, throw, property_of_undefined in Hrun;
    unfold throw in Hrun; cbv beta iota in Hrun;
    rewrite Ho, Hd in Hrun; simpl default in Hrun;
    (destruct (exec_insert via (db w) tableName (stringified structure o))
       as [err|inserted] eqn:Hinsert;
     [left; simplify_eq; by eexists|]);
    right; exists structure, viaColumns, columns, keyColumn, info;
    (split; [done|]); (split; [done|]); (split; [by rewrite Hkey|]);
    (split; [done|]);
    exists via, inserted; (split; [done|]); rewrite Hauto.
  - change (db (set_db inserted w4)) with inserted in Hrun.
    destruct (exec_last_insert_id via inserted tableName) as [cause|[|first ids]];
      simpl in Hrun; simplify_eq; by split.
  - simpl in Hrun. rewrite Ho in Hrun. simpl in Hrun. simplify_eq. by split.
Qed.

End Inserting.

(** X12. What a successful [addRowInTable] returns: an object with one
    property, named after the first primary-key column of the catalog's
    answer (a composite key is cut down to its first column). For an
    auto-increment column the value is the [LAST_INSERT_ID()] of the
    follow-up select; for any other it is what the row holds under that name
    once serialized, [undefined] when the row does not have it. *)
Theorem insert_reports_first_key_column `{Collaborators}
    (Constants : ConstantsT) (connection : IConnection) (tableName : string)
    (row : loc) (w : Dao.World) (o : Row) (result : option Row) :
  Dao.objects w !! row = Some o ->
  (Dao.addRowInTable Constants connection tableName row w).1
    = Dao.Return result ->
  exists structure via columns keyColumn info value,
    (Dao.getTableStructure Constants connection tableName w).1
      = Dao.Return structure
    /\ information_schema_columns via (Dao.db w) (database connection) tableName
       = inr columns
    /\ head (filter (fun c => cat_column_key c = "PRI") columns)
       = Some keyColumn
    /\ structure !! Z.to_nat (indexOf (Dao.columnNames structure)
                                (cat_column_name keyColumn)) = Some info
    /\ result = Some {[ cat_column_name keyColumn := value ]}
    /\ if checkFieldAutoincrement (column_default info)
       then exists sent first others,
              exec_last_insert_id sent
                (Dao.db (Dao.addRowInTable Constants connection tableName row
                           w).2) tableName
                = inr (first :: others)
              /\ value = default VUndefined (first !! "LAST_INSERT_ID()")
       else value = default VUndefined
                      (Dao.stringified structure o
                         !! cat_column_name keyColumn).
Proof.
  intros Hrow Hrun.
  destruct (Dao.addRowInTable Constants connection tableName row w)
    as [res w'] eqn:Hadd.
  simpl in Hrun |- *. subst res.
  destruct (addRowInTable_outcome _ _ _ _ _ _ _ _ Hrow Hadd)
    as [(e & [=] & _)
       |(structure & via & columns & keyColumn & info & Hstructure & Hcolumns
         & Hkey & Hinfo & sent & inserted & Hinsert & Hdb & Hres)].
  exists structure, via, columns, keyColumn, info.
  destruct (checkFieldAutoincrement (column_default info)).
  - destruct (exec_last_insert_id sent inserted tableName)
      as [cause|[|first others]] eqn:Hid; try done.
    injection Hres as ->. eexists.
    do 5 (split; [done|]). exists sent, first, others. by rewrite Hdb.
  - injection Hres as ->. eexists. by do 5 (split; [done|]).
Qed.

Lemma insert_reports_first_key_column_witness :
  let w := Sample.world ∅ {[ 1%positive := Sample.newUser ]} in
  Dao.objects w !! 1%positive = Some Sample.newUser
  /\ (Dao.addRowInTable Sample.Constants Sample.connection "users" 1%positive
        w).1 = Dao.Return (Some {[ "id" := VNum 8 ]})
  /\ exists keyColumn value,
       head (filter (fun c => cat_column_key c = "PRI")
               (Sample.columns_of Sample.database "users")) = Some keyColumn
       /\ Some ({[ "id" := VNum 8 ]} : Row)
          = Some {[ cat_column_name keyColumn := value ]}.
Proof.
  intros w.
  assert (Hrow : Dao.objects w !! 1%positive = Some Sample.newUser)
    by reflexivity.
  assert (Hrun :
    (Dao.addRowInTable Sample.Constants Sample.connection "users" 1%positive
       w).1 = Dao.Return (Some {[ "id" := VNum 8 ]}))
    by (vm_compute; reflexivity).
  split; [exact Hrow|]. split; [exact Hrun|].
  destruct (insert_reports_first_key_column (H := Sample.server)
              Sample.Constants Sample.connection "users" 1%positive w
              Sample.newUser _ Hrow Hrun)
    as (structure & via & columns & keyColumn & info & value & _ & Hcolumns
        & Hkey & _ & Hresult & _).
  injection Hcolumns as <-.
  exists keyColumn, value. split; [exact Hkey | exact Hresult].
Defined.

(** X13.  What a failed [addRowInTable] leaves behind.  An exception that is not
    wrapped in [Error] was thrown before the INSERT: the table is as it
    was.  A wrapped one may come after it: when the INSERT has gone through
    and reading the generated id fails, the call throws with the row in the
    table. *)
Theorem failed_insert_may_have_inserted `{Collaborators}
    (Constants : ConstantsT) (connection : IConnection) (tableName : string)
    (row : loc) (w : Dao.World) (o : Row) (e : Exn) :
  Dao.objects w !! row = Some o ->
  (Dao.addRowInTable Constants connection tableName row w).1 = Dao.Throw e ->
  let after :=
    Dao.db (Dao.addRowInTable Constants connection tableName row w).2 in
  ((forall cause, e <> ErrorOf cause) -> after = Dao.db w)
  /\ (after = Dao.db w
      \/ exists sent structure cause,
           e = ErrorOf cause
           /\ exec_insert sent (Dao.db w) tableName
                (Dao.stringified structure o) = inr after
           /\ (exec_last_insert_id sent after tableName = inl cause
               \/ exec_last_insert_id sent after tableName = inr [])).
Proof.
  intros Hrow Hrun after. subst after.
  destruct (Dao.addRowInTable Constants connection tableName row w)
    as [res w'] eqn:Hadd.
  simpl in Hrun |- *. subst res.
  destruct (addRowInTable_outcome _ _ _ _ _ _ _ _ Hrow Hadd)
    as [(e' & _ & Hdb)
       |(structure & via & columns & keyColumn & info & Hstructure & Hcolumns
         & Hkey & Hinfo & sent & inserted & Hinsert & Hdb & Hres)].
  { split; [done | by left]. }
  subst inserted.
  destruct (checkFieldAutoincrement (column_default info)); [|done].
  destruct (exec_last_insert_id sent (Dao.db w') tableName)
    as [cause|[|first others]] eqn:Hid; [| |done].
  - injection Hres as ->. split; [intros Hnot; by destruct (Hnot cause)|].
    right. exists sent, structure, cause. split; [done|]. split; [done|].
    by left.
  - injection Hres as ->. split; [intros Hnot; by edestruct Hnot|].
    right. eexists sent, structure, _. split; [done|]. split; [done|].
    by right.
Qed.

Lemma failed_insert_may_have_inserted_witness :
  let w := Sample.forgetfulWorld {[ 1%positive := Sample.newUser ]} in
  let added :=
    Dao.addRowInTable Sample.Constants Sample.connection "users" 1%positive w in
  let lost := DriverError "Lost connection to MySQL server during query" in
  Dao.objects w !! 1%positive = Some Sample.newUser
  /\ added.1 = Dao.Throw (ErrorOf lost)
  /\ length (Sample.rows_of (Dao.db w) "users") = 0%nat
  /\ length (Sample.rows_of (Dao.db added.2) "users") = 1%nat
  /\ exists structure,
       Sample.insert_row (Dao.db w) "users"
         (Dao.stringified structure Sample.newUser) = Dao.db added.2.
Proof.
  intros w added lost. subst added lost.
  assert (Hrow : Dao.objects w !! 1%positive = Some Sample.newUser)
    by reflexivity.
  assert (Hrun :
    (Dao.addRowInTable Sample.Constants Sample.connection "users" 1%positive
       w).1
    = Dao.Throw
        (ErrorOf (DriverError "Lost connection to MySQL server during query")))
    by (vm_compute; reflexivity).
  assert (Hafter :
    length (Sample.rows_of
              (Dao.db (Dao.addRowInTable Sample.Constants Sample.connection
                         "users" 1%positive w).2) "users") = 1%nat)
    by (vm_compute; reflexivity).
  split; [exact Hrow|]. split; [exact Hrun|].
  split; [reflexivity|]. split; [exact Hafter|].
  destruct (failed_insert_may_have_inserted (H := Sample.forgetful)
              Sample.Constants Sample.connection "users" 1%positive w
              Sample.newUser _ Hrow Hrun)
    as (_ & [Hsame | (sent & structure & cause & _ & Hinsert & _)]).
  - rewrite Hsame in Hafter. discriminate Hafter.
  - exists structure. exact (inj inr _ _ Hinsert).
Defined.

(* ===================================================================== *)
(** * Serializing twice                                                   *)
(* ===================================================================== *)

Section Reserialization.

Lemma json_escape_char_length c : (1 <= String.length (json_escape_char c))%nat.
Proof.
  unfold json_escape_char.
  repeat case_match; rewrite ?length_append; simpl; lia.
Qed.

Lemma json_escape_length s :
  (String.length s <= String.length (json_escape s))%nat.
Proof.
  induction s as [|c s IH]; [done|].
  simpl. rewrite length_append.
  pose proof (json_escape_char_length c). lia.
Qed.

(** Quoting makes a string longer: it is never a fixed point. *)
Lemma json_quote_longer s :
  (String.length s + 2 <= String.length (json_quote s))%nat.
Proof.
  unfold json_quote. rewrite !length_append.
  pose proof (json_escape_length s).
  change (String.length dquote) with 1%nat. lia.
Qed.

Lemma json_quote_differs s : json_quote s <> s.
Proof.
  intros Heq. pose proof (json_quote_longer s) as Hlen.
  rewrite Heq in Hlen. lia.
Qed.

(** Everything but [undefined] has a JSON text. *)
Lemma JSON_stringify_text v :
  v <> VUndefined -> exists text, JSON_stringify v = VStr text.
Proof.
  intros Hv. unfold JSON_stringify.
  destruct v as [| |[]| | | |]; simpl; try done; by eexists.
Qed.

End Reserialization.

(** X14.  Serializing is not idempotent, and the row object is shared with the
    caller: an [updateRowInTable] repeated with the same row object sends,
    under a JSON column, the JSON text of the JSON text the first call left
    there, quoted and escaped a second time. *)
Theorem update_repeated_serializes_again `{Collaborators}
    (Constants : ConstantsT) (connection : IConnection) (tableName : string)
    (row : loc) (primaryKey : Row) (w : Dao.World) (o : Row)
    (structure : list IStructureInfo) (key : string) (v : JsValue) :
  let first :=
    Dao.updateRowInTable Constants connection tableName row primaryKey w in
  let second :=
    Dao.updateRowInTable Constants connection tableName row primaryKey first.2 in
  Dao.objects w !! row = Some o ->
  (Dao.getTableStructure Constants connection tableName w).1
    = Dao.Return structure ->
  (Dao.getTableStructure Constants connection tableName first.2).1
    = Dao.Return structure ->
  includes (Dao.jsonColumnNames structure) key = true ->
  o !! key = Some v ->
  v <> VUndefined ->
  exists once sent,
    JSON_stringify v = VStr once
    /\ Dao.objects first.2 !! row = Some (Dao.stringified structure o)
    /\ Dao.stringified structure o !! key = Some (VStr once)
    /\ Dao.objects second.2 !! row = Some sent
    /\ sent !! key = Some (VStr (json_quote once))
    /\ json_quote once <> once
    /\ forall result,
         second.1 = Dao.Return result ->
         exists via,
           exec_update via (Dao.db first.2) tableName primaryKey sent
           = inr (Dao.db second.2, result).
Proof.
  intros first second Hrow Hstructure Hagain Hjson Hkey Hv.
  destruct (JSON_stringify_text v Hv) as [once Honce].
  exists once, (Dao.stringified structure (Dao.stringified structure o)).
  split; [done|].
  assert (Hfirst :
    Dao.objects first.2
    = <[row := Dao.stringified structure o]> (Dao.objects w)).
  { subst first.
    destruct (Dao.getTableStructure Constants connection tableName w)
      as [res w1] eqn:Hs. simpl in Hstructure. subst res.
    destruct (Dao.updateRowInTable Constants connection tableName row
                primaryKey w) as [res w'] eqn:Hrun.
    by destruct (updateRowInTable_row _ _ _ _ _ _ _ _ _ Hrow Hs _ _ Hrun). }
  assert (Hrow' : Dao.objects first.2 !! row
                  = Some (Dao.stringified structure o))
    by (rewrite Hfirst; apply lookup_insert_eq).
  assert (Hsecond :
    Dao.objects second.2
    = <[row := Dao.stringified structure (Dao.stringified structure o)]>
        (Dao.objects first.2)
    /\ forall result,
         second.1 = Dao.Return result ->
         exists via,
           exec_update via (Dao.db first.2) tableName primaryKey
             (Dao.stringified structure (Dao.stringified structure o))
           = inr (Dao.db second.2, result)).
  { subst second.
    destruct (Dao.getTableStructure Constants connection tableName first.2)
      as [res w1] eqn:Hs. simpl in Hagain. subst res.
    destruct (Dao.updateRowInTable Constants connection tableName row
                primaryKey first.2) as [res w'] eqn:Hrun.
    by destruct (updateRowInTable_row _ _ _ _ _ _ _ _ _ Hrow' Hs _ _ Hrun). }
  destruct Hsecond as [Hobjects Hsent].
  split; [done|].
  assert (Honce' : Dao.stringified structure o !! key = Some (VStr once)).
  { rewrite stringified_lookup, Hkey. simpl. by rewrite Hjson, Honce. }
  split; [done|].
  split; [rewrite Hobjects; apply lookup_insert_eq|].
  split; [rewrite stringified_lookup, Honce'; simpl; by rewrite Hjson|].
  split; [apply json_quote_differs | exact Hsent].
Qed.

Lemma update_repeated_serializes_again_witness :
  let w := Sample.world ∅ {[ 1%positive := Sample.newUser ]} in
  let first :=
    Dao.updateRowInTable Sample.Constants Sample.connection "users" 1%positive
      {[ "id" := VNum 1 ]} w in
  let second :=
    Dao.updateRowInTable Sample.Constants Sample.connection "users" 1%positive
      {[ "id" := VNum 1 ]} first.2 in
  (Dao.getTableStructure Sample.Constants Sample.connection "users" w).1
  = Dao.Return Sample.usersStructure
  /\ (Dao.getTableStructure Sample.Constants Sample.connection "users"
        first.2).1 = Dao.Return Sample.usersStructure
  /\ includes (Dao.jsonColumnNames Sample.usersStructure) "meta" = true
  /\ exists once sent,
       JSON_stringify (VObj [("k", VNum 1)]) = VStr once
       /\ Dao.objects second.2 !! 1%positive = Some sent
       /\ sent !! "meta" = Some (VStr (json_quote once)).
Proof.
  intros w first second.
  assert (Hstructure :
    (Dao.getTableStructure Sample.Constants Sample.connection "users" w).1
    = Dao.Return Sample.usersStructure) by (vm_compute; reflexivity).
  assert (Hagain :
    (Dao.getTableStructure Sample.Constants Sample.connection "users"
       first.2).1 = Dao.Return Sample.usersStructure)
    by (vm_compute; reflexivity).
  assert (Hjson : includes (Dao.jsonColumnNames Sample.usersStructure) "meta"
                  = true) by (vm_compute; reflexivity).
  split; [exact Hstructure|]. split; [exact Hagain|]. split; [exact Hjson|].
  destruct (update_repeated_serializes_again (H := Sample.server)
              Sample.Constants Sample.connection "users" 1%positive
              {[ "id" := VNum 1 ]} w Sample.newUser Sample.usersStructure
              "meta" (VObj [("k", VNum 1)]) eq_refl Hstructure Hagain Hjson
              ltac:(vm_compute; reflexivity) ltac:(discriminate))
    as (once & sent & Honce & _ & _ & Hsent & Hmeta & _).
  exists once, sent. split; [exact Honce|]. split; [exact Hsent | exact Hmeta].
Defined.

(* ===================================================================== *)
(** * The entries of a table structure                                    *)
(* ===================================================================== *)

Section StructureFacts.

(** [split] always yields at least one piece. *)
Lemma split_go_nonempty sep skip cur s : split_go sep skip cur s <> [].
Proof.
  revert skip cur. induction s as [|c s IH]; intros skip cur; [done|].
  destruct skip as [|k]; [|exact (IH k cur)].
  rewrite split_go_cons.
  destruct (String.prefix sep (String c s)); [done | apply IH].
Qed.

Lemma normalizeColumn_canonical element :
  let info := Dao.normalizeColumn element in
  (data_type_params info = None
   <-> data_type info <> "enum" /\ data_type info <> "set")
  /\ data_type_params info <> Some []
  /\ character_maximum_length info <> Some 0.
Proof.
  unfold Dao.normalizeColumn. simpl.
  destruct (String.eqb_spec (cat_data_type element) "set") as [Hset|Hset];
    destruct (String.eqb_spec (cat_data_type element) "enum") as [Henum|Henum].
  - congruence.
  - split; [split; [done | tauto]|].
    split; [intros [= Hnil]; by apply split_go_nonempty in Hnil|].
    destruct (cat_character_maximum_length element) as [n|],
      (getNumbersFromString (cat_column_type element)) as [m|]; simpl;
      repeat case_match; try done; intros [= ->]; done.
  - split; [split; [done | tauto]|].
    split; [intros [= Hnil]; by apply split_go_nonempty in Hnil|].
    destruct (cat_character_maximum_length element) as [n|],
      (getNumbersFromString (cat_column_type element)) as [m|]; simpl;
      repeat case_match; try done; intros [= ->]; done.
  - split; [done|]. split; [done|].
    destruct (cat_character_maximum_length element) as [n|],
      (getNumbersFromString (cat_column_type element)) as [m|]; simpl;
      repeat case_match; try done; intros [= ->]; done.
Qed.

End StructureFacts.

(** X15.  What every entry of a table structure satisfies: it carries
    [data_type_params] exactly when its data type is enum or set, and then
    at least one value; and its [character_maximum_length] is a number
    other than zero, or null. *)
Theorem structure_entries_are_canonical `{Collaborators}
    (Constants : ConstantsT) (connection : IConnection) (tableName : string)
    (w : Dao.World) (structure : list IStructureInfo) :
  (Dao.getTableStructure Constants connection tableName w).1
    = Dao.Return structure ->
  Forall (fun info =>
            (data_type_params info = None
             <-> data_type info <> "enum" /\ data_type info <> "set")
            /\ data_type_params info <> Some []
            /\ character_maximum_length info <> Some 0) structure.
Proof.
  intros Hrun.
  destruct (getTableStructure_rows _ _ _ _ _ Hrun) as (via & rows & _ & ->).
  apply Forall_map, Forall_forall. intros element _.
  apply normalizeColumn_canonical.
Qed.

Lemma structure_entries_are_canonical_witness :
  (Dao.getTableStructure Sample.Constants Sample.connection "tickets"
     (Sample.world ∅ ∅)).1 = Dao.Return Sample.ticketsStructure
  /\ Forall (fun info => data_type_params info <> Some []
                         /\ character_maximum_length info <> Some 0)
       Sample.ticketsStructure.
Proof.
  assert (Hrun :
    (Dao.getTableStructure Sample.Constants Sample.connection "tickets"
       (Sample.world ∅ ∅)).1 = Dao.Return Sample.ticketsStructure)
    by (vm_compute; reflexivity).
  split; [exact Hrun|].
  eapply Forall_impl;
    [exact (structure_entries_are_canonical (H := Sample.server) _ _ _ _ _ Hrun)|].
  intros info (_ & Hparams & Hlength). by split.
Defined.

(* ===================================================================== *)
(** * Reading writes nothing                                              *)
(* ===================================================================== *)

Section Reading.

Import Dao.
Context `{Collaborators} {statements : Statements}.
Variable Constants : ConstantsT.
Variable connection : IConnection.

Lemma keeps_objects_cache_only {A} (m : M A) : cache_only m -> keeps_objects m.
Proof. intros Hm w. by destruct (Hm w) as (_ & ? & _). Qed.

Lemma keeps_objects_ret {A} (a : A) : keeps_objects (ret a).
Proof. done. Qed.

Lemma keeps_objects_bind {A B} (m : M A) (f : A -> M B) :
  keeps_objects m -> (forall a, keeps_objects (f a)) -> keeps_objects (bind m f).
Proof.
  intros Hm Hf w. unfold bind. specialize (Hm w).
  destruct (m w) as [[a|e] w1]; simpl in *; [|done].
  by rewrite Hf.
Qed.

Lemma keeps_objects_for_of {A} (xs : list A) (body : A -> M unit) :
  (forall x, keeps_objects (body x)) -> keeps_objects (for_of xs body).
Proof.
  intros Hbody. induction xs as [|x xs IH]; simpl.
  - apply keeps_objects_ret.
  - apply keeps_objects_bind; [apply Hbody|]. intros _. apply IH.
Qed.

Lemma keeps_objects_read_array r : keeps_objects (read_array r).
Proof. done. Qed.

Lemma keeps_objects_write_array r xs : keeps_objects (write_array r xs).
Proof. done. Qed.

Lemma keeps_objects_new_array xs : keeps_objects (new_array xs).
Proof. done. Qed.

Lemma keeps_objects_query {A} (q : Database -> Exn + A) :
  keeps_objects (query q).
Proof. apply keeps_objects_cache_only, cache_only_query. Qed.

Lemma keeps_db_query {A} (q : Database -> Exn + A) : keeps_db (query q).
Proof. apply keeps_db_cache_only, cache_only_query. Qed.

Lemma keeps_objects_handles : keeps_objects (handles Constants connection).
Proof. apply keeps_objects_cache_only, cache_only_handles. Qed.

Lemma keeps_db_handles : keeps_db (handles Constants connection).
Proof. apply keeps_db_cache_only, cache_only_handles. Qed.

Lemma keeps_objects_getTableStructure tableName :
  keeps_objects (getTableStructure Constants connection tableName).
Proof. apply keeps_objects_cache_only, cache_only_getTableStructure. Qed.

#[local] Hint Resolve keeps_objects_ret keeps_objects_bind keeps_objects_for_of
  keeps_objects_read_array keeps_objects_write_array keeps_objects_new_array
  keeps_objects_query keeps_objects_handles keeps_objects_getTableStructure
  keeps_db_ret keeps_db_bind keeps_db_for_of keeps_db_read_array
  keeps_db_write_array keeps_db_new_array keeps_db_query keeps_db_handles
  keeps_db_getTableStructure keeps_db_findAvaliableFields : frames.

Lemma keeps_objects_findAvaliableFields settings tableName :
  keeps_objects (findAvaliableFields Constants connection settings tableName).
Proof.
  unfold findAvaliableFields, mbind, M_bind.
  destruct (isObjectEmpty settings); [auto with frames|].
  apply keeps_objects_bind.
  - destruct (list_fields settings) as [fields|]; [|auto with frames].
    apply keeps_objects_bind; [auto with frames|].
    intros elements. destruct (0 <? _); auto with frames.
  - intros availableFields. apply keeps_objects_bind; [|auto with frames].
    apply keeps_objects_for_of. intros field.
    apply keeps_objects_bind; [auto with frames|]. intros elements.
    destruct (0 <=? _); auto with frames.
Qed.

#[local] Hint Resolve keeps_objects_findAvaliableFields : frames.

Lemma keeps_getRowsFromTable tableName settings page perPage term filters ac :
  keeps_db (getRowsFromTable Constants connection tableName settings page
              perPage term filters ac)
  /\ keeps_objects (getRowsFromTable Constants connection tableName settings
                      page perPage term filters ac).
Proof.
  unfold getRowsFromTable, getRowsCount, run_select, run_count, mbind, M_bind.
  destruct (paginationDefaults Constants settings page perPage)
    as [page' perPage'].
  split.
  - apply keeps_db_bind;
      [apply keeps_db_cache_only, cache_only_getMySqlDriver|]. intros driver.
    apply keeps_db_bind; [auto with frames|]. intros rowsCount.
    apply keeps_db_bind; [auto with frames|]. intros availableFields.
    apply keeps_db_bind;
      [apply keeps_db_cache_only, cache_only_configureKnex|]. intros knex.
    destruct (autocompleteRequested ac); auto 6 with frames.
  - apply keeps_objects_bind;
      [apply keeps_objects_cache_only, cache_only_getMySqlDriver|].
    intros driver.
    apply keeps_objects_bind; [auto with frames|]. intros rowsCount.
    apply keeps_objects_bind; [auto with frames|]. intros availableFields.
    apply keeps_objects_bind;
      [apply keeps_objects_cache_only, cache_only_configureKnex|]. intros knex.
    destruct (autocompleteRequested ac); auto 6 with frames.
Qed.

Lemma keeps_getRowByPrimaryKey tableName primaryKey settings :
  keeps_db (getRowByPrimaryKey Constants connection tableName primaryKey
              settings)
  /\ keeps_objects (getRowByPrimaryKey Constants connection tableName
                      primaryKey settings).
Proof.
  unfold getRowByPrimaryKey, run_select, mbind, M_bind.
  split.
  - apply keeps_db_bind; [auto with frames|]. intros via.
    destruct settings as [settings|]; [|auto with frames].
    destruct (isObjectEmpty settings); auto 6 with frames.
  - apply keeps_objects_bind; [auto with frames|]. intros via.
    destruct settings as [settings|]; [|auto with frames].
    destruct (isObjectEmpty settings); auto 6 with frames.
Qed.

Lemma cache_only_testConnect : cache_only (testConnect Constants connection).
Proof.
  intros w.
  unfold testConnect, mbind, M_bind.
  unfold bind at 1. unfold try_catch at 1. unfold bind at 1.
  pose proof (cache_only_getMySqlDriver Constants connection w) as Hframe1.
  destruct (getMySqlDriver Constants connection w) as [[driver|e] w1];
    simpl in Hframe1 |- *; [|done].
  unfold bind at 1.
  pose proof (cache_only_configureKnex connection w1) as Hframe2.
  destruct (configureKnex connection w1) as [[knex|e] w2];
    simpl in Hframe2 |- *; [|by eapply same_data_trans].
  unfold try_catch, bind, query, ret.
  destruct (exec_select_1 _ _); simpl; by eapply same_data_trans.
Qed.

Lemma cache_only_getTableForeignKeys tableName :
  cache_only (getTableForeignKeys Constants connection tableName).
Proof.
  apply cache_only_bind; [apply cache_only_handles|]. intros via.
  apply cache_only_bind; [apply cache_only_query|]. intros keys.
  apply cache_only_ret.
Qed.

Lemma cache_only_getTablesFromDB :
  cache_only (getTablesFromDB Constants connection).
Proof.
  apply cache_only_bind; [apply cache_only_handles|]. intros via.
  apply cache_only_bind; [apply cache_only_query|]. intros results.
  apply cache_only_ret.
Qed.

End Reading.

(** X16.  Reading writes nothing.  No operation that reads - the listing, the
    row by key, the structure, the primary and the foreign keys, the table
    names, the probe - changes the database or a row object of the caller. *)
Theorem reading_changes_no_row `{Collaborators} {statements : Statements}
    (Constants : ConstantsT) (connection : IConnection) (tableName : string)
    (settings : ITableSettings) (page perPage : option Z)
    (searchedFieldValue : option string) (filteringFields : list FilterObject)
    (autocompleteFields : option AutocompleteFields) (primaryKey : Row)
    (keySettings : option ITableSettings) (w : Dao.World) :
  let untouched {A} (run : Dao.Result A * Dao.World) :=
    Dao.db run.2 = Dao.db w /\ Dao.objects run.2 = Dao.objects w in
  untouched (Dao.getRowsFromTable Constants connection tableName settings page
               perPage searchedFieldValue filteringFields autocompleteFields w)
  /\ untouched (Dao.getRowByPrimaryKey Constants connection tableName
                  primaryKey keySettings w)
  /\ untouched (Dao.getTableStructure Constants connection tableName w)
  /\ untouched (Dao.getTablePrimaryColumns Constants connection tableName w)
  /\ untouched (Dao.getTableForeignKeys Constants connection tableName w)
  /\ untouched (Dao.getTablesFromDB Constants connection w)
  /\ untouched (Dao.testConnect Constants connection w).
Proof.
  intros untouched. subst untouched. cbv beta.
  split; [split; apply keeps_getRowsFromTable|].
  split; [split; apply keeps_getRowByPrimaryKey|].
  split; [by destruct (cache_only_getTableStructure Constants connection
                         tableName w) as (_ & ? & ?)|].
  split; [by destruct (cache_only_getTablePrimaryColumns Constants connection
                         tableName w) as (_ & ? & ?)|].
  split; [by destruct (cache_only_getTableForeignKeys Constants connection
                         tableName w) as (_ & ? & ?)|].
  split; [by destruct (cache_only_getTablesFromDB Constants connection w)
            as (_ & ? & ?)|].
  by destruct (cache_only_testConnect Constants connection w) as (_ & ? & ?).
Qed.

(* ===================================================================== *)
(** * The row of a key                                                    *)
(* ===================================================================== *)

Section ByKey.

Import Dao.
Context `{Collaborators}.
Variable Constants : ConstantsT.
Variable connection : IConnection.





End ByKey.



(* ===================================================================== *)
(** * The built-ins on examples                                           *)
(* ===================================================================== *)

Example js_slice_enum :
  slice "enum('a','b','c')" 6 (17 - 2) = "a','b','c".
Proof. reflexivity. Qed.

Example js_slice_short : slice "x" 6 (1 - 2) = "".
Proof. reflexivity. Qed.

Example js_split_enum :
  split "','" "a','b','c" = ["a"; "b"; "c"].
Proof. reflexivity. Qed.

Example js_split_trailing : split "','" "a','" = ["a"; ""].
Proof. reflexivity. Qed.

Example js_stringify_object :
  JSON_stringify (VObj [("a", VNum 1); ("b", VArr [VStr "x"; VNull])])
  = VStr ("{" +:+ dquote +:+ "a" +:+ dquote +:+ ":1,"
              +:+ dquote +:+ "b" +:+ dquote +:+ ":["
              +:+ dquote +:+ "x" +:+ dquote +:+ ",null]}").
Proof. vm_compute. reflexivity. Qed.

Example numbers_of_varchar : getNumbersFromString "varchar(45)" = Some 45.
Proof. reflexivity. Qed.

Example numbers_of_decimal : getNumbersFromString "decimal(10,2)" = Some 10.
Proof. reflexivity. Qed.

Example numbers_of_text : getNumbersFromString "text" = None.
Proof. reflexivity. Qed.

Example last_page_of_25_by_10 : Dao.ceil_div 25 (Some 10) = Some 3.
Proof. reflexivity. Qed.
